(** * SyncMate backend: onboarding, credential check and project services

    A shallow embedding of
      - the auth service ([loginOrCreateAccountService],
        [registerUserService], [verifyUserService]),
      - the User model (schema setters, the [pre("save")] hook,
        [omitPassword], [comparePassword]),
      - the project service ([getProjectAnalyticsService],
        [updateProjectService]),
    over a small model of the document store, its transactions and the
    Mongoose document life cycle.

    Conventions.
      - ObjectIds and dates are natural numbers; [new Date()] reads the
        clock of the world, [new Model(...)] takes the next ObjectId.
      - A collection is the list of its documents in insertion order, so
        [findOne] returns the oldest match.
      - Every operation works in the monad [M]: a state transformer over
        [World] whose result is a value or a thrown exception.
      - One client runs at a time: the writes of a transaction go to the
        database of the world, the session keeps the database of the
        start of the transaction, and [abortTransaction] puts it back.
        [commitTransaction] and [abortTransaction] fail only when the
        state of the session forbids them.
      - Strings are ASCII text: [trim] and [toLowerCase] are the ASCII
        fragments of the JavaScript built-ins.
      - [console.log] calls and the [createdAt]/[updatedAt] timestamps are
        left out.

    The services are first related, by symbolic execution in a weakest
    precondition calculus for [M], to a direct description of the
    onboarding sequence ([register_post], [login_post]); the properties
    of the specification follow from that description. *)

From Stdlib Require Import Bool Arith List String Ascii Lia ZArith.
From Stdlib Require Import Permutation.
From stdpp Require Import base option list strings gmap.
Import ListNotations.

Local Open Scope string_scope.
Local Open Scope list_scope.

(** ** JavaScript strings *)

(** White space: tab, line feed, vertical tab, form feed, carriage return
    and space. *)
Definition is_whitespace (c : ascii) : bool :=
  existsb (Ascii.eqb c)
          ["009"%char; "010"%char; "011"%char; "012"%char; "013"%char; " "%char].

Fixpoint trimStart (s : string) : string :=
  match s with
  | EmptyString => EmptyString
  | String c s' => if is_whitespace c then trimStart s' else s
  end.

Fixpoint trimEnd (s : string) : string :=
  match s with
  | EmptyString => EmptyString
  | String c s' =>
      match trimEnd s' with
      | EmptyString => if is_whitespace c then EmptyString else String c EmptyString
      | t => String c t
      end
  end.

Definition trim (s : string) : string := trimEnd (trimStart s).

Definition lower_ascii (c : ascii) : ascii :=
  let n := nat_of_ascii c in
  if ((65 <=? n)%nat && (n <=? 90)%nat) then ascii_of_nat (n + 32) else c.

Fixpoint toLowerCase (s : string) : string :=
  match s with
  | EmptyString => EmptyString
  | String c s' => String (lower_ascii c) (toLowerCase s')
  end.

(** Truthiness of a JavaScript string: every string but the empty one. *)
Definition truthy (s : string) : bool :=
  match s with EmptyString => false | _ => true end.

(** A value that a request body may carry for a string field. *)
Inductive JsValue : Type :=
| undefined
| null
| JsString (s : string).

Definition js_truthy (v : JsValue) : bool :=
  match v with
  | JsString s => truthy s
  | _ => false
  end.

(** ** Enumerations *)

Definition ObjectId := nat.
Definition Date := nat.

(** enums/account-provider.enum.js *)
Inductive ProviderEnum : Type := GOOGLE | GITHUB | FACEBOOK | EMAIL.

Definition ProviderEnum_eqb (a b : ProviderEnum) : bool :=
  match a, b with
  | GOOGLE, GOOGLE | GITHUB, GITHUB | FACEBOOK, FACEBOOK | EMAIL, EMAIL => true
  | _, _ => false
  end.

(** Modelled from the spec: enums/role.enum.js is not part of the sources;
    the role names and the permission tokens are the ones the
    specification enumerates. *)
Inductive Roles : Type := OWNER | ADMIN | MEMBER.

Definition Roles_eqb (a b : Roles) : bool :=
  match a, b with
  | OWNER, OWNER | ADMIN, ADMIN | MEMBER, MEMBER => true
  | _, _ => false
  end.

Inductive Permissions : Type :=
| CREATE_WORKSPACE | DELETE_WORKSPACE | EDIT_WORKSPACE
| MANAGE_WORKSPACE_SETTINGS
| ADD_MEMBER | CHANGE_MEMBER_ROLE | REMOVE_MEMBER
| CREATE_PROJECT | EDIT_PROJECT | DELETE_PROJECT
| CREATE_TASK | EDIT_TASK | DELETE_TASK
| VIEW_ONLY.

(** Modelled from the spec: enums/task.enum.js is not part of the sources;
    the statuses and priorities are the ones the specification lists. *)
Inductive TaskStatusEnum : Type := BACKLOG | TODO | IN_PROGRESS | IN_REVIEW | DONE.

Definition TaskStatusEnum_eqb (a b : TaskStatusEnum) : bool :=
  match a, b with
  | BACKLOG, BACKLOG | TODO, TODO | IN_PROGRESS, IN_PROGRESS
  | IN_REVIEW, IN_REVIEW | DONE, DONE => true
  | _, _ => false
  end.

Inductive TaskPriorityEnum : Type := LOW | MEDIUM | HIGH.

(** ** Documents *)

(** models/user.model.js: the stored fields of a User.  [password] is
    [None] when the field is absent, [profilePicture], [lastLogin] are
    [None] when null. *)
Module User.
Record t : Type := mk {
  _id : ObjectId;
  name : string;
  email : string;
  password : option string;
  profilePicture : option string;
  currentWorkspace : option ObjectId;
  isActive : bool;
  lastLogin : option Date
}.
End User.

(** Modelled from the spec: models/account.model.js is not part of the
    sources; an Account has an id, the owning user, a provider and the
    provider's key for the user. *)
Module Account.
Record t : Type := mk {
  _id : ObjectId;
  userId : ObjectId;
  provider : ProviderEnum;
  providerId : string
}.
End Account.

(** models/workspace.model.js *)
Module Workspace.
Record t : Type := mk {
  _id : ObjectId;
  name : string;
  description : string;
  owner : ObjectId;
  inviteCode : string
}.
End Workspace.

(** models/roles-permission.model.js *)
Module Role.
Record t : Type := mk {
  _id : ObjectId;
  name : Roles;
  permissions : list Permissions
}.
End Role.

(** models/member.model.js *)
Module Member.
Record t : Type := mk {
  _id : ObjectId;
  userId : ObjectId;
  workspaceId : ObjectId;
  role : ObjectId;
  joinedAt : Date
}.
End Member.

(** Modelled from the spec: models/project.model.js is not part of the
    sources; a Project has an id, its workspace, a name, a description,
    an emoji and its creator.  [description] and [emoji] are optional. *)
Module Project.
Record t : Type := mk {
  _id : ObjectId;
  name : string;
  description : option string;
  emoji : option string;
  workspace : ObjectId;
  createdBy : ObjectId
}.
End Project.

(** Modelled from the spec: models/task.model.js is not part of the
    sources; of a Task the services below read its project, its status
    and its due date ([None] when the task has none). *)
Module Task.
Record t : Type := mk {
  _id : ObjectId;
  title : string;
  workspace : ObjectId;
  project : ObjectId;
  status : TaskStatusEnum;
  priority : TaskPriorityEnum;
  assignedTo : option ObjectId;
  dueDate : option Date;
  createdBy : ObjectId
}.
End Task.

(** ** The store, sessions and the world *)

Record Database : Type := mkDatabase {
  users : list User.t;
  accounts : list Account.t;
  workspaces : list Workspace.t;
  roles : list Role.t;
  members : list Member.t;
  projects : list Project.t;
  tasks : list Task.t
}.

(** The transaction state of a client session.  [InProgress snap] keeps
    the database as it was when the transaction started: the writes of
    the transaction go to the database of the world (no other client runs
    in between), and aborting puts [snap] back. *)
Inductive TransactionState : Type :=
| NoTransaction
| InProgress (snapshot : Database)
| Committed
| Aborted.

Record ClientSession : Type := mkSession {
  transaction : TransactionState;
  hasEnded : bool
}.

Inductive SessionEvent : Type :=
| StartSession (sid : nat)
| StartTransaction (sid : nat)
| CommitTransaction (sid : nat)
| AbortTransaction (sid : nat)
| EndSession (sid : nat).

Definition isEndSession (sid : nat) (e : SessionEvent) : bool :=
  match e with
  | EndSession s => Nat.eqb s sid
  | _ => false
  end.

Record World : Type := mkWorld {
  db : Database;
  sessions : gmap nat ClientSession;
  next_session : nat;
  session_log : list SessionEvent;
  next_oid : ObjectId;
  rng : nat;
  clock : Date
}.

(** ** Exceptions and the monad *)

Inductive exn : Type :=
| BadRequestException (message : string)
| NotFoundException (message : string)
| UnauthorizedException (message : string)
| ValidationError (path : string)
| DuplicateKeyError (index : string)
| DocumentNotFoundError
| MongoTransactionError (message : string)
| MongoExpiredSessionError
| BcryptError.

Definition message_of (e : exn) : string :=
  match e with
  | BadRequestException m | NotFoundException m | UnauthorizedException m => m
  | ValidationError p => "Path `" +:+ p +:+ "` is required."
  | DuplicateKeyError i => "E11000 duplicate key error index: " +:+ i
  | DocumentNotFoundError => "No document found for query"
  | MongoTransactionError m => m
  | MongoExpiredSessionError => "Cannot use a session that has ended"
  | BcryptError => "data and hash arguments required"
  end.

Inductive Result (A : Type) : Type :=
| Ok (a : A)
| Throw (e : exn).
Arguments Ok {A} a.
Arguments Throw {A} e.

Definition M (A : Type) : Type := World -> Result A * World.

Definition ret {A} (a : A) : M A := fun w => (Ok a, w).

Definition throw {A} (e : exn) : M A := fun w => (Throw e, w).

Definition bind {A B} (m : M A) (k : A -> M B) : M B :=
  fun w =>
    match m w with
    | (Ok a, w') => k a w'
    | (Throw e, w') => (Throw e, w')
    end.

Declare Scope js_scope.
Delimit Scope js_scope with js.
Notation "'let*' x ':=' m 'in' k" := (bind m (fun x => k))
  (at level 10, x name, m at level 100, k at level 200) : js_scope.
Notation "m ';;' k" := (bind m (fun _ => k))
  (at level 100, k at level 200, right associativity) : js_scope.
Local Open Scope js_scope.

(** [try { body } catch (error) { handler error }] *)
Definition try_catch {A} (body : M A) (handler : exn -> M A) : M A :=
  fun w =>
    match body w with
    | (Ok a, w') => (Ok a, w')
    | (Throw e, w') => handler e w'
    end.

(** [... finally { fin }]: [fin] runs after the protected part whatever
    its outcome, which is kept unless [fin] itself throws. *)
Definition finally {A} (body : M A) (fin : M unit) : M A :=
  fun w =>
    match body w with
    | (r, w') =>
        match fin w' with
        | (Ok _, w'') => (r, w'')
        | (Throw e, w'') => (Throw e, w'')
        end
    end.

Definition get_db : M Database := fun w => (Ok (db w), w).

Definition put_db (d : Database) : M unit :=
  fun w => (Ok tt, mkWorld d (sessions w) (next_session w) (session_log w)
                           (next_oid w) (rng w) (clock w)).

(** [new mongoose.Types.ObjectId()]: a fresh identifier. *)
Definition new_ObjectId : M ObjectId :=
  fun w => (Ok (next_oid w),
            mkWorld (db w) (sessions w) (next_session w) (session_log w)
                    (S (next_oid w)) (rng w) (clock w)).

(** [new Date()] *)
Definition new_Date : M Date := fun w => (Ok (clock w), w).

(** ** Client sessions and transactions

    The calls a service makes on a session are logged in order, whether
    they succeed or not. *)

Definition log_event (e : SessionEvent) : M unit :=
  fun w => (Ok tt, mkWorld (db w) (sessions w) (next_session w)
                           (session_log w ++ [e])
                           (next_oid w) (rng w) (clock w)).

Definition set_session (sid : nat) (s : ClientSession) : M unit :=
  fun w => (Ok tt, mkWorld (db w) (<[sid := s]> (sessions w)) (next_session w)
                           (session_log w) (next_oid w) (rng w) (clock w)).

Definition get_session (sid : nat) : M ClientSession :=
  fun w =>
    match sessions w !! sid with
    | Some s => (Ok s, w)
    | None => (Throw MongoExpiredSessionError, w)
    end.

(** [mongoose.startSession()] *)
Definition startSession : M nat :=
  fun w =>
    let sid := next_session w in
    (Ok sid, mkWorld (db w) (<[sid := mkSession NoTransaction false]> (sessions w))
                     (S sid) (session_log w ++ [StartSession sid])
                     (next_oid w) (rng w) (clock w)).

(** An operation bound to a session ([.session(session)], [{ session }])
    is refused once the session has ended. *)
Definition use_session (sid : nat) : M unit :=
  let* s := get_session sid in
  if hasEnded s then throw MongoExpiredSessionError else ret tt.

Definition startTransaction (sid : nat) : M unit :=
  log_event (StartTransaction sid);;
  let* s := get_session sid in
  if hasEnded s then throw MongoExpiredSessionError
  else
    match transaction s with
    | InProgress _ =>
        throw (MongoTransactionError "Transaction already in progress")
    | _ =>
        let* d := get_db in
        set_session sid (mkSession (InProgress d) false)
    end.

Definition commitTransaction (sid : nat) : M unit :=
  log_event (CommitTransaction sid);;
  let* s := get_session sid in
  match transaction s with
  | NoTransaction => throw (MongoTransactionError "No transaction started")
  | Aborted =>
      throw (MongoTransactionError
               "Cannot call commitTransaction after calling abortTransaction")
  | InProgress _ | Committed =>
      set_session sid (mkSession Committed (hasEnded s))
  end.

Definition abortTransaction (sid : nat) : M unit :=
  log_event (AbortTransaction sid);;
  let* s := get_session sid in
  match transaction s with
  | NoTransaction => throw (MongoTransactionError "No transaction started")
  | Committed =>
      throw (MongoTransactionError
               "Cannot call abortTransaction after calling commitTransaction")
  | Aborted => throw (MongoTransactionError "Cannot call abortTransaction twice")
  | InProgress snapshot =>
      put_db snapshot;;
      set_session sid (mkSession Aborted (hasEnded s))
  end.

(** [session.endSession()]: ends the session, aborting a transaction that
    is still in progress; on a session that has ended it does nothing. *)
Definition endSession (sid : nat) : M unit :=
  log_event (EndSession sid);;
  let* s := get_session sid in
  if hasEnded s then ret tt
  else
    match transaction s with
    | InProgress snapshot =>
        put_db snapshot;;
        set_session sid (mkSession Aborted true)
    | t => set_session sid (mkSession t true)
    end.

(** ** Collections *)

(** The first document that satisfies [p] is replaced by its image under
    [f]; [None] when no document matches. *)
Fixpoint update_first {A} (p : A -> bool) (f : A -> A) (l : list A)
  : option (list A) :=
  match l with
  | [] => None
  | x :: l' =>
      if p x then Some (f x :: l')
      else match update_first p f l' with
           | Some l'' => Some (x :: l'')
           | None => None
           end
  end.

Definition set_users (us : list User.t) (d : Database) : Database :=
  mkDatabase us (accounts d) (workspaces d) (roles d) (members d)
             (projects d) (tasks d).

Definition set_accounts (acs : list Account.t) (d : Database) : Database :=
  mkDatabase (users d) acs (workspaces d) (roles d) (members d)
             (projects d) (tasks d).

Definition set_workspaces (wss : list Workspace.t) (d : Database) : Database :=
  mkDatabase (users d) (accounts d) wss (roles d) (members d)
             (projects d) (tasks d).

Definition set_members (ms : list Member.t) (d : Database) : Database :=
  mkDatabase (users d) (accounts d) (workspaces d) (roles d) ms
             (projects d) (tasks d).

Definition set_projects (ps : list Project.t) (d : Database) : Database :=
  mkDatabase (users d) (accounts d) (workspaces d) (roles d) (members d)
             ps (tasks d).

Definition mem_path (path : string) (paths : list string) : bool :=
  existsb (String.eqb path) paths.

(** ** models/user.model.js *)

Module UserModel.

(** A Mongoose document: the field values in memory, whether the
    document has yet to be inserted, and the paths set since the last
    save. *)
Record Document : Type := mkDocument {
  fields : User.t;
  isNew : bool;
  modifiedPaths : list string
}.

Definition isModified (path : string) (d : Document) : bool :=
  mem_path path (modifiedPaths d).

(** The setters of the [email] path: [trim: true], [lowercase: true].
    Mongoose runs them on assigned values and on query filters. *)
Definition castEmail (e : string) : string := toLowerCase (trim e).

(** The setter of the [name] path: [trim: true]. *)
Definition castName (n : string) : string := trim n.

Definition optional_path (path : string) {A} (v : option A) : list string :=
  match v with Some _ => [path] | None => [] end.

(** [new UserModel({ email, name, password, profilePicture })]; a
    [password] of [None] is a constructor call without that key.
    [isActive] and [lastLogin] take their schema defaults. *)
Definition new (email name : string) (password profilePicture : option string)
  : M Document :=
  let* oid := new_ObjectId in
  ret (mkDocument
         (User.mk oid (castName name) (castEmail email) password
                  profilePicture None true None)
         true
         ("email" :: "name" :: optional_path "password" password
            ++ optional_path "profilePicture" profilePicture)).

(** [user.currentWorkspace = id] *)
Definition set_currentWorkspace (id : ObjectId) (d : Document) : Document :=
  let u := fields d in
  mkDocument
    (User.mk (User._id u) (User.name u) (User.email u) (User.password u)
             (User.profilePicture u) (Some id) (User.isActive u)
             (User.lastLogin u))
    (isNew d)
    ("currentWorkspace" :: modifiedPaths d).

Definition set_password (p : string) (d : Document) : Document :=
  let u := fields d in
  mkDocument
    (User.mk (User._id u) (User.name u) (User.email u) (Some p)
             (User.profilePicture u) (User.currentWorkspace u)
             (User.isActive u) (User.lastLogin u))
    (isNew d)
    (modifiedPaths d).

(** The fields of [src] on the paths [paths], the others from [dst]:
    the [$set] of an update. *)
Definition assign_paths (paths : list string) (src dst : User.t) : User.t :=
  let pick {A} (path : string) (f : User.t -> A) : A :=
    if mem_path path paths then f src else f dst in
  User.mk (User._id dst)
          (pick "name" User.name)
          (pick "email" User.email)
          (pick "password" User.password)
          (pick "profilePicture" User.profilePicture)
          (pick "currentWorkspace" User.currentWorkspace)
          (pick "isActive" User.isActive)
          (pick "lastLogin" User.lastLogin).

Definition has_id (id : ObjectId) (u : User.t) : bool :=
  Nat.eqb (User._id u) id.

Definition has_email (e : string) (u : User.t) : bool :=
  String.eqb (User.email u) e.

Definition loaded (u : User.t) : Document := mkDocument u false [].

(** [UserModel.findOne({ email }).session(session)] *)
Definition findOne_email (email : string) (sid : nat) : M (option Document) :=
  use_session sid;;
  let* d := get_db in
  ret (option_map loaded (find (has_email (castEmail email)) (users d))).

(** [UserModel.findById(id)] *)
Definition findById (id : ObjectId) : M (option Document) :=
  let* d := get_db in
  ret (option_map loaded (find (has_id id) (users d))).

(** [userSchema.methods.omitPassword]: the plain object of the
    document with the [password] key deleted. *)
Definition omitPassword (d : Document) : User.t :=
  let userObject := fields d in
  User.mk (User._id userObject) (User.name userObject)
          (User.email userObject) None
          (User.profilePicture userObject)
          (User.currentWorkspace userObject) (User.isActive userObject)
          (User.lastLogin userObject).

Section Bcrypt.
(** utils/bcrypt.js is not part of the sources: [hashValue] and
    [compareValue] are parameters.  [compareValue] gets the stored
    password, absent for a user without one, and may throw. *)
Variable hashValue : string -> string.
Variable compareValue : string -> option string -> Result bool.

(** [userSchema.pre("save", ...)] *)
Definition pre_save (this : Document) : Document :=
  if isModified "password" this then
    match User.password (fields this) with
    | Some p => if truthy p then set_password (hashValue p) this else this
    | None => this
    end
  else this.

(** Schema validation: [email] is [required], and the empty string
    does not satisfy [required]. *)
Definition validate (this : Document) : M unit :=
  if truthy (User.email (fields this)) then ret tt
  else throw (ValidationError "email").

(** The write of [save]: an insert for a new document, otherwise an
    update that sets the modified paths of the stored document with
    the same [_id].  The unique index on [email] is checked on both. *)
Definition insertOne (u : User.t) : M unit :=
  let* d := get_db in
  if existsb (has_email (User.email u)) (users d)
  then throw (DuplicateKeyError "email")
  else put_db (set_users (users d ++ [u]) d).

Definition updateOne (paths : list string) (u : User.t) : M unit :=
  let* d := get_db in
  if mem_path "email" paths
     && existsb (fun v => has_email (User.email u) v
                          && negb (has_id (User._id u) v)) (users d)
  then throw (DuplicateKeyError "email")
  else
    match update_first (has_id (User._id u)) (assign_paths paths u) (users d) with
    | Some us => put_db (set_users us d)
    | None => throw DocumentNotFoundError
    end.

(** [user.save({ session })]: validation, then the [pre("save")]
    hook, then the write. *)
Definition save (this : Document) (sid : nat) : M Document :=
  use_session sid;;
  validate this;;
  let this := pre_save this in
  (if isNew this then insertOne (fields this)
   else updateOne (modifiedPaths this) (fields this));;
  ret (mkDocument (fields this) false []).

(** [userSchema.methods.comparePassword] *)
Definition comparePassword (this : Document) (value : string) : M bool :=
  match compareValue value (User.password (fields this)) with
  | Ok b => ret b
  | Throw e => throw e
  end.
End Bcrypt.

End UserModel.

(** ** The Account, Workspace, Role and Member models

    These documents are saved once, right after their construction, so
    their [save] is the insert of a new document. *)

(** Modelled from the spec: models/account.model.js is not part of the
    sources; no validator or index of the Account schema is assumed. *)
Module AccountModel.
Definition new (userId : ObjectId) (provider : ProviderEnum)
           (providerId : string) : M Account.t :=
  let* oid := new_ObjectId in
  ret (Account.mk oid userId provider providerId).

Definition save (this : Account.t) (sid : nat) : M unit :=
  use_session sid;;
  let* d := get_db in
  put_db (set_accounts (accounts d ++ [this]) d).

Definition matches (provider : ProviderEnum) (providerId : string)
           (a : Account.t) : bool :=
  ProviderEnum_eqb (Account.provider a) provider
  && String.eqb (Account.providerId a) providerId.

(** [AccountModel.findOne({ provider, providerId })] *)
Definition findOne (provider : ProviderEnum) (providerId : string)
  : M (option Account.t) :=
  let* d := get_db in
  ret (find (matches provider providerId) (accounts d)).
End AccountModel.

Module WorkspaceModel.
Section InviteCode.
(** utils/uuid.js is not part of the sources: the generator of invite
    codes is a parameter, a function of the state of the random
    source. *)
Variable generateInviteCode : nat -> string.

Definition next_inviteCode : M string :=
  fun w =>
    (Ok (generateInviteCode (rng w)),
     mkWorld (db w) (sessions w) (next_session w) (session_log w)
             (next_oid w) (S (rng w)) (clock w)).

(** [new WorkspaceModel({ name, description, owner })]; [name] is
    trimmed and [inviteCode] takes its default. *)
Definition new (name description : string) (owner : ObjectId)
  : M Workspace.t :=
  let* oid := new_ObjectId in
  let* inviteCode := next_inviteCode in
  ret (Workspace.mk oid (trim name) description owner inviteCode).
End InviteCode.

Definition has_inviteCode (c : string) (x : Workspace.t) : bool :=
  String.eqb (Workspace.inviteCode x) c.

(** [workspace.save({ session })]: [name] and [inviteCode] are
    [required], and [inviteCode] has a unique index. *)
Definition save (this : Workspace.t) (sid : nat) : M unit :=
  use_session sid;;
  if negb (truthy (Workspace.name this)) then throw (ValidationError "name")
  else if negb (truthy (Workspace.inviteCode this))
  then throw (ValidationError "inviteCode")
  else
    let* d := get_db in
    if existsb (has_inviteCode (Workspace.inviteCode this)) (workspaces d)
    then throw (DuplicateKeyError "inviteCode")
    else put_db (set_workspaces (workspaces d ++ [this]) d).
End WorkspaceModel.

Module RoleModel.
Definition has_name (n : Roles) (r : Role.t) : bool :=
  Roles_eqb (Role.name r) n.

(** [RoleModel.findOne({ name }).session(session)] *)
Definition findOne_name (name : Roles) (sid : nat) : M (option Role.t) :=
  use_session sid;;
  let* d := get_db in
  ret (find (has_name name) (roles d)).
End RoleModel.

Module MemberModel.
Definition new (userId workspaceId role : ObjectId) (joinedAt : Date)
  : M Member.t :=
  let* oid := new_ObjectId in
  ret (Member.mk oid userId workspaceId role joinedAt).

Definition save (this : Member.t) (sid : nat) : M unit :=
  use_session sid;;
  let* d := get_db in
  put_db (set_members (members d ++ [this]) d).
End MemberModel.

(** ** The auth service *)

Record LoginData : Type := mkLoginData {
  data_providerId : string;
  data_provider : ProviderEnum;
  data_displayName : string;
  data_email : string;
  data_picture : option string
}.

Record RegisterBody : Type := mkRegisterBody {
  body_email : string;
  body_name : string;
  body_password : string
}.

Record Registered : Type := mkRegistered {
  userId : ObjectId;
  workspaceId : ObjectId
}.

Record VerifyParams : Type := mkVerifyParams {
  params_email : string;
  params_password : string;
  params_provider : option ProviderEnum
}.

(** [picture || null] *)
Definition or_null (v : option string) : option string :=
  match v with
  | Some s => if truthy s then Some s else None
  | None => None
  end.

Section AuthService.
Variable hashValue : string -> string.
Variable compareValue : string -> option string -> Result bool.
Variable generateInviteCode : nat -> string.

Definition loginOrCreateAccountService (data : LoginData)
  : M UserModel.Document :=
  let providerId := data_providerId data in
  let provider := data_provider data in
  let displayName := data_displayName data in
  let email := data_email data in
  let picture := data_picture data in
  let* session := startSession in
  finally
    (try_catch
       (startTransaction session;;
        let* user := UserModel.findOne_email email session in
        let* user :=
          match user with
          | None =>
              let* user :=
                UserModel.new email displayName None (or_null picture) in
              let* user := UserModel.save hashValue user session in
              let* account :=
                AccountModel.new (User._id (UserModel.fields user))
                                 provider providerId in
              AccountModel.save account session;;
              let* workspace :=
                WorkspaceModel.new generateInviteCode
                  "My Workspace"
                  ("Workspace created for "
                     +:+ User.name (UserModel.fields user))
                  (User._id (UserModel.fields user)) in
              WorkspaceModel.save workspace session;;
              let* ownerRole := RoleModel.findOne_name OWNER session in
              match ownerRole with
              | None => throw (NotFoundException "Owner role not found")
              | Some ownerRole =>
                  let* joinedAt := new_Date in
                  let* member :=
                    MemberModel.new (User._id (UserModel.fields user))
                                    (Workspace._id workspace)
                                    (Role._id ownerRole) joinedAt in
                  MemberModel.save member session;;
                  let user :=
                    UserModel.set_currentWorkspace
                      (Workspace._id workspace) user in
                  UserModel.save hashValue user session
              end
          | Some user => ret user
          end in
        commitTransaction session;;
        endSession session;;
        ret user)
       (fun error =>
          abortTransaction session;;
          endSession session;;
          throw error))
    (endSession session).

Definition registerUserService (body : RegisterBody) : M Registered :=
  let email := body_email body in
  let name := body_name body in
  let password := body_password body in
  let* session := startSession in
  try_catch
    (startTransaction session;;
     let* existingUser := UserModel.findOne_email email session in
     match existingUser with
     | Some _ => throw (BadRequestException "Email already exists")
     | None =>
         let* user := UserModel.new email name (Some password) None in
         let* user := UserModel.save hashValue user session in
         let* account :=
           AccountModel.new (User._id (UserModel.fields user)) EMAIL email in
         AccountModel.save account session;;
         let* workspace :=
           WorkspaceModel.new generateInviteCode
             "My Workspace"
             ("Workspace created for " +:+ User.name (UserModel.fields user))
             (User._id (UserModel.fields user)) in
         WorkspaceModel.save workspace session;;
         let* ownerRole := RoleModel.findOne_name OWNER session in
         match ownerRole with
         | None => throw (NotFoundException "Owner role not found")
         | Some ownerRole =>
             let* joinedAt := new_Date in
             let* member :=
               MemberModel.new (User._id (UserModel.fields user))
                               (Workspace._id workspace)
                               (Role._id ownerRole) joinedAt in
             MemberModel.save member session;;
             let user :=
               UserModel.set_currentWorkspace (Workspace._id workspace) user in
             let* user := UserModel.save hashValue user session in
             commitTransaction session;;
             endSession session;;
             ret (mkRegistered (User._id (UserModel.fields user))
                               (Workspace._id workspace))
         end
     end)
    (fun error =>
       abortTransaction session;;
       endSession session;;
       throw error).

Definition verifyUserService (params : VerifyParams) : M User.t :=
  let email := params_email params in
  let password := params_password params in
  let provider := default EMAIL (params_provider params) in
  let* account := AccountModel.findOne provider email in
  match account with
  | None => throw (NotFoundException "Invalid email or password")
  | Some account =>
      let* user := UserModel.findById (Account.userId account) in
      match user with
      | None => throw (NotFoundException "User not found for the given account")
      | Some user =>
          let* isMatch := UserModel.comparePassword compareValue user password in
          if negb isMatch
          then throw (UnauthorizedException "Invalid email or password")
          else ret (UserModel.omitPassword user)
      end
  end.

End AuthService.

(** ** The Project and Task models *)

(** Modelled from the spec: models/project.model.js is not part of the
    sources; no setter, validator or index of the Project schema is
    assumed. *)
Module ProjectModel.

(** A project document loaded by a query, with the paths set since. *)
Record Document : Type := mkDocument {
  fields : Project.t;
  modifiedPaths : list string
}.

Definition loaded (p : Project.t) : Document := mkDocument p [].

Definition has_id (id : ObjectId) (p : Project.t) : bool :=
  Nat.eqb (Project._id p) id.

Definition has_id_and_workspace (id workspace : ObjectId) (p : Project.t) : bool :=
  Nat.eqb (Project._id p) id && Nat.eqb (Project.workspace p) workspace.

(** [ProjectModel.findById(projectId)] *)
Definition findById (id : ObjectId) : M (option Document) :=
  let* d := get_db in
  ret (option_map loaded (find (has_id id) (projects d))).

(** [ProjectModel.findOne({ _id: projectId, workspace: workspaceId })] *)
Definition findOne (id workspace : ObjectId) : M (option Document) :=
  let* d := get_db in
  ret (option_map loaded (find (has_id_and_workspace id workspace) (projects d))).

(** [project.emoji = emoji] *)
Definition set_emoji (emoji : string) (this : Document) : Document :=
  let p := fields this in
  mkDocument
    (Project.mk (Project._id p) (Project.name p) (Project.description p)
                (Some emoji) (Project.workspace p) (Project.createdBy p))
    ("emoji" :: modifiedPaths this).

(** [project.name = name] *)
Definition set_name (name : string) (this : Document) : Document :=
  let p := fields this in
  mkDocument
    (Project.mk (Project._id p) name (Project.description p)
                (Project.emoji p) (Project.workspace p) (Project.createdBy p))
    ("name" :: modifiedPaths this).

(** [project.description = description] *)
Definition set_description (description : string) (this : Document) : Document :=
  let p := fields this in
  mkDocument
    (Project.mk (Project._id p) (Project.name p) (Some description)
                (Project.emoji p) (Project.workspace p) (Project.createdBy p))
    ("description" :: modifiedPaths this).

Definition assign_paths (paths : list string) (src dst : Project.t) : Project.t :=
  let pick {A} (path : string) (f : Project.t -> A) : A :=
    if mem_path path paths then f src else f dst in
  Project.mk (Project._id dst)
             (pick "name" Project.name)
             (pick "description" Project.description)
             (pick "emoji" Project.emoji)
             (pick "workspace" Project.workspace)
             (pick "createdBy" Project.createdBy).

(** [project.save()] of a loaded document: an update that sets the
    modified paths of the stored document with the same [_id]. *)
Definition save (this : Document) : M Document :=
  let* d := get_db in
  match update_first (has_id (Project._id (fields this)))
                     (assign_paths (modifiedPaths this) (fields this))
                     (projects d) with
  | Some ps => put_db (set_projects ps d);; ret (mkDocument (fields this) [])
  | None => throw DocumentNotFoundError
  end.

End ProjectModel.

(** Modelled from the spec: models/task.model.js is not part of the
    sources; the aggregation reads [project], [status] and [dueDate]. *)
Module TaskModel.

(** The stages of the aggregation pipeline: [$match] keeps the documents
    that satisfy the filter; [$count] yields one document with the number
    of its inputs, and no document when it has no input. *)
Definition match_stage (p : Task.t -> bool) (docs : list Task.t) : list Task.t :=
  List.filter p docs.

Definition count_stage (docs : list Task.t) : list nat :=
  match docs with
  | [] => []
  | _ :: _ => [length docs]
  end.

Record Facets : Type := mkFacets {
  facet_totalTasks : list nat;
  facet_overdueTasks : list nat;
  facet_completedTasks : list nat
}.

Definition in_project (projectId : ObjectId) (t : Task.t) : bool :=
  Nat.eqb (Task.project t) projectId.

(** [{ dueDate: { $lt: currentDate }, status: { $ne: DONE } }]; a task
    without a due date does not satisfy [$lt]. *)
Definition overdue (currentDate : Date) (t : Task.t) : bool :=
  match Task.dueDate t with
  | Some due => (due <? currentDate)%nat
  | None => false
  end
  && negb (TaskStatusEnum_eqb (Task.status t) DONE).

Definition completed (t : Task.t) : bool :=
  TaskStatusEnum_eqb (Task.status t) DONE.

(** [TaskModel.aggregate([{ $match }, { $facet }])]: the one document
    that [$facet] outputs. *)
Definition aggregate (projectId : ObjectId) (currentDate : Date) : M Facets :=
  let* d := get_db in
  let docs := match_stage (in_project projectId) (tasks d) in
  ret (mkFacets
         (count_stage docs)
         (count_stage (match_stage (overdue currentDate) docs))
         (count_stage (match_stage completed docs))).

End TaskModel.

(** ** The project service *)

Record Analytics : Type := mkAnalytics {
  totalTasks : nat;
  overdueTasks : nat;
  completedTasks : nat
}.

Record ProjectBody : Type := mkProjectBody {
  project_name : JsValue;
  project_emoji : JsValue;
  project_description : JsValue
}.

(** [counts[0]?.count || 0] *)
Definition first_count_or_0 (counts : list nat) : nat :=
  match counts with
  | [] => 0
  | count :: _ => if Nat.eqb count 0 then 0 else count
  end.

Definition getProjectAnalyticsService (workspaceId projectId : ObjectId)
  : M Analytics :=
  let* project := ProjectModel.findById projectId in
  match project with
  | None =>
      throw (NotFoundException
               "Project not found or does not belong to this workspace")
  | Some project =>
      if negb (Nat.eqb (Project.workspace (ProjectModel.fields project))
                       workspaceId)
      then throw (NotFoundException
                    "Project not found or does not belong to this workspace")
      else
        let* currentDate := new_Date in
        let* _analytics := TaskModel.aggregate projectId currentDate in
        let analytics :=
          mkAnalytics
            (first_count_or_0 (TaskModel.facet_totalTasks _analytics))
            (first_count_or_0 (TaskModel.facet_overdueTasks _analytics))
            (first_count_or_0 (TaskModel.facet_completedTasks _analytics)) in
        ret analytics
  end.

(** The string held by a body entry that passed a truthiness test. *)
Definition js_string (v : JsValue) : string :=
  match v with
  | JsString s => s
  | _ => EmptyString
  end.

Definition updateProjectService (workspaceId projectId : ObjectId)
           (body : ProjectBody) : M ProjectModel.Document :=
  let name := project_name body in
  let emoji := project_emoji body in
  let description := project_description body in
  let* project := ProjectModel.findOne projectId workspaceId in
  match project with
  | None =>
      throw (NotFoundException
               "Project not found or does not belong to the specified workspace")
  | Some project =>
      let project :=
        if js_truthy emoji
        then ProjectModel.set_emoji (js_string emoji) project else project in
      let project :=
        if js_truthy name
        then ProjectModel.set_name (js_string name) project else project in
      let project :=
        if js_truthy description
        then ProjectModel.set_description (js_string description) project
        else project in
      ProjectModel.save project
  end.

(** ** Sample collaborators and stores, for concrete runs *)

Definition sampleHash (p : string) : string := "$2b$" +:+ p.

Definition sampleCompare (value : string) (hashed : option string) : Result bool :=
  match hashed with
  | Some h => Ok (String.eqb h (sampleHash value))
  | None => Throw BcryptError
  end.

Fixpoint sampleInviteCode (n : nat) : string :=
  match n with
  | O => "c"
  | S k => "x" +:+ sampleInviteCode k
  end.

Definition emptyDatabase : Database := mkDatabase [] [] [] [] [] [] [].

Definition ownerRole : Role.t :=
  Role.mk 0 OWNER
    [CREATE_WORKSPACE; DELETE_WORKSPACE; EDIT_WORKSPACE;
     MANAGE_WORKSPACE_SETTINGS; ADD_MEMBER; CHANGE_MEMBER_ROLE; REMOVE_MEMBER;
     CREATE_PROJECT; EDIT_PROJECT; DELETE_PROJECT;
     CREATE_TASK; EDIT_TASK; DELETE_TASK; VIEW_ONLY].

Definition seededDatabase : Database := mkDatabase [] [] [] [ownerRole] [] [] [].

Definition world_of (d : Database) (oid : ObjectId) : World :=
  mkWorld d ∅ 0 [] oid 0 1000.

Definition unseededWorld : World := world_of emptyDatabase 1.
Definition seededWorld : World := world_of seededDatabase 1.

(** A store with one project and its tasks. *)
Definition sampleTask (id : ObjectId) (status : TaskStatusEnum)
           (due : option Date) : Task.t :=
  Task.mk id "task" 5 7 status MEDIUM None due 1.

Definition sampleProjectWorld : World :=
  world_of
    (mkDatabase [] [] [] []
                []
                [Project.mk 7 "Site" None None 5 1]
                [sampleTask 10 DONE (Some 900);
                 sampleTask 11 TODO (Some 900);
                 sampleTask 12 IN_PROGRESS (Some 1000);
                 sampleTask 13 BACKLOG None;
                 Task.mk 14 "other" 5 8 DONE LOW None None 1])
    20.

(** ** The onboarding sequence, step by step

    A direct description of what the creation sequence shared by
    [registerUserService] and [loginOrCreateAccountService] does in a
    world: the first step that fails, and the documents written when none
    does.  The services are related to it below. *)

Section Onboarding.
Variable hashValue : string -> string.
Variable generateInviteCode : nat -> string.

(** The error of the first failing step of the creation sequence:
    validation of the new User, validation and unique invite code of
    the new Workspace, lookup of the OWNER role. *)
Definition creation_fault (email : string) (w : World) : option exn :=
  let code := generateInviteCode (rng w) in
  if negb (truthy (UserModel.castEmail email))
  then Some (ValidationError "email")
  else if negb (truthy code) then Some (ValidationError "inviteCode")
  else if existsb (WorkspaceModel.has_inviteCode code) (workspaces (db w))
  then Some (DuplicateKeyError "inviteCode")
  else
    match find (RoleModel.has_name OWNER) (roles (db w)) with
    | None => Some (NotFoundException "Owner role not found")
    | Some _ => None
    end.

Definition find_user (email : string) (w : World) : option User.t :=
  find (UserModel.has_email (UserModel.castEmail email)) (users (db w)).

Definition register_fault (body : RegisterBody) (w : World) : option exn :=
  match find_user (body_email body) w with
  | Some _ => Some (BadRequestException "Email already exists")
  | None => creation_fault (body_email body) w
  end.

Definition login_fault (data : LoginData) (w : World) : option exn :=
  match find_user (data_email data) w with
  | Some _ => None
  | None => creation_fault (data_email data) w
  end.

(** What the [pre("save")] hook leaves in a [password] that was set. *)
Definition stored_password (password : option string) : option string :=
  match password with
  | Some p => if truthy p then Some (hashValue p) else Some p
  | None => None
  end.

(** The documents of a creation in world [w]: their identifiers are
    the next four ObjectIds, in the order of construction.  The User is
    written twice: inserted without a current workspace, then updated
    with it. *)
Definition inserted_user (w : World) (email name : string)
           (password profilePicture : option string) : User.t :=
  User.mk (next_oid w) (UserModel.castName name) (UserModel.castEmail email)
          (stored_password password) profilePicture None true None.

Definition created_user (w : World) (email name : string)
           (password profilePicture : option string) : User.t :=
  User.mk (next_oid w) (UserModel.castName name) (UserModel.castEmail email)
          (stored_password password) profilePicture
          (Some (S (S (next_oid w)))) true None.

Definition created_account (w : World) (provider : ProviderEnum)
           (providerId : string) : Account.t :=
  Account.mk (S (next_oid w)) (next_oid w) provider providerId.

Definition created_workspace (w : World) (name : string) : Workspace.t :=
  Workspace.mk (S (S (next_oid w))) "My Workspace"
               ("Workspace created for " +:+ UserModel.castName name)
               (next_oid w) (generateInviteCode (rng w)).

Definition created_member (w : World) (role : Role.t) : Member.t :=
  Member.mk (S (S (S (next_oid w)))) (next_oid w) (S (S (next_oid w)))
            (Role._id role) (clock w).

(** The users after a creation: the insert, then the update of the
    stored document that carries the identifier of the new user. *)
Definition users_after_creation (w : World) (email name : string)
           (password profilePicture : option string)
  : option (list User.t) :=
  update_first
    (UserModel.has_id (next_oid w))
    (UserModel.assign_paths
       ["currentWorkspace"]
       (created_user w email name password profilePicture))
    (users (db w)
       ++ [inserted_user w email name password profilePicture]).

(** The database after a creation whose users are [us]. *)
Definition created_database (w : World) (us : list User.t) (a : Account.t)
           (role : Role.t) (name : string) : Database :=
  let d := db w in
  mkDatabase us (accounts d ++ [a])
             (workspaces d ++ [created_workspace w name])
             (roles d)
             (members d ++ [created_member w role])
             (projects d) (tasks d).
End Onboarding.

(** Every identifier stored or referred to in the database is older than
    the next ObjectId. *)
Definition oids_below (n : ObjectId) (d : Database) : bool :=
  forallb (fun u => User._id u <? n)%nat (users d)
  && forallb (fun a => Account.userId a <? n)%nat (accounts d)
  && forallb (fun x => Workspace.owner x <? n)%nat (workspaces d)
  && forallb (fun m => Member.userId m <? n)%nat (members d).

Definition fresh_oids (w : World) : bool := oids_below (next_oid w) (db w).

(** The calls on session [sid] that end it. *)
Definition releases (sid : nat) (log : list SessionEvent) : nat :=
  length (List.filter (isEndSession sid) log).

(** ** Outcomes

    [wp m w Q]: the outcome of running [m] in world [w] satisfies [Q].
    [register_post] and [login_post] relate the outcome of a service to
    the step-by-step description of the onboarding sequence. *)

Definition wp {A} (m : M A) (w : World) (Q : Result A -> World -> Prop) : Prop :=
  Q (fst (m w)) (snd (m w)).

Section Outcomes.
Variable hashValue : string -> string.
Variable generateInviteCode : nat -> string.

Definition register_post (body : RegisterBody) (w : World)
           (r : Result Registered) (w' : World) : Prop :=
  let sid := next_session w in
  match r with
  | Throw e =>
      register_fault generateInviteCode body w = Some e
      /\ db w' = db w
      /\ session_log w' =
           session_log w ++ [StartSession sid; StartTransaction sid;
                             AbortTransaction sid; EndSession sid]
      /\ next_oid w <= next_oid w'
  | Ok reg =>
      register_fault generateInviteCode body w = None
      /\ reg = mkRegistered (next_oid w) (S (S (next_oid w)))
      /\ session_log w' =
           session_log w ++ [StartSession sid; StartTransaction sid;
                             CommitTransaction sid; EndSession sid]
      /\ next_oid w' = S (S (S (S (next_oid w))))
      /\ exists role us,
          find (RoleModel.has_name OWNER) (roles (db w)) = Some role
          /\ users_after_creation hashValue w (body_email body)
               (body_name body) (Some (body_password body)) None = Some us
          /\ db w' =
               created_database generateInviteCode w us
                 (created_account w EMAIL (body_email body))
                 role (body_name body)
  end.

Definition login_post (data : LoginData) (w : World)
           (r : Result UserModel.Document) (w' : World) : Prop :=
  let sid := next_session w in
  match r with
  | Throw e =>
      login_fault generateInviteCode data w = Some e
      /\ db w' = db w
      /\ session_log w' =
           session_log w ++ [StartSession sid; StartTransaction sid;
                             AbortTransaction sid; EndSession sid;
                             EndSession sid]
      /\ next_oid w <= next_oid w'
  | Ok user =>
      login_fault generateInviteCode data w = None
      /\ session_log w' =
           session_log w ++ [StartSession sid; StartTransaction sid;
                             CommitTransaction sid; EndSession sid;
                             EndSession sid]
      /\ match find_user (data_email data) w with
         | Some u =>
             user = UserModel.loaded u /\ db w' = db w
             /\ next_oid w' = next_oid w
         | None =>
             let u := created_user hashValue w (data_email data)
                                   (data_displayName data) None
                                   (or_null (data_picture data)) in
             user = UserModel.loaded u
             /\ next_oid w' = S (S (S (S (next_oid w))))
             /\ exists role us,
                 find (RoleModel.has_name OWNER) (roles (db w)) = Some role
                 /\ users_after_creation hashValue w (data_email data)
                      (data_displayName data) None
                      (or_null (data_picture data)) = Some us
                 /\ db w' =
                      created_database generateInviteCode w us
                        (created_account w (data_provider data)
                                         (data_providerId data))
                        role (data_displayName data)
         end
  end.

End Outcomes.

(** ** Vocabulary of the statements *)

(** The email and the identifier of a user: what a creation never
    changes in a stored user. *)
Definition email_and_id (u : User.t) : string * ObjectId :=
  (User.email u, User._id u).

(** [onboarded uid wsid d]: in [d] exactly one Workspace is owned by
    [uid], exactly one Account and one Member refer to [uid], the Member
    joins the Workspace [wsid] with the OWNER role, and the one User [uid]
    has [wsid] as current workspace. *)
Definition onboarded (uid wsid : ObjectId) (d : Database) : Prop :=
  exists ws a m r u,
    List.filter (fun x => Nat.eqb (Workspace.owner x) uid) (workspaces d) = [ws]
    /\ Workspace._id ws = wsid
    /\ List.filter (fun x => Nat.eqb (Account.userId x) uid) (accounts d) = [a]
    /\ List.filter (fun x => Nat.eqb (Member.userId x) uid) (members d) = [m]
    /\ Member.workspaceId m = wsid
    /\ In r (roles d) /\ Role.name r = OWNER /\ Member.role m = Role._id r
    /\ List.filter (UserModel.has_id uid) (users d) = [u]
    /\ User.currentWorkspace u = Some wsid.

(** The status and due date tests of the claim, on one task. *)
Definition is_DONE (t : Task.t) : bool :=
  match Task.status t with DONE => true | _ => false end.

Definition due_before (now : Date) (t : Task.t) : bool :=
  match Task.dueDate t with Some due => (due <? now)%nat | None => false end.

(** The project document as [updateProjectService] leaves it in memory:
    each of [emoji], [name] and [description] takes the value of the body
    when that value is truthy, and keeps its own otherwise. *)
Definition updated_project (body : ProjectBody) (p : Project.t) : Project.t :=
  Project.mk (Project._id p)
             (if js_truthy (project_name body)
              then js_string (project_name body) else Project.name p)
             (if js_truthy (project_description body)
              then Some (js_string (project_description body))
              else Project.description p)
             (if js_truthy (project_emoji body)
              then Some (js_string (project_emoji body))
              else Project.emoji p)
             (Project.workspace p)
             (Project.createdBy p).

(** * The rest of the project service and the task service

    The services below run outside a transaction.  Some of their failures
    are not exceptions of the application: a plain [Error], a query that
    the server rejects, a filter value that Mongoose cannot cast.  They
    work in [IO], which is [M] with these failures added. *)

Inductive Thrown : Type :=
| Exception (e : exn)
| JsError (message : string)
| MongoServerError
| CastError (path : string).

Inductive Outcome (A : Type) : Type :=
| Returned (a : A)
| Raised (t : Thrown).
Arguments Returned {A} a.
Arguments Raised {A} t.

Definition IO (A : Type) : Type := World -> Outcome A * World.

Definition io_ret {A} (a : A) : IO A := fun w => (Returned a, w).

Definition io_raise {A} (t : Thrown) : IO A := fun w => (Raised t, w).

Definition io_bind {A B} (m : IO A) (k : A -> IO B) : IO B :=
  fun w =>
    match m w with
    | (Returned a, w') => k a w'
    | (Raised t, w') => (Raised t, w')
    end.

Definition lift {A} (m : M A) : IO A :=
  fun w =>
    match m w with
    | (Ok a, w') => (Returned a, w')
    | (Throw e, w') => (Raised (Exception e), w')
    end.

Notation "'do*' x ':=' m 'in' k" := (io_bind m (fun x => k))
  (at level 10, x name, m at level 100, k at level 200) : js_scope.

(** A JavaScript number that is a count, or what a division by zero
    leaves. *)
Inductive JsNumber : Type :=
| Finite (n : nat)
| Infinity
| NaN.

(** [Math.ceil(n / d)] for counts [n] and [d]. *)
Definition ceil_div (n d : nat) : JsNumber :=
  match d with
  | O => match n with O => NaN | S _ => Infinity end
  | S _ => Finite ((n + d - 1) / d)
  end.

(** [.skip(skip).limit(limit)] on the sorted matches; a limit of 0 is no
    limit. *)
Definition page {A} (skip limit : nat) (l : list A) : list A :=
  match limit with
  | O => skipn skip l
  | S _ => firstn limit (skipn skip l)
  end.

(** The first document that satisfies [p] is taken out. *)
Fixpoint remove_first {A} (p : A -> bool) (l : list A) : list A :=
  match l with
  | [] => []
  | x :: l' => if p x then l' else x :: remove_first p l'
  end.

Definition set_tasks (ts : list Task.t) (d : Database) : Database :=
  mkDatabase (users d) (accounts d) (workspaces d) (roles d) (members d)
             (projects d) ts.

(** [.populate(path, "_id name profilePicture -password")]: the user the
    path refers to, reduced to the selected fields; null when no such
    user is stored. *)
Record PopulatedUser : Type := mkPopulatedUser {
  populated_id : ObjectId;
  populated_name : string;
  populated_profilePicture : option string
}.

Definition populate_user (d : Database) (id : ObjectId) : option PopulatedUser :=
  option_map
    (fun u => mkPopulatedUser (User._id u) (User.name u) (User.profilePicture u))
    (find (UserModel.has_id id) (users d)).

(** [.populate("project", "_id emoji name")] *)
Record PopulatedProject : Type := mkPopulatedProject {
  populated_project_id : ObjectId;
  populated_project_emoji : option string;
  populated_project_name : string
}.

Definition populate_project (d : Database) (id : ObjectId)
  : option PopulatedProject :=
  option_map
    (fun p => mkPopulatedProject (Project._id p) (Project.emoji p)
                                 (Project.name p))
    (find (ProjectModel.has_id id) (projects d)).

(** ** More of the Project model *)

(** Modelled from the spec: models/project.model.js is not part of the
    sources; no setter, validator or index of the Project schema is
    assumed, the default of [emoji] is a parameter, and the order that
    [sort({ createdAt: -1 })] gives to a list of stored projects is a
    parameter (timestamps are left out), the same in every query. *)
Module ProjectQueries.

Definition in_workspace (workspace : ObjectId) (p : Project.t) : bool :=
  Nat.eqb (Project.workspace p) workspace.

(** [.select("_id emoji name description")] *)
Record Selection : Type := mkSelection {
  selected_id : ObjectId;
  selected_emoji : option string;
  selected_name : string;
  selected_description : option string
}.

Definition select (p : Project.t) : Selection :=
  mkSelection (Project._id p) (Project.emoji p) (Project.name p)
              (Project.description p).

(** A listed project, with [createdBy] populated. *)
Record Listed : Type := mkListed {
  listed_project : Project.t;
  listed_createdBy : option PopulatedUser
}.

Definition populate_createdBy (d : Database) (p : Project.t) : Listed :=
  mkListed p (populate_user d (Project.createdBy p)).

(** [new ProjectModel({ emoji?, name, description, workspace, createdBy })];
    [emoji] is [None] when the key is not given. *)
Definition new (defaultEmoji : option string)
           (emoji : option string) (name : string) (description : option string)
           (workspace createdBy : ObjectId) : M Project.t :=
  let* oid := new_ObjectId in
  ret (Project.mk oid name description
                  (match emoji with Some e => Some e | None => defaultEmoji end)
                  workspace createdBy).

(** [project.save()] of a new document. *)
Definition insert (this : Project.t) : M unit :=
  let* d := get_db in
  put_db (set_projects (projects d ++ [this]) d).

(** [ProjectModel.findOne({ _id, workspace }).select(...)] *)
Definition findOne_select (id workspace : ObjectId) : M (option Selection) :=
  let* d := get_db in
  ret (option_map select
         (find (ProjectModel.has_id_and_workspace id workspace) (projects d))).

(** [project.deleteOne()] *)
Definition deleteOne (this : Project.t) : M unit :=
  let* d := get_db in
  put_db (set_projects
            (remove_first (ProjectModel.has_id (Project._id this)) (projects d))
            d).

(** [ProjectModel.countDocuments({ workspace })] *)
Definition countDocuments (workspace : ObjectId) : M nat :=
  let* d := get_db in
  ret (length (List.filter (in_workspace workspace) (projects d))).

(** [ProjectModel.find({ workspace }).skip(skip).limit(limit)
      .populate("createdBy", ...).sort({ createdAt: -1 })]: the server
    sorts, then skips, then limits; it rejects a negative skip. *)
Definition find_page (sortByCreatedAt : list Project.t -> list Project.t)
           (workspace : ObjectId) (skip : Z) (limit : nat) : IO (list Listed) :=
  if (skip <? 0)%Z
  then io_raise MongoServerError
  else
    do* d := lift get_db in
    io_ret (map (populate_createdBy d)
                (page (Z.to_nat skip) limit
                      (sortByCreatedAt
                         (List.filter (in_workspace workspace) (projects d))))).

End ProjectQueries.

(** ** More of the Task and Member models *)

(** Modelled from the spec: models/task.model.js is not part of the
    sources; the Task schema has the paths of the specification's data
    model, so [description], which is not among them, is not kept; no
    setter, validator or index is assumed, and the order of
    [sort({ createdAt: -1 })] is a parameter as for projects. *)
Module TaskQueries.

Definition has_id (id : ObjectId) (t : Task.t) : bool :=
  Nat.eqb (Task._id t) id.

Definition in_workspace (workspace : ObjectId) (t : Task.t) : bool :=
  Nat.eqb (Task.workspace t) workspace.

(** A task as a query returns it, with [assignedTo] and, in listings,
    [project] populated. *)
Record Populated : Type := mkPopulated {
  populated_task : Task.t;
  populated_assignedTo : option PopulatedUser;
  populated_project : option PopulatedProject
}.

Definition populate_assignedTo (d : Database) (t : Task.t) : option PopulatedUser :=
  match Task.assignedTo t with
  | Some u => populate_user d u
  | None => None
  end.

(** [new TaskModel({ title, priority, status, assignedTo, createdBy,
      workspace, project, dueDate })] *)
Definition new (title : string) (priority : TaskPriorityEnum)
           (status : TaskStatusEnum) (assignedTo : option ObjectId)
           (createdBy workspace project : ObjectId) (dueDate : option Date)
  : M Task.t :=
  let* oid := new_ObjectId in
  ret (Task.mk oid title workspace project status priority assignedTo dueDate
               createdBy).

(** [task.save()] of a new document. *)
Definition insert (this : Task.t) : M unit :=
  let* d := get_db in
  put_db (set_tasks (tasks d ++ [this]) d).

(** [TaskModel.findById(taskId)] *)
Definition findById (id : ObjectId) : M (option Task.t) :=
  let* d := get_db in
  ret (find (has_id id) (tasks d)).

Definition has_id_workspace_project (id workspace project : ObjectId)
           (t : Task.t) : bool :=
  Nat.eqb (Task._id t) id && Nat.eqb (Task.workspace t) workspace
  && Nat.eqb (Task.project t) project.

(** [TaskModel.findOne({ _id, workspace, project })
      .populate("assignedTo", ...)] *)
Definition findOne_populated (id workspace project : ObjectId)
  : M (option Populated) :=
  let* d := get_db in
  ret (option_map
         (fun t => mkPopulated t (populate_assignedTo d t) None)
         (find (has_id_workspace_project id workspace project) (tasks d))).




Definition has_id_and_workspace (id workspace : ObjectId) (t : Task.t) : bool :=
  Nat.eqb (Task._id t) id && Nat.eqb (Task.workspace t) workspace.


(** [TaskModel.deleteMany({ project })] *)
Definition deleteMany_project (project : ObjectId) : M unit :=
  let* d := get_db in
  put_db (set_tasks
            (List.filter (fun t => negb (TaskModel.in_project project t))
                         (tasks d))
            d).

(** The query that [getAllTasksService] builds: [workspace] always, and
    one more condition for each filter that is set. *)
Record Query : Type := mkQuery {
  query_workspace : ObjectId;
  query_project : option ObjectId;
  query_status : option (list TaskStatusEnum);
  query_priority : option (list TaskPriorityEnum);
  query_assignedTo : option (list ObjectId);
  query_title : option (string -> bool);
  query_dueDate : option Date
}.

Definition TaskPriorityEnum_eqb (a b : TaskPriorityEnum) : bool :=
  match a, b with
  | LOW, LOW | MEDIUM, MEDIUM | HIGH, HIGH => true
  | _, _ => false
  end.

Definition holds {A} (condition : option A) (test : A -> bool) : bool :=
  match condition with
  | Some c => test c
  | None => true
  end.

Definition satisfies (q : Query) (t : Task.t) : bool :=
  Nat.eqb (Task.workspace t) (query_workspace q)
  && holds (query_project q) (fun p => Nat.eqb (Task.project t) p)
  && holds (query_status q) (existsb (TaskStatusEnum_eqb (Task.status t)))
  && holds (query_priority q) (existsb (TaskPriorityEnum_eqb (Task.priority t)))
  && holds (query_assignedTo q)
           (fun ids => match Task.assignedTo t with
                       | Some u => existsb (Nat.eqb u) ids
                       | None => false
                       end)
  && holds (query_title q) (fun matches => matches (Task.title t))
  && holds (query_dueDate q)
           (fun due => match Task.dueDate t with
                       | Some d => Nat.eqb d due
                       | None => false
                       end).

(** [TaskModel.countDocuments(query)] *)
Definition countDocuments (q : Query) : M nat :=
  let* d := get_db in
  ret (length (List.filter (satisfies q) (tasks d))).

(** [TaskModel.find(query).skip(skip).limit(limit)
      .sort({ createdAt: -1 }).populate("assignedTo", ...)
      .populate("project", "_id emoji name")] *)
Definition find_page (sortByCreatedAt : list Task.t -> list Task.t)
           (q : Query) (skip : Z) (limit : nat) : IO (list Populated) :=
  if (skip <? 0)%Z
  then io_raise MongoServerError
  else
    do* d := lift get_db in
    io_ret (map (fun t => mkPopulated t (populate_assignedTo d t)
                                      (populate_project d (Task.project t)))
                (page (Z.to_nat skip) limit
                      (sortByCreatedAt (List.filter (satisfies q) (tasks d))))).

End TaskQueries.

Module MemberQueries.
(** [MemberModel.exists({ userId, workspaceId })] *)
Definition exists_ (userId workspaceId : ObjectId) : M bool :=
  let* d := get_db in
  ret (existsb (fun m => Nat.eqb (Member.userId m) userId
                         && Nat.eqb (Member.workspaceId m) workspaceId)
               (members d)).
End MemberQueries.

(** ** The project service, continued *)

Record CreateProjectBody : Type := mkCreateProjectBody {
  create_emoji : JsValue;
  create_name : string;
  create_description : JsValue
}.

(** The string of an optional body entry; undefined and null leave the
    path without a value. *)
Definition js_optional (v : JsValue) : option string :=
  match v with
  | JsString s => Some s
  | _ => None
  end.

Module ProjectsPage.
Record t : Type := mk {
  projects : list ProjectQueries.Listed;
  totalCount : nat;
  totalPages : JsNumber;
  skip : Z
}.
End ProjectsPage.

Section ProjectService.
Variable defaultEmoji : option string.
Variable sortByCreatedAt : list Project.t -> list Project.t.

Definition createProjectService (userId workspaceId : ObjectId)
           (body : CreateProjectBody) : M Project.t :=
  let* project :=
    ProjectQueries.new defaultEmoji
      (if js_truthy (create_emoji body)
       then Some (js_string (create_emoji body)) else None)
      (create_name body)
      (js_optional (create_description body))
      workspaceId userId in
  ProjectQueries.insert project;;
  ret project.

Definition getProjectsInWorkspaceService (workspaceId : ObjectId)
           (pageSize pageNumber : nat) : IO ProjectsPage.t :=
  do* totalCount := lift (ProjectQueries.countDocuments workspaceId) in
  let skip := ((Z.of_nat pageNumber - 1) * Z.of_nat pageSize)%Z in
  do* projects :=
    ProjectQueries.find_page sortByCreatedAt workspaceId skip pageSize in
  let totalPages := ceil_div totalCount pageSize in
  io_ret (ProjectsPage.mk projects totalCount totalPages skip).

Definition getProjectByIdAndWorkspaceIdService (workspaceId projectId : ObjectId)
  : M ProjectQueries.Selection :=
  let* project := ProjectQueries.findOne_select projectId workspaceId in
  match project with
  | None =>
      throw (NotFoundException
               "Project not found or does not belong to the specified workspace")
  | Some project => ret project
  end.

Definition deleteProjectService (workspaceId projectId : ObjectId)
  : M Project.t :=
  let* project := ProjectModel.findOne projectId workspaceId in
  match project with
  | None =>
      throw (NotFoundException
               "Project not found or does not belong to the specified workspace")
  | Some project =>
      ProjectQueries.deleteOne (ProjectModel.fields project);;
      TaskQueries.deleteMany_project
        (Project._id (ProjectModel.fields project));;
      ret (ProjectModel.fields project)
  end.

End ProjectService.

(** ** The task service *)

Record CreateTaskBody : Type := mkCreateTaskBody {
  task_title : string;
  task_priority : option TaskPriorityEnum;
  task_status : option TaskStatusEnum;
  task_assignedTo : option ObjectId;
  task_dueDate : option Date
}.

Record TaskFilters : Type := mkTaskFilters {
  filters_projectId : option ObjectId;
  filters_status : option (list TaskStatusEnum);
  filters_priority : option (list TaskPriorityEnum);
  filters_assignedTo : option (list ObjectId);
  filters_keyword : option string;
  filters_dueDate : option string
}.

Record PageRequest : Type := mkPageRequest {
  request_pageSize : nat;
  request_pageNumber : nat
}.

Record Pagination : Type := mkPagination {
  pageSize : nat;
  pageNumber : nat;
  totalCount : nat;
  totalPages : JsNumber;
  skip : Z
}.

Record TasksPage : Type := mkTasksPage {
  tasks_of_page : list TaskQueries.Populated;
  pagination : Pagination
}.

(** [filters.list && filters.list.length > 0] *)
Definition non_empty {A} (l : option (list A)) : option (list A) :=
  match l with
  | Some (x :: l') => Some (x :: l')
  | _ => None
  end.

(** [filters.text] when it is truthy. *)
Definition truthy_string (s : option string) : option string :=
  match s with
  | Some s => if truthy s then Some s else None
  | None => None
  end.

Definition createTaskService (workspaceId projectId userId : ObjectId)
           (body : CreateTaskBody) : IO Task.t :=
  let title := task_title body in
  let priority := task_priority body in
  let status := task_status body in
  let assignedTo := task_assignedTo body in
  let dueDate := task_dueDate body in
  do* project := lift (ProjectModel.findById projectId) in
  match project with
  | None =>
      io_raise (Exception
                  (NotFoundException
                     "Project not found or does not belong to this workspace"))
  | Some project =>
      if negb (Nat.eqb (Project.workspace (ProjectModel.fields project))
                       workspaceId)
      then io_raise
             (Exception
                (NotFoundException
                   "Project not found or does not belong to this workspace"))
      else
        do* _ :=
          match assignedTo with
          | Some assignee =>
              do* isAssignedUserMember :=
                lift (MemberQueries.exists_ assignee workspaceId) in
              if negb isAssignedUserMember
              then io_raise
                     (JsError "Assigned user is not a member of this workspace.")
              else io_ret tt
          | None => io_ret tt
          end in
        do* task :=
          lift (TaskQueries.new title
                                (default MEDIUM priority)
                                (default TODO status)
                                assignedTo userId workspaceId projectId
                                dueDate) in
        do* _ := lift (TaskQueries.insert task) in
        io_ret task
  end.


Section TaskListing.
(** The order of [sort({ createdAt: -1 })], the case-insensitive regular
    expression that a keyword denotes ([None] when it denotes none) and
    [new Date(text)] ([None] for an invalid date) are parameters. *)
Variable sortByCreatedAt : list Task.t -> list Task.t.
Variable regexIgnoreCase : string -> option (string -> bool).
Variable parseDate : string -> option Date.

(** The query object that the service builds, as Mongoose casts it and
    the server reads it: [workspace] always, and one more condition for
    each filter that is set.  A due date that is no date fails the cast,
    a keyword that is no regular expression is rejected by the server. *)
Definition cast_query (workspaceId : ObjectId) (filters : TaskFilters)
  : Outcome TaskQueries.Query :=
  match
    match truthy_string (filters_dueDate filters) with
    | Some text =>
        match parseDate text with
        | Some date => Returned (Some date)
        | None => Raised (CastError "dueDate")
        end
    | None => Returned None
    end
  with
  | Raised t => Raised t
  | Returned dueDate =>
      match
        match truthy_string (filters_keyword filters) with
        | Some keyword =>
            match regexIgnoreCase keyword with
            | Some matches => Returned (Some matches)
            | None => Raised MongoServerError
            end
        | None => Returned None
        end
      with
      | Raised t => Raised t
      | Returned title =>
          Returned
            (TaskQueries.mkQuery workspaceId
                                 (filters_projectId filters)
                                 (non_empty (filters_status filters))
                                 (non_empty (filters_priority filters))
                                 (non_empty (filters_assignedTo filters))
                                 title dueDate)
      end
  end.

Definition getAllTasksService (workspaceId : ObjectId) (filters : TaskFilters)
           (pagination : PageRequest) : IO TasksPage :=
  do* query := (fun w => (cast_query workspaceId filters, w)) in
  let pageSize := request_pageSize pagination in
  let pageNumber := request_pageNumber pagination in
  let skip := ((Z.of_nat pageNumber - 1) * Z.of_nat pageSize)%Z in
  do* tasks := TaskQueries.find_page sortByCreatedAt query skip pageSize in
  do* totalCount := lift (TaskQueries.countDocuments query) in
  let totalPages := ceil_div totalCount pageSize in
  io_ret (mkTasksPage tasks
                      (mkPagination pageSize pageNumber totalCount totalPages
                                    skip)).
End TaskListing.

Definition getTaskByIdService (workspaceId projectId taskId : ObjectId)
  : M TaskQueries.Populated :=
  let* project := ProjectModel.findById projectId in
  match project with
  | None =>
      throw (NotFoundException
               "Project not found or does not belong to this workspace")
  | Some project =>
      if negb (Nat.eqb (Project.workspace (ProjectModel.fields project))
                       workspaceId)
      then throw (NotFoundException
                    "Project not found or does not belong to this workspace")
      else
        let* task :=
          TaskQueries.findOne_populated taskId workspaceId projectId in
        match task with
        | None => throw (NotFoundException "Task not found.")
        | Some task => ret task
        end
  end.


(** ** Vocabulary of the further statements *)

(** The projects on page [pageNumber], none when the listing fails. *)
Definition projects_on_page (sortByCreatedAt : list Project.t -> list Project.t)
           (workspaceId : ObjectId) (pageSize pageNumber : nat) (w : World)
  : list ProjectQueries.Listed :=
  match fst (getProjectsInWorkspaceService sortByCreatedAt workspaceId
                                           pageSize pageNumber w) with
  | Returned r => ProjectsPage.projects r
  | Raised _ => []
  end.

(** The number of pages of [count] entries, [pageSize] on a page. *)
Definition page_count (count pageSize : nat) : nat :=
  (count + pageSize - 1) / pageSize.

(** [is_member d userId workspaceId]: a Member joins the user to the
    workspace.  [assignee_is_member d t]: the assignee of the task, if it
    has one, is a member of the workspace of the task. *)
Definition is_member (d : Database) (userId workspaceId : ObjectId) : bool :=
  existsb (fun m => Nat.eqb (Member.userId m) userId
                    && Nat.eqb (Member.workspaceId m) workspaceId)
          (members d).

Definition assignee_is_member (d : Database) (t : Task.t) : bool :=
  match Task.assignedTo t with
  | Some a => is_member d a (Task.workspace t)
  | None => true
  end.

(** The emails of the stored users are pairwise distinct. *)
Definition unique_emails (d : Database) : Prop :=
  List.NoDup (map User.email (users d)).

(** Every Account, Workspace and Member refers to a stored user, and
    every Member to a stored workspace and a stored role. *)
Definition user_stored (d : Database) (id : ObjectId) : bool :=
  existsb (UserModel.has_id id) (users d).

Definition references_resolve (d : Database) : bool :=
  forallb (fun a => user_stored d (Account.userId a)) (accounts d)
  && forallb (fun x => user_stored d (Workspace.owner x)) (workspaces d)
  && forallb (fun m =>
                user_stored d (Member.userId m)
                && existsb (fun x => Nat.eqb (Workspace._id x)
                                             (Member.workspaceId m))
                           (workspaces d)
                && existsb (fun r => Nat.eqb (Role._id r) (Member.role m))
                           (roles d))
             (members d).

(** A workspace with two members, one project and three tasks. *)
Definition sampleTeamWorld : World :=
  world_of
    (mkDatabase
       [User.mk 1 "Ann" "ann@example.com" (Some "$2b$secret") None (Some 5)
                true None;
        User.mk 2 "Bob" "bob@x.io" None (Some "bob.png") (Some 5) true None]
       [Account.mk 3 1 EMAIL "ann@example.com"; Account.mk 4 2 GOOGLE "g-1"]
       [Workspace.mk 5 "My Workspace" "Workspace created for Ann" 1 "c"]
       [ownerRole]
       [Member.mk 6 1 5 0 100; Member.mk 8 2 5 0 200]
       [Project.mk 7 "Site" None None 5 1]
       [Task.mk 10 "Draft" 5 7 TODO HIGH (Some 2) (Some 900) 1;
        Task.mk 11 "Review" 5 7 IN_REVIEW LOW None None 1;
        Task.mk 12 "Ship" 5 7 DONE MEDIUM (Some 1) (Some 950) 1])
    20.

(** The tasks on page [pageNumber] of a listing, none when it fails. *)
Definition tasks_on_page (sortByCreatedAt : list Task.t -> list Task.t)
           (regexIgnoreCase : string -> option (string -> bool))
           (parseDate : string -> option Date)
           (workspaceId : ObjectId) (filters : TaskFilters)
           (pageSize pageNumber : nat) (w : World)
  : list TaskQueries.Populated :=
  match fst (getAllTasksService sortByCreatedAt regexIgnoreCase parseDate
                                workspaceId filters
                                (mkPageRequest pageSize pageNumber) w) with
  | Returned r => tasks_of_page r
  | Raised _ => []
  end.

(** What a listed task owes to the filters: it is of the workspace, of
    the project asked for, has one of the statuses and priorities and
    one of the assignees asked for when the list is not empty, a title
    that the keyword matches and the due date asked for. *)
Definition passes_filters (regexIgnoreCase : string -> option (string -> bool))
           (parseDate : string -> option Date)
           (workspaceId : ObjectId) (filters : TaskFilters) (t : Task.t) : Prop :=
  Task.workspace t = workspaceId
  /\ (forall p, filters_projectId filters = Some p -> Task.project t = p)
  /\ (forall l, filters_status filters = Some l -> l <> [] ->
                In (Task.status t) l)
  /\ (forall l, filters_priority filters = Some l -> l <> [] ->
                In (Task.priority t) l)
  /\ (forall l, filters_assignedTo filters = Some l -> l <> [] ->
                exists u, Task.assignedTo t = Some u /\ In u l)
  /\ (forall keyword, filters_keyword filters = Some keyword ->
                      truthy keyword = true ->
                      exists matches,
                        regexIgnoreCase keyword = Some matches
                        /\ matches (Task.title t) = true)
  /\ (forall text, filters_dueDate filters = Some text -> truthy text = true ->
                   exists date,
                     parseDate text = Some date
                     /\ Task.dueDate t = Some date).

(** * Verification *)

Local Arguments lookup : simpl never.
Local Arguments insert : simpl never.

(** ** Lists *)

Lemma find_None_existsb {A} (p : A -> bool) (l : list A) :
  find p l = None -> existsb p l = false.
Proof.
  induction l as [|x l IH]; simpl; [reflexivity|].
  destruct (p x); [discriminate|]. exact IH.
Qed.

Lemma find_Some_holds {A} (p : A -> bool) (l : list A) (x : A) :
  find p l = Some x -> p x = true.
Proof.
  induction l as [|y l IH]; simpl; [discriminate|].
  destruct (p y) eqn:E; [|exact IH].
  intros [= <-]. exact E.
Qed.

Lemma find_app_None {A} (p : A -> bool) (l : list A) (x : A) :
  find p l = None -> find p (l ++ [x]) = (if p x then Some x else None).
Proof.
  induction l as [|y l IH]; simpl; [reflexivity|].
  destruct (p y); [discriminate|]. exact IH.
Qed.

Lemma filter_none {A} (p : A -> bool) (l : list A) :
  existsb p l = false -> List.filter p l = [].
Proof.
  induction l as [|x l IH]; simpl; [reflexivity|].
  destruct (p x); simpl; [discriminate|]. exact IH.
Qed.

Lemma update_first_app_last {A} (p : A -> bool) (f : A -> A) (l : list A) (x : A) :
  existsb p l = false -> p x = true ->
  update_first p f (l ++ [x]) = Some (l ++ [f x]).
Proof.
  intros Hl Hx. induction l as [|y l IH]; simpl in *.
  - rewrite Hx. reflexivity.
  - destruct (p y); [discriminate|]. rewrite (IH Hl). reflexivity.
Qed.

Lemma update_first_None {A} (p : A -> bool) (f : A -> A) (l : list A) :
  update_first p f l = None -> existsb p l = false.
Proof.
  induction l as [|y l IH]; simpl; [reflexivity|].
  destruct (p y); [discriminate|].
  destruct (update_first p f l); [discriminate|]. intros _. apply IH. reflexivity.
Qed.

Lemma existsb_app_last {A} (p : A -> bool) (l : list A) (x : A) :
  p x = true -> existsb p (l ++ [x]) = true.
Proof.
  intros Hx. rewrite existsb_app. simpl. rewrite Hx.
  destruct (existsb p l); reflexivity.
Qed.

(** ** Weakest preconditions for [M] *)


Lemma wp_elim {A} (m : M A) w Q r w' : wp m w Q -> m w = (r, w') -> Q r w'.
Proof. unfold wp. intros H E. rewrite E in H. exact H. Qed.

Lemma wp_run {A} (m : M A) w Q r w' : m w = (r, w') -> Q r w' -> wp m w Q.
Proof. unfold wp. intros E H. rewrite E. exact H. Qed.

Lemma wp_bind {A B} (m : M A) (k : A -> M B) w Q :
  wp m w (fun r w1 =>
            match r with
            | Ok a => wp (k a) w1 Q
            | Throw e => Q (Throw e) w1
            end) ->
  wp (bind m k) w Q.
Proof. unfold wp, bind. destruct (m w) as [[a|e] w1]; simpl; auto. Qed.

Lemma wp_try_catch {A} (body : M A) handler w Q :
  wp body w (fun r w1 =>
               match r with
               | Ok a => Q (Ok a) w1
               | Throw e => wp (handler e) w1 Q
               end) ->
  wp (try_catch body handler) w Q.
Proof. unfold wp, try_catch. destruct (body w) as [[a|e] w1]; simpl; auto. Qed.

Lemma wp_finally {A} (body : M A) fin w Q :
  wp body w (fun r w1 =>
               wp fin w1 (fun r' w2 =>
                            match r' with
                            | Ok _ => Q r w2
                            | Throw e => Q (Throw e) w2
                            end)) ->
  wp (finally body fin) w Q.
Proof.
  unfold wp, finally. destruct (body w) as [r w1]; simpl.
  destruct (fin w1) as [[a|e] w2]; simpl; auto.
Qed.

Lemma wp_get_session sid s w Q :
  sessions w !! sid = Some s -> Q (Ok s) w -> wp (get_session sid) w Q.
Proof. unfold wp, get_session. intros ->. auto. Qed.

Ltac wp_head m :=
  lazymatch m with
  | ?f _ _ _ _ _ _ => f | ?f _ _ _ _ _ => f
  | ?f _ _ _ _ => f | ?f _ _ _ => f | ?f _ _ => f | ?f _ => f | ?f => f
  end.

Ltac wp_norm :=
  cbv beta iota zeta;
  cbn [db sessions next_session session_log next_oid rng clock
       transaction hasEnded].

(** A test that evaluates is replaced by its value; otherwise the first
    undecided test inside it is split, unless a hypothesis settles it. *)
Ltac wp_split c :=
  first
    [ match goal with H : c = _ |- _ => rewrite H end
    | destruct c eqn:? ].

Ltac wp_decide b :=
  let b' := eval cbn in b in
  change b with b';
  lazymatch b' with
  | true => idtac
  | false => idtac
  | Some _ => idtac
  | None => idtac
  | NoTransaction => idtac
  | InProgress _ => idtac
  | Committed => idtac
  | Aborted => idtac
  | Ok _ => idtac
  | Throw _ => idtac
  | context [find ?p ?l] => wp_split (find p l)
  | context [if ?c then _ else _] => wp_split c
  | context [match ?c with _ => _ end] => wp_split c
  | _ => wp_split b'
  end.

Ltac wp_step :=
  lazymatch goal with
  | |- wp (bind _ _) _ _ => apply wp_bind
  | |- wp (try_catch _ _) _ _ => apply wp_try_catch
  | |- wp (finally _ _) _ _ => apply wp_finally
  | |- wp (ret _) _ _ => eapply wp_run; [reflexivity|]
  | |- wp (throw _) _ _ => eapply wp_run; [reflexivity|]
  | |- wp get_db _ _ => eapply wp_run; [reflexivity|]
  | |- wp (put_db _) _ _ => eapply wp_run; [reflexivity|]
  | |- wp new_ObjectId _ _ => eapply wp_run; [reflexivity|]
  | |- wp new_Date _ _ => eapply wp_run; [reflexivity|]
  | |- wp (log_event _) _ _ => eapply wp_run; [reflexivity|]
  | |- wp (set_session _ _) _ _ => eapply wp_run; [reflexivity|]
  | |- wp startSession _ _ => eapply wp_run; [reflexivity|]
  | |- wp (WorkspaceModel.next_inviteCode _) _ _ => eapply wp_run; [reflexivity|]
  | |- wp (get_session _) _ _ => eapply wp_get_session; [apply lookup_insert_eq|]
  | |- wp (if ?b then _ else _) _ _ => wp_decide b
  | |- wp (match ?o with _ => _ end) _ _ => wp_decide o
  | |- wp ?m _ _ => let h := wp_head m in unfold h
  end; wp_norm.

Ltac wp_leaf :=
  cbn;
  repeat match goal with H : ?c = _ |- context [?c] => rewrite H; cbn end;
  rewrite <- ?app_assoc; cbn [app].

(** ** Fresh identifiers *)

Lemma forallb_ltb_existsb_eqb {A} (f : A -> nat) (n : nat) (l : list A) :
  forallb (fun x => f x <? n)%nat l = true ->
  existsb (fun x => Nat.eqb (f x) n) l = false.
Proof.
  induction l as [|x l IH]; simpl; [reflexivity|].
  intros H. apply andb_prop in H as [Hx Hl].
  apply Nat.ltb_lt in Hx.
  destruct (Nat.eqb_spec (f x) n) as [E|_]; [lia|].
  simpl. exact (IH Hl).
Qed.

Lemma oids_below_inv n d :
  oids_below n d = true ->
  forallb (fun u => User._id u <? n)%nat (users d) = true
  /\ forallb (fun a => Account.userId a <? n)%nat (accounts d) = true
  /\ forallb (fun x => Workspace.owner x <? n)%nat (workspaces d) = true
  /\ forallb (fun m => Member.userId m <? n)%nat (members d) = true.
Proof.
  unfold oids_below. intros H.
  apply andb_prop in H as [H H4]. apply andb_prop in H as [H H3].
  apply andb_prop in H as [H1 H2]. auto.
Qed.

Lemma fresh_oids_users w :
  fresh_oids w = true ->
  existsb (UserModel.has_id (next_oid w)) (users (db w)) = false.
Proof.
  intros H. apply oids_below_inv in H as (H & _).
  exact (forallb_ltb_existsb_eqb User._id _ _ H).
Qed.

(** ** The services against the step-by-step description *)

Section Runs.
Variable hashValue : string -> string.
Variable generateInviteCode : nat -> string.

Ltac post_unfold :=
  unfold register_post, login_post, register_fault, login_fault, find_user,
    creation_fault, created_database, users_after_creation, created_user,
    inserted_user, created_account, created_workspace, created_member,
    stored_password, UserModel.loaded.

Ltac post_leaf :=
  post_unfold; wp_leaf;
  try (repeat split; first [reflexivity | lia]);
  try match goal with
    | Hf : find ?p ?l = None, He : existsb ?p ?l = true |- _ =>
        rewrite (find_None_existsb p l Hf) in He; discriminate He
    | Hu : update_first _ _ (_ ++ [_]) = None |- _ =>
        apply update_first_None in Hu;
        rewrite existsb_app_last in Hu by apply Nat.eqb_refl;
        discriminate Hu
    end.

Ltac post_created :=
  do 2 eexists; split; [reflexivity|]; split; [eassumption|];
  unfold set_users, set_accounts, set_workspaces, set_members;
  cbn; reflexivity.

Lemma registerUserService_run body w :
  wp (registerUserService hashValue generateInviteCode body) w
     (register_post hashValue generateInviteCode body w).
Proof.
  unfold registerUserService. wp_norm.
  repeat wp_step.
  all: post_leaf.
  all: repeat split; try reflexivity; try lia.
  all: post_created.
Qed.

Lemma registerUserService_spec body w r w' :
  registerUserService hashValue generateInviteCode body w = (r, w') ->
  register_post hashValue generateInviteCode body w r w'.
Proof. apply wp_elim, registerUserService_run. Qed.

Lemma loginOrCreateAccountService_run data w :
  wp (loginOrCreateAccountService hashValue generateInviteCode data) w
     (login_post hashValue generateInviteCode data w).
Proof.
  unfold loginOrCreateAccountService. wp_norm.
  destruct (or_null (data_picture data)) eqn:Hpicture.
  all: repeat wp_step.
  all: post_leaf.
  all: repeat split; try reflexivity; try lia.
  all: post_created.
Qed.

Lemma loginOrCreateAccountService_spec data w r w' :
  loginOrCreateAccountService hashValue generateInviteCode data w = (r, w') ->
  login_post hashValue generateInviteCode data w r w'.
Proof. apply wp_elim, loginOrCreateAccountService_run. Qed.

End Runs.

(** ** Outcomes of the onboarding services *)

Lemma register_fault_throws hashValue generateInviteCode body w e :
  register_fault generateInviteCode body w = Some e ->
  exists w',
    registerUserService hashValue generateInviteCode body w = (Throw e, w').
Proof.
  intros Hfault.
  destruct (registerUserService hashValue generateInviteCode body w)
    as [[reg|e'] w'] eqn:Hrun;
    pose proof (registerUserService_spec _ _ _ _ _ _ Hrun) as Hpost;
    simpl in Hpost.
  - destruct Hpost as [Hnone _]. congruence.
  - destruct Hpost as [Hsome _]. exists w'. congruence.
Qed.

Lemma login_fault_throws hashValue generateInviteCode data w e :
  login_fault generateInviteCode data w = Some e ->
  exists w',
    loginOrCreateAccountService hashValue generateInviteCode data w
    = (Throw e, w').
Proof.
  intros Hfault.
  destruct (loginOrCreateAccountService hashValue generateInviteCode data w)
    as [[user|e'] w'] eqn:Hrun;
    pose proof (loginOrCreateAccountService_spec _ _ _ _ _ _ Hrun) as Hpost;
    simpl in Hpost.
  - destruct Hpost as [Hnone _]. congruence.
  - destruct Hpost as [Hsome _]. exists w'. congruence.
Qed.

Lemma register_no_fault_returns hashValue generateInviteCode body w :
  register_fault generateInviteCode body w = None ->
  exists reg w',
    registerUserService hashValue generateInviteCode body w = (Ok reg, w').
Proof.
  intros Hfault.
  destruct (registerUserService hashValue generateInviteCode body w)
    as [[reg|e'] w'] eqn:Hrun.
  - eauto.
  - pose proof (registerUserService_spec _ _ _ _ _ _ Hrun) as [Hsome _].
    congruence.
Qed.

Lemma login_no_fault_returns hashValue generateInviteCode data w :
  login_fault generateInviteCode data w = None ->
  exists user w',
    loginOrCreateAccountService hashValue generateInviteCode data w
    = (Ok user, w').
Proof.
  intros Hfault.
  destruct (loginOrCreateAccountService hashValue generateInviteCode data w)
    as [[user|e'] w'] eqn:Hrun.
  - eauto.
  - pose proof (loginOrCreateAccountService_spec _ _ _ _ _ _ Hrun) as [Hsome _].
    congruence.
Qed.

Lemma In_app_mid {A} (l : list A) (a b c : A) (rest : list A) :
  In c (l ++ a :: b :: c :: rest).
Proof. apply in_or_app. right. simpl. auto. Qed.

(** C1.  When a step of [registerUserService], or of the creation branch
    of [loginOrCreateAccountService], fails, the transaction is aborted,
    the database is the one before the call (no User, Account, Workspace
    or Member of the invocation is left), and the caller gets the error
    of the failing step; conversely every thrown error is the error of
    the first failing step. *)
Theorem onboarding_failure_rolls_back hashValue generateInviteCode w :
  (forall body e w',
      registerUserService hashValue generateInviteCode body w = (Throw e, w') ->
      db w' = db w
      /\ register_fault generateInviteCode body w = Some e
      /\ In (AbortTransaction (next_session w)) (session_log w'))
  /\ (forall data e w',
      loginOrCreateAccountService hashValue generateInviteCode data w
      = (Throw e, w') ->
      db w' = db w
      /\ login_fault generateInviteCode data w = Some e
      /\ find_user (data_email data) w = None
      /\ In (AbortTransaction (next_session w)) (session_log w'))
  /\ (forall body e,
      register_fault generateInviteCode body w = Some e ->
      fst (registerUserService hashValue generateInviteCode body w) = Throw e)
  /\ (forall data e,
      login_fault generateInviteCode data w = Some e ->
      fst (loginOrCreateAccountService hashValue generateInviteCode data w)
      = Throw e).
Proof.
  split; [|split; [|split]].
  - intros body e w' Hrun.
    apply registerUserService_spec in Hrun as (Hfault & Hdb & -> & _).
    split; [exact Hdb|]. split; [exact Hfault|]. apply In_app_mid.
  - intros data e w' Hrun.
    apply loginOrCreateAccountService_spec in Hrun as (Hfault & Hdb & -> & _).
    split; [exact Hdb|]. split; [exact Hfault|]. split; [|apply In_app_mid].
    unfold login_fault in Hfault.
    destruct (find_user (data_email data) w); [discriminate|reflexivity].
  - intros body e Hfault.
    destruct (register_fault_throws hashValue _ _ _ _ Hfault) as [w' ->].
    reflexivity.
  - intros data e Hfault.
    destruct (login_fault_throws hashValue _ _ _ _ Hfault) as [w' ->].
    reflexivity.
Qed.

Lemma onboarding_failure_rolls_back_witness :
  let body := mkRegisterBody "ann@example.com" "Ann" "secret" in
  let run := registerUserService sampleHash sampleInviteCode body unseededWorld in
  fst run = Throw (NotFoundException "Owner role not found")
  /\ db (snd run) = db unseededWorld
  /\ register_fault sampleInviteCode body unseededWorld
     = Some (NotFoundException "Owner role not found").
Proof.
  intros body run.
  destruct (onboarding_failure_rolls_back sampleHash sampleInviteCode
              unseededWorld) as (Hregister & _).
  destruct (Hregister body (NotFoundException "Owner role not found") (snd run))
    as (Hdb & Hfault & _).
  - vm_compute. reflexivity.
  - split; [vm_compute; reflexivity|]. split; assumption.
Defined.

(** ** Releases of the session *)

Lemma releases_app sid l l' :
  releases sid (l ++ l') = releases sid l + releases sid l'.
Proof. unfold releases. rewrite List.filter_app, length_app. reflexivity. Qed.

(** C8.  [loginOrCreateAccountService] calls [endSession] on its session
    twice on every exit path (in the [try] or the [catch] block, and once
    more in the [finally] block); [registerUserService] calls it once. *)
Theorem endSession_calls hashValue generateInviteCode w :
  let sid := next_session w in
  (forall data,
      releases sid
        (session_log
           (snd (loginOrCreateAccountService hashValue generateInviteCode
                   data w)))
      = releases sid (session_log w) + 2)
  /\ (forall body,
      releases sid
        (session_log
           (snd (registerUserService hashValue generateInviteCode body w)))
      = releases sid (session_log w) + 1).
Proof.
  intros sid. split.
  - intros data.
    destruct (loginOrCreateAccountService hashValue generateInviteCode data w)
      as [[user|e] w'] eqn:Hrun;
      apply loginOrCreateAccountService_spec in Hrun; simpl in Hrun;
      cbn [snd].
    + destruct Hrun as (_ & -> & _). rewrite releases_app. f_equal.
      unfold releases. simpl. rewrite Nat.eqb_refl. reflexivity.
    + destruct Hrun as (_ & _ & -> & _). rewrite releases_app. f_equal.
      unfold releases. simpl. rewrite Nat.eqb_refl. reflexivity.
  - intros body.
    destruct (registerUserService hashValue generateInviteCode body w)
      as [[reg|e] w'] eqn:Hrun;
      apply registerUserService_spec in Hrun; simpl in Hrun;
      cbn [snd].
    + destruct Hrun as (_ & _ & -> & _). rewrite releases_app. f_equal.
      unfold releases. simpl. rewrite Nat.eqb_refl. reflexivity.
    + destruct Hrun as (_ & _ & -> & _). rewrite releases_app. f_equal.
      unfold releases. simpl. rewrite Nat.eqb_refl. reflexivity.
Qed.

(** ** Users after a creation *)

Lemma update_first_map {A B} (g : A -> B) (p : A -> bool) (f : A -> A)
      (l l' : list A) :
  (forall x, g (f x) = g x) ->
  update_first p f l = Some l' -> map g l' = map g l.
Proof.
  intros Hg. revert l'. induction l as [|x l IH]; simpl; intros l' H.
  - discriminate.
  - destruct (p x).
    + injection H as <-. simpl. rewrite Hg. reflexivity.
    + destruct (update_first p f l) as [l''|]; [|discriminate].
      injection H as <-. simpl. rewrite (IH l''); reflexivity.
Qed.

Lemma filter_has_email_map (e : string) (l : list User.t) :
  length (List.filter (UserModel.has_email e) l)
  = length (List.filter (fun p => String.eqb (fst p) e) (map email_and_id l)).
Proof.
  induction l as [|u l IH]; simpl; [reflexivity|].
  unfold UserModel.has_email at 1.
  destruct (String.eqb (User.email u) e); simpl; rewrite IH; reflexivity.
Qed.

Lemma find_has_email_map (e : string) (l : list User.t) :
  option_map User._id (find (UserModel.has_email e) l)
  = option_map snd (find (fun p => String.eqb (fst p) e) (map email_and_id l)).
Proof.
  induction l as [|u l IH]; simpl; [reflexivity|].
  unfold UserModel.has_email at 1.
  destruct (String.eqb (User.email u) e); simpl; [reflexivity|exact IH].
Qed.

Lemma users_after_creation_map hashValue w email name password picture us :
  users_after_creation hashValue w email name password picture = Some us ->
  map email_and_id us
  = map email_and_id
        (users (db w) ++ [inserted_user hashValue w email name password picture]).
Proof.
  unfold users_after_creation. apply update_first_map.
  intros x. reflexivity.
Qed.

Lemma users_after_creation_count hashValue w email name password picture us :
  find_user email w = None ->
  users_after_creation hashValue w email name password picture = Some us ->
  length (List.filter (UserModel.has_email (UserModel.castEmail email)) us) = 1.
Proof.
  intros Hnone Hus.
  rewrite filter_has_email_map, (users_after_creation_map _ _ _ _ _ _ _ Hus).
  rewrite <- filter_has_email_map, List.filter_app, length_app.
  rewrite (filter_none _ _ (find_None_existsb _ _ Hnone)).
  simpl. unfold UserModel.has_email. simpl. rewrite String.eqb_refl.
  reflexivity.
Qed.

Lemma users_after_creation_find hashValue w email name password picture us :
  find_user email w = None ->
  users_after_creation hashValue w email name password picture = Some us ->
  exists u,
    find (UserModel.has_email (UserModel.castEmail email)) us = Some u
    /\ User._id u = next_oid w.
Proof.
  intros Hnone Hus.
  pose proof (find_has_email_map (UserModel.castEmail email) us) as Hfind.
  rewrite (users_after_creation_map _ _ _ _ _ _ _ Hus) in Hfind.
  rewrite <- find_has_email_map in Hfind.
  rewrite (find_app_None _ _ _ Hnone) in Hfind.
  unfold UserModel.has_email in Hfind at 2. simpl in Hfind.
  rewrite String.eqb_refl in Hfind. simpl in Hfind.
  destruct (find (UserModel.has_email (UserModel.castEmail email)) us) as [u|];
    [|discriminate].
  injection Hfind as Hid. eauto.
Qed.

Lemma register_fault_None generateInviteCode body w :
  register_fault generateInviteCode body w = None ->
  find_user (body_email body) w = None
  /\ creation_fault generateInviteCode (body_email body) w = None.
Proof.
  unfold register_fault.
  destruct (find_user (body_email body) w); [discriminate|auto].
Qed.

(** C3.  When [registerUserService] has succeeded for an email, a second
    call with that email throws [BadRequestException], leaves the
    database as it is, and the store holds exactly one User that the
    query [{ email }] matches. *)
Theorem register_twice_BadRequest hashValue generateInviteCode
        body1 body2 w reg w1 :
  body_email body2 = body_email body1 ->
  registerUserService hashValue generateInviteCode body1 w = (Ok reg, w1) ->
  exists w2,
    registerUserService hashValue generateInviteCode body2 w1
    = (Throw (BadRequestException "Email already exists"), w2)
    /\ db w2 = db w1
    /\ length (List.filter
                 (UserModel.has_email (UserModel.castEmail (body_email body1)))
                 (users (db w2))) = 1.
Proof.
  intros Hemail Hrun1.
  apply registerUserService_spec in Hrun1
    as (Hfault & _ & _ & _ & role & us & _ & Hus & Hdb).
  apply register_fault_None in Hfault as [Hnone _].
  assert (Husers : users (db w1) = us) by (rewrite Hdb; reflexivity).
  pose proof (users_after_creation_count _ _ _ _ _ _ _ Hnone Hus) as Hcount.
  destruct (users_after_creation_find _ _ _ _ _ _ _ Hnone Hus) as (u & Hu & _).
  assert (Hfault2 : register_fault generateInviteCode body2 w1
                    = Some (BadRequestException "Email already exists")).
  { unfold register_fault, find_user. rewrite Hemail, Husers, Hu. reflexivity. }
  destruct (register_fault_throws hashValue _ _ _ _ Hfault2) as [w2 Hrun2].
  exists w2. split; [exact Hrun2|].
  apply registerUserService_spec in Hrun2 as (_ & Hdb2 & _).
  split; [exact Hdb2|]. rewrite Hdb2, Husers. exact Hcount.
Qed.

Lemma register_twice_BadRequest_witness :
  let body := mkRegisterBody " Ann@Example.com " "Ann" "secret" in
  let w1 := snd (registerUserService sampleHash sampleInviteCode body seededWorld) in
  exists w2,
    registerUserService sampleHash sampleInviteCode body w1
    = (Throw (BadRequestException "Email already exists"), w2)
    /\ db w2 = db w1
    /\ length (List.filter
                 (UserModel.has_email (UserModel.castEmail (body_email body)))
                 (users (db w2))) = 1.
Proof.
  intros body w1.
  apply (register_twice_BadRequest sampleHash sampleInviteCode body body
           seededWorld (mkRegistered 1 3) w1).
  - reflexivity.
  - vm_compute. reflexivity.
Defined.

(** C5.  When [loginOrCreateAccountService] has returned for an email, a
    second call with that email writes nothing (the database, hence each
    collection, is unchanged) and returns a user with the same [_id]. *)
Theorem login_twice_idempotent hashValue generateInviteCode
        data1 data2 w user1 w1 :
  data_email data2 = data_email data1 ->
  loginOrCreateAccountService hashValue generateInviteCode data1 w
  = (Ok user1, w1) ->
  exists user2 w2,
    loginOrCreateAccountService hashValue generateInviteCode data2 w1
    = (Ok user2, w2)
    /\ db w2 = db w1
    /\ User._id (UserModel.fields user2) = User._id (UserModel.fields user1).
Proof.
  intros Hemail Hrun1.
  apply loginOrCreateAccountService_spec in Hrun1 as (_ & _ & Hcase).
  assert (Hfound : exists u,
             find_user (data_email data2) w1 = Some u
             /\ User._id u = User._id (UserModel.fields user1)).
  { rewrite Hemail. unfold find_user at 1.
    destruct (find_user (data_email data1) w) as [u|] eqn:Hfind.
    - destruct Hcase as (-> & -> & _). exists u.
      split; [exact Hfind|reflexivity].
    - destruct Hcase as (-> & _ & role & us & _ & Hus & ->).
      exact (users_after_creation_find _ _ _ _ _ _ _ Hfind Hus). }
  destruct Hfound as (u & Hu & Hid).
  assert (Hfault2 : login_fault generateInviteCode data2 w1 = None).
  { unfold login_fault. rewrite Hu. reflexivity. }
  destruct (login_no_fault_returns hashValue _ _ _ Hfault2)
    as (user2 & w2 & Hrun2).
  exists user2, w2. split; [exact Hrun2|].
  apply loginOrCreateAccountService_spec in Hrun2 as (_ & _ & Hcase2).
  rewrite Hu in Hcase2. destruct Hcase2 as (-> & -> & _).
  split; [reflexivity|exact Hid].
Qed.

Lemma login_twice_idempotent_witness :
  let data := mkLoginData "g-1" GOOGLE "Bob" "Bob@x.io" None in
  let run1 := loginOrCreateAccountService sampleHash sampleInviteCode data
                seededWorld in
  exists user2 w2,
    loginOrCreateAccountService sampleHash sampleInviteCode data (snd run1)
    = (Ok user2, w2)
    /\ db w2 = db (snd run1)
    /\ User._id (UserModel.fields user2) = 1.
Proof.
  intros data run1.
  destruct (login_twice_idempotent sampleHash sampleInviteCode data data
              seededWorld
              (UserModel.loaded
                 (created_user sampleHash seededWorld "Bob@x.io" "Bob" None None))
              (snd run1))
    as (user2 & w2 & Hrun & Hdb & Hid).
  - reflexivity.
  - vm_compute. reflexivity.
  - exists user2, w2. auto.
Defined.

(** ** Creations in a world with fresh identifiers *)

Lemma users_after_creation_fresh hashValue w email name password picture :
  fresh_oids w = true ->
  users_after_creation hashValue w email name password picture
  = Some (users (db w) ++ [created_user hashValue w email name password picture]).
Proof.
  intros Hfresh. unfold users_after_creation.
  rewrite update_first_app_last.
  - reflexivity.
  - exact (fresh_oids_users _ Hfresh).
  - apply Nat.eqb_refl.
Qed.

Lemma filter_app_fresh {A} (f : A -> nat) (n : nat) (l : list A) (x : A) :
  forallb (fun y => f y <? n)%nat l = true ->
  f x = n ->
  List.filter (fun y => Nat.eqb (f y) n) (l ++ [x]) = [x].
Proof.
  intros Hl Hx. rewrite List.filter_app.
  rewrite (filter_none _ _ (forallb_ltb_existsb_eqb f n l Hl)).
  simpl. rewrite Hx, Nat.eqb_refl. reflexivity.
Qed.

Lemma In_find {A} (p : A -> bool) (l : list A) (x : A) :
  find p l = Some x -> In x l.
Proof.
  induction l as [|y l IH]; simpl; [discriminate|].
  destruct (p y); [intros [= ->]; auto|auto].
Qed.

Lemma has_name_OWNER (r : Role.t) :
  RoleModel.has_name OWNER r = true -> Role.name r = OWNER.
Proof. unfold RoleModel.has_name. destruct (Role.name r); simpl; congruence. Qed.

Lemma created_database_onboarded generateInviteCode w u a role name :
  fresh_oids w = true ->
  User._id u = next_oid w ->
  User.currentWorkspace u = Some (S (S (next_oid w))) ->
  Account.userId a = next_oid w ->
  find (RoleModel.has_name OWNER) (roles (db w)) = Some role ->
  onboarded (next_oid w) (S (S (next_oid w)))
            (created_database generateInviteCode w (users (db w) ++ [u]) a
                              role name).
Proof.
  intros Hfresh Hu Hws Ha Hrole.
  apply oids_below_inv in Hfresh as (Hus & Has & Hws' & Hms).
  exists (created_workspace generateInviteCode w name), a,
    (created_member w role), role, u.
  unfold created_database. cbn [users accounts workspaces roles members].
  repeat split.
  - apply (filter_app_fresh Workspace.owner); [exact Hws'|reflexivity].
  - apply (filter_app_fresh Account.userId); [exact Has|exact Ha].
  - apply (filter_app_fresh Member.userId); [exact Hms|reflexivity].
  - exact (In_find _ _ _ Hrole).
  - exact (has_name_OWNER _ (find_Some_holds _ _ _ Hrole)).
  - apply (filter_app_fresh User._id); [exact Hus|exact Hu].
  - exact Hws.
Qed.

(** C4.  In a world whose next ObjectId is fresh, after a successful
    [registerUserService], or a successful [loginOrCreateAccountService]
    for an email no stored user has, exactly one Workspace is owned by
    the new user, exactly one Account and exactly one Member refer to the
    new user, that Member has the OWNER role, and the stored user's
    [currentWorkspace] is that Workspace. *)
Theorem onboarding_creates_one_of_each hashValue generateInviteCode w :
  fresh_oids w = true ->
  (forall body reg w',
      registerUserService hashValue generateInviteCode body w = (Ok reg, w') ->
      onboarded (userId reg) (workspaceId reg) (db w'))
  /\ (forall data user w',
      find_user (data_email data) w = None ->
      loginOrCreateAccountService hashValue generateInviteCode data w
      = (Ok user, w') ->
      exists wsid,
        User.currentWorkspace (UserModel.fields user) = Some wsid
        /\ onboarded (User._id (UserModel.fields user)) wsid (db w')).
Proof.
  intros Hfresh. split.
  - intros body reg w' Hrun.
    apply registerUserService_spec in Hrun
      as (_ & -> & _ & _ & role & us & Hrole & Hus & ->).
    rewrite users_after_creation_fresh in Hus by exact Hfresh.
    injection Hus as <-.
    apply created_database_onboarded; auto.
  - intros data user w' Hnone Hrun.
    apply loginOrCreateAccountService_spec in Hrun as (_ & _ & Hcase).
    rewrite Hnone in Hcase.
    destruct Hcase as (-> & _ & role & us & Hrole & Hus & ->).
    rewrite users_after_creation_fresh in Hus by exact Hfresh.
    injection Hus as <-.
    exists (S (S (next_oid w))). split; [reflexivity|].
    apply created_database_onboarded; auto.
Qed.

Lemma onboarding_creates_one_of_each_witness :
  onboarded 1 3
    (db (snd (registerUserService sampleHash sampleInviteCode
                (mkRegisterBody "ann@example.com" "Ann" "secret")
                seededWorld))).
Proof.
  destruct (onboarding_creates_one_of_each sampleHash sampleInviteCode
              seededWorld) as [Hregister _].
  - reflexivity.
  - apply (Hregister (mkRegisterBody "ann@example.com" "Ann" "secret")
                     (mkRegistered 1 3)).
    vm_compute. reflexivity.
Defined.

(** ** Freshness of ObjectIds is an invariant *)

Lemma forallb_ltb_mono {A} (f : A -> nat) (n m : nat) (l : list A) :
  n <= m ->
  forallb (fun x => f x <? n)%nat l = true ->
  forallb (fun x => f x <? m)%nat l = true.
Proof.
  intros Hnm. induction l as [|x l IH]; simpl; [reflexivity|].
  intros H. apply andb_prop in H as [Hx Hl].
  apply Nat.ltb_lt in Hx. rewrite (IH Hl), andb_true_r.
  apply Nat.ltb_lt. lia.
Qed.

Lemma forallb_ltb_app_last {A} (f : A -> nat) (n m : nat) (l : list A) (x : A) :
  n <= m -> f x < m ->
  forallb (fun y => f y <? n)%nat l = true ->
  forallb (fun y => f y <? m)%nat (l ++ [x]) = true.
Proof.
  intros Hnm Hx Hl. rewrite forallb_app, (forallb_ltb_mono f n m l Hnm Hl).
  simpl. rewrite andb_true_r. apply Nat.ltb_lt. exact Hx.
Qed.

Lemma oids_below_mono n m d :
  n <= m -> oids_below n d = true -> oids_below m d = true.
Proof.
  intros Hnm H. apply oids_below_inv in H as (Hu & Ha & Hw & Hm).
  unfold oids_below.
  rewrite (forallb_ltb_mono _ _ _ _ Hnm Hu), (forallb_ltb_mono _ _ _ _ Hnm Ha),
    (forallb_ltb_mono _ _ _ _ Hnm Hw), (forallb_ltb_mono _ _ _ _ Hnm Hm).
  reflexivity.
Qed.

Lemma oids_below_created generateInviteCode w u a role name :
  fresh_oids w = true ->
  User._id u = next_oid w ->
  Account.userId a = next_oid w ->
  oids_below (S (S (S (S (next_oid w)))))
             (created_database generateInviteCode w (users (db w) ++ [u]) a
                               role name)
  = true.
Proof.
  intros Hfresh Hu Ha.
  apply oids_below_inv in Hfresh as (Hus & Has & Hws & Hms).
  unfold oids_below, created_database.
  cbn [users accounts workspaces members].
  rewrite (forallb_ltb_app_last User._id (next_oid w)) by (try lia; exact Hus).
  rewrite (forallb_ltb_app_last Account.userId (next_oid w))
    by (try lia; exact Has).
  rewrite (forallb_ltb_app_last Workspace.owner (next_oid w))
    by (try (simpl; lia); exact Hws).
  rewrite (forallb_ltb_app_last Member.userId (next_oid w))
    by (try (simpl; lia); exact Hms).
  reflexivity.
Qed.

(** The worlds the onboarding services leave have fresh ObjectIds when
    the world they start from has. *)
Lemma fresh_oids_preserved hashValue generateInviteCode w :
  fresh_oids w = true ->
  (forall body,
      fresh_oids (snd (registerUserService hashValue generateInviteCode body w))
      = true)
  /\ (forall data,
      fresh_oids
        (snd (loginOrCreateAccountService hashValue generateInviteCode data w))
      = true).
Proof.
  intros Hfresh. split.
  - intros body.
    destruct (registerUserService hashValue generateInviteCode body w)
      as [[reg|e] w'] eqn:Hrun;
      apply registerUserService_spec in Hrun; cbn [snd]; unfold fresh_oids.
    + destruct Hrun as (_ & _ & _ & -> & role & us & _ & Hus & ->).
      rewrite users_after_creation_fresh in Hus by exact Hfresh.
      injection Hus as <-. apply oids_below_created; auto.
    + destruct Hrun as (_ & -> & _ & Hle).
      exact (oids_below_mono _ _ _ Hle Hfresh).
  - intros data.
    destruct (loginOrCreateAccountService hashValue generateInviteCode data w)
      as [[user|e] w'] eqn:Hrun;
      apply loginOrCreateAccountService_spec in Hrun; cbn [snd];
      unfold fresh_oids.
    + destruct Hrun as (_ & _ & Hcase).
      destruct (find_user (data_email data) w).
      * destruct Hcase as (_ & -> & ->). exact Hfresh.
      * destruct Hcase as (_ & -> & role & us & _ & Hus & ->).
        rewrite users_after_creation_fresh in Hus by exact Hfresh.
        injection Hus as <-. apply oids_below_created; auto.
    + destruct Hrun as (_ & -> & _ & Hle).
      exact (oids_below_mono _ _ _ Hle Hfresh).
Qed.

(** ** The credential check *)

Lemma verifyUserService_run compareValue params w :
  verifyUserService compareValue params w =
  match find (AccountModel.matches (default EMAIL (params_provider params))
                                   (params_email params))
             (accounts (db w)) with
  | None => (Throw (NotFoundException "Invalid email or password"), w)
  | Some account =>
      match find (UserModel.has_id (Account.userId account)) (users (db w)) with
      | None =>
          (Throw (NotFoundException "User not found for the given account"), w)
      | Some u =>
          match compareValue (params_password params) (User.password u) with
          | Ok true => (Ok (UserModel.omitPassword (UserModel.loaded u)), w)
          | Ok false =>
              (Throw (UnauthorizedException "Invalid email or password"), w)
          | Throw e => (Throw e, w)
          end
      end
  end.
Proof.
  unfold verifyUserService, AccountModel.findOne, UserModel.findById,
    UserModel.comparePassword, bind, get_db, ret, throw.
  cbn [fst snd].
  destruct (find _ (accounts (db w))) as [account|]; [|reflexivity].
  destruct (find _ (users (db w))) as [u|]; [|reflexivity].
  cbn [option_map UserModel.loaded UserModel.fields].
  destruct (compareValue _ _) as [[|]|e]; reflexivity.
Qed.

(** C6.  [verifyUserService] throws [NotFoundException] when no account
    matches the provider and the email, and [UnauthorizedException] when
    the account and its user exist and the password does not match; the
    two exceptions carry the same message. *)
Theorem verify_failures_share_message compareValue params w :
  let provider := default EMAIL (params_provider params) in
  let lookup :=
    find (AccountModel.matches provider (params_email params))
         (accounts (db w)) in
  (lookup = None ->
   verifyUserService compareValue params w
   = (Throw (NotFoundException "Invalid email or password"), w))
  /\ (forall account u,
         lookup = Some account ->
         find (UserModel.has_id (Account.userId account)) (users (db w))
         = Some u ->
         compareValue (params_password params) (User.password u) = Ok false ->
         verifyUserService compareValue params w
         = (Throw (UnauthorizedException "Invalid email or password"), w))
  /\ message_of (NotFoundException "Invalid email or password")
     = message_of (UnauthorizedException "Invalid email or password").
Proof.
  intros provider lookup. subst provider lookup. repeat split.
  - intros Hnone. rewrite verifyUserService_run, Hnone. reflexivity.
  - intros account u Haccount Hu Hcompare.
    rewrite verifyUserService_run, Haccount, Hu, Hcompare. reflexivity.
Qed.

Lemma verify_failures_share_message_witness :
  let w1 := snd (registerUserService sampleHash sampleInviteCode
                   (mkRegisterBody "ann@example.com" "Ann" "secret")
                   seededWorld) in
  verifyUserService sampleCompare
    (mkVerifyParams "bob@example.com" "secret" None) w1
  = (Throw (NotFoundException "Invalid email or password"), w1)
  /\ verifyUserService sampleCompare
       (mkVerifyParams "ann@example.com" "guess" None) w1
     = (Throw (UnauthorizedException "Invalid email or password"), w1).
Proof.
  intros w1. split.
  - apply (verify_failures_share_message sampleCompare
             (mkVerifyParams "bob@example.com" "secret" None) w1).
    vm_compute. reflexivity.
  - destruct (verify_failures_share_message sampleCompare
                (mkVerifyParams "ann@example.com" "guess" None) w1)
      as (_ & Hwrong & _).
    apply (Hwrong (Account.mk 2 1 EMAIL "ann@example.com")
                  (User.mk 1 "Ann" "ann@example.com" (Some "$2b$secret") None
                           (Some 3) true None));
      vm_compute; reflexivity.
Defined.

(** ** Registration followed by the credential check *)

Lemma existsb_false_find {A} (p : A -> bool) (l : list A) :
  existsb p l = false -> find p l = None.
Proof.
  induction l as [|x l IH]; simpl; [reflexivity|].
  destruct (p x); [discriminate|exact IH].
Qed.

Lemma matches_refl provider providerId a :
  Account.provider a = provider -> Account.providerId a = providerId ->
  AccountModel.matches provider providerId a = true.
Proof.
  intros <- <-. unfold AccountModel.matches.
  rewrite String.eqb_refl. destruct (Account.provider a); reflexivity.
Qed.

(** C2 (as amended).  For an email no stored user has and whose
    normalised form is not empty, a non-empty password, a store in which
    no step of the creation sequence fails (the OWNER role is seeded, the
    invite code drawn is non-empty and unused), no EMAIL account for the
    email yet, fresh ObjectIds and a hash utility that accepts what it
    hashed: [registerUserService] succeeds and the following
    [verifyUserService] returns the new user, with the trimmed lower-case
    email and without a password field. *)
Theorem register_then_verify hashValue compareValue generateInviteCode body w :
  find_user (body_email body) w = None ->
  creation_fault generateInviteCode (body_email body) w = None ->
  truthy (body_password body) = true ->
  find (AccountModel.matches EMAIL (body_email body)) (accounts (db w)) = None ->
  fresh_oids w = true ->
  (forall p, compareValue p (Some (hashValue p)) = Ok true) ->
  exists reg w1 u,
    registerUserService hashValue generateInviteCode body w = (Ok reg, w1)
    /\ verifyUserService compareValue
         (mkVerifyParams (body_email body) (body_password body) None) w1
       = (Ok u, w1)
    /\ User._id u = userId reg
    /\ User.email u = UserModel.castEmail (body_email body)
    /\ User.password u = None.
Proof.
  intros Hnone Hcreate Htruthy Haccount Hfresh Hcompare.
  assert (Hfault : register_fault generateInviteCode body w = None).
  { unfold register_fault. rewrite Hnone. exact Hcreate. }
  destruct (register_no_fault_returns hashValue _ _ _ Hfault)
    as (reg & w1 & Hrun).
  pose proof (registerUserService_spec _ _ _ _ _ _ Hrun)
    as (_ & -> & _ & _ & role & us & Hrole & Hus & Hdb).
  rewrite users_after_creation_fresh in Hus by exact Hfresh.
  injection Hus as <-.
  eexists _, w1, _. split; [exact Hrun|].
  rewrite verifyUserService_run, Hdb.
  cbn [created_database accounts users params_email params_password
       params_provider default].
  rewrite (find_app_None _ _ _ Haccount).
  rewrite matches_refl by reflexivity.
  cbn [created_account Account.userId].
  rewrite (find_app_None _ _ _
             (existsb_false_find _ _ (fresh_oids_users _ Hfresh))).
  match goal with
  | |- context [UserModel.has_id ?n ?u] =>
      replace (UserModel.has_id n u) with true
        by (symmetry; apply Nat.eqb_refl)
  end.
  cbn [created_user User.password stored_password]. rewrite Htruthy, Hcompare.
  repeat split.
Qed.

Lemma register_then_verify_witness :
  exists reg w1 u,
    registerUserService sampleHash sampleInviteCode
      (mkRegisterBody " Ann@Example.com " "Ann" "secret") seededWorld
    = (Ok reg, w1)
    /\ verifyUserService sampleCompare
         (mkVerifyParams " Ann@Example.com " "secret" None) w1
       = (Ok u, w1)
    /\ User._id u = userId reg
    /\ User.email u = "ann@example.com"
    /\ User.password u = None.
Proof.
  apply (register_then_verify sampleHash sampleCompare sampleInviteCode
           (mkRegisterBody " Ann@Example.com " "Ann" "secret") seededWorld);
    try reflexivity.
  intros p. unfold sampleCompare. rewrite String.eqb_refl. reflexivity.
Defined.

(** C2 (as stated) fails: with no OWNER role seeded, registering an email
    that no stored user has throws. *)
Lemma register_needs_owner_role :
  let body := mkRegisterBody "ann@example.com" "Ann" "secret" in
  find_user (body_email body) unseededWorld = None
  /\ fst (registerUserService sampleHash sampleInviteCode body unseededWorld)
     = Throw (NotFoundException "Owner role not found").
Proof. split; vm_compute; reflexivity. Qed.

(** The other conditions of the amended claim are needed as well. *)

Example verify_rejects_empty_password :
  let body := mkRegisterBody "ann@example.com" "Ann" EmptyString in
  let run := registerUserService sampleHash sampleInviteCode body seededWorld in
  fst run = Ok (mkRegistered 1 3)
  /\ fst (verifyUserService sampleCompare
            (mkVerifyParams "ann@example.com" EmptyString None) (snd run))
     = Throw (UnauthorizedException "Invalid email or password").
Proof. split; vm_compute; reflexivity. Qed.

Example verify_returns_normalised_email :
  let body := mkRegisterBody " Ann@Example.com " "Ann" "secret" in
  let run := registerUserService sampleHash sampleInviteCode body seededWorld in
  option_map User.email
    (match fst (verifyUserService sampleCompare
                  (mkVerifyParams " Ann@Example.com " "secret" None) (snd run))
     with Ok u => Some u | Throw _ => None end)
  = Some "ann@example.com".
Proof. vm_compute. reflexivity. Qed.

Example register_rejects_blank_email :
  fst (registerUserService sampleHash sampleInviteCode
         (mkRegisterBody "   " "Ann" "secret") seededWorld)
  = Throw (ValidationError "email").
Proof. vm_compute. reflexivity. Qed.

Example register_rejects_used_invite_code :
  let d := mkDatabase [] [] [Workspace.mk 9 "Old" "taken" 8 "c"] [ownerRole]
                      [] [] [] in
  fst (registerUserService sampleHash sampleInviteCode
         (mkRegisterBody "ann@example.com" "Ann" "secret") (world_of d 10))
  = Throw (DuplicateKeyError "inviteCode").
Proof. vm_compute. reflexivity. Qed.

Example verify_finds_older_account :
  let login := mkLoginData "ann@example.com" EMAIL "Bob" "bob@x.io" None in
  let w1 := snd (loginOrCreateAccountService sampleHash sampleInviteCode login
                   seededWorld) in
  let body := mkRegisterBody "ann@example.com" "Ann" "secret" in
  let run := registerUserService sampleHash sampleInviteCode body w1 in
  fst run = Ok (mkRegistered 5 7)
  /\ fst (verifyUserService sampleCompare
            (mkVerifyParams "ann@example.com" "secret" None) (snd run))
     = Throw BcryptError.
Proof. split; vm_compute; reflexivity. Qed.

(** ** The [pre("save")] hook *)

Lemma pre_save_frame hashValue this :
  UserModel.isNew (UserModel.pre_save hashValue this) = UserModel.isNew this
  /\ UserModel.modifiedPaths (UserModel.pre_save hashValue this)
     = UserModel.modifiedPaths this
  /\ User._id (UserModel.fields (UserModel.pre_save hashValue this))
     = User._id (UserModel.fields this).
Proof.
  unfold UserModel.pre_save.
  destruct (UserModel.isModified "password" this); [|auto].
  destruct (User.password (UserModel.fields this)) as [p|]; [|auto].
  destruct (truthy p); auto.
Qed.

Lemma pre_save_password hashValue this :
  User.password (UserModel.fields (UserModel.pre_save hashValue this))
  = if UserModel.isModified "password" this
    then stored_password hashValue (User.password (UserModel.fields this))
    else User.password (UserModel.fields this).
Proof.
  unfold UserModel.pre_save, stored_password.
  destruct (UserModel.isModified "password" this); [|reflexivity].
  destruct (User.password (UserModel.fields this)) as [p|] eqn:Hp;
    [|exact Hp].
  destruct (truthy p); [reflexivity|exact Hp].
Qed.

Lemma save_Ok hashValue this sid w this' w' :
  UserModel.save hashValue this sid w = (Ok this', w') ->
  this'
  = UserModel.mkDocument (UserModel.fields (UserModel.pre_save hashValue this))
                         false []
  /\ if UserModel.isNew this
     then users (db w') = users (db w) ++ [UserModel.fields this']
     else update_first
            (UserModel.has_id (User._id (UserModel.fields this)))
            (UserModel.assign_paths (UserModel.modifiedPaths this)
                                    (UserModel.fields this'))
            (users (db w))
          = Some (users (db w')).
Proof.
  destruct (pre_save_frame hashValue this) as (HisNew & Hpaths & Hid).
  unfold UserModel.save, UserModel.validate, UserModel.insertOne,
    UserModel.updateOne, use_session, get_session, bind, get_db, put_db,
    ret, throw.
  rewrite HisNew, Hpaths, Hid.
  destruct (sessions w !! sid) as [s|]; [|discriminate].
  destruct (hasEnded s); [discriminate|].
  destruct (truthy (User.email (UserModel.fields this))); [|discriminate].
  destruct (UserModel.isNew this).
  - destruct (existsb _ (users (db w))); [discriminate|].
    intros [= <- <-]. split; reflexivity.
  - destruct (_ && _); [discriminate|].
    destruct (update_first _ _ (users (db w))) as [us|] eqn:Hus;
      [|discriminate].
    intros [= <- <-]. split; [reflexivity|exact Hus].
Qed.

Lemma update_first_In {A} (p : A -> bool) (f : A -> A) (l l' : list A) :
  update_first p f l = Some l' ->
  exists x, p x = true /\ In (f x) l'.
Proof.
  revert l'. induction l as [|y l IH]; simpl; intros l' H; [discriminate|].
  destruct (p y) eqn:Hy.
  - injection H as <-. exists y. simpl. auto.
  - destruct (update_first p f l) as [l''|]; [|discriminate].
    injection H as <-. destruct (IH l'' eq_refl) as (x & Hx & Hin).
    exists x. simpl. auto.
Qed.

Lemma assign_paths_password paths src dst :
  User.password (UserModel.assign_paths paths src dst)
  = if mem_path "password" paths then User.password src else User.password dst.
Proof. reflexivity. Qed.

(** C7 (as amended).  [save] persists a non-empty password that was set
    in its hashed form; a [save] of a stored document whose password was
    not modified leaves every stored password as it is; and
    [registerUserService], which saves the user twice, leaves the
    password as the hook left it at the first save: hashed once when it
    is not empty. *)
Theorem password_hashed_once hashValue :
  (forall this sid w this' w' p,
      UserModel.save hashValue this sid w = (Ok this', w') ->
      UserModel.isModified "password" this = true ->
      User.password (UserModel.fields this) = Some p ->
      truthy p = true ->
      User.password (UserModel.fields this') = Some (hashValue p)
      /\ exists u,
          In u (users (db w'))
          /\ User._id u = User._id (UserModel.fields this)
          /\ User.password u = Some (hashValue p))
  /\ (forall this sid w this' w',
      UserModel.save hashValue this sid w = (Ok this', w') ->
      UserModel.isModified "password" this = false ->
      UserModel.isNew this = false ->
      map User.password (users (db w')) = map User.password (users (db w))
      /\ User.password (UserModel.fields this')
         = User.password (UserModel.fields this))
  /\ (forall generateInviteCode body w reg w',
      registerUserService hashValue generateInviteCode body w = (Ok reg, w') ->
      map User.password (users (db w'))
      = map User.password (users (db w))
          ++ [if truthy (body_password body)
              then Some (hashValue (body_password body))
              else Some (body_password body)]).
Proof.
  split; [|split].
  - intros this sid w this' w' p Hsave Hmodified Hpassword Htruthy.
    apply save_Ok in Hsave as [Hthis' Hwrite].
    assert (Hpw : User.password (UserModel.fields this') = Some (hashValue p)).
    { rewrite Hthis'. cbn [UserModel.fields].
      rewrite pre_save_password, Hmodified, Hpassword. simpl.
      rewrite Htruthy. reflexivity. }
    assert (Hid : User._id (UserModel.fields this')
                  = User._id (UserModel.fields this)).
    { rewrite Hthis'. cbn [UserModel.fields]. apply pre_save_frame. }
    split; [exact Hpw|].
    destruct (UserModel.isNew this).
    + exists (UserModel.fields this'). rewrite Hwrite.
      split; [apply in_or_app; right; simpl; auto|]. auto.
    + apply update_first_In in Hwrite as (x & Hx & Hin).
      eexists. split; [exact Hin|]. split.
      * cbn [UserModel.assign_paths User._id].
        unfold UserModel.has_id in Hx. apply Nat.eqb_eq in Hx. exact Hx.
      * rewrite assign_paths_password.
        unfold UserModel.isModified in Hmodified. rewrite Hmodified.
        exact Hpw.
  - intros this sid w this' w' Hsave Hmodified HisNew.
    apply save_Ok in Hsave as [-> Hwrite]. rewrite HisNew in Hwrite. split.
    + apply (update_first_map User.password) in Hwrite; [exact Hwrite|].
      intros x. rewrite assign_paths_password.
      unfold UserModel.isModified in Hmodified. rewrite Hmodified.
      reflexivity.
    + cbn [UserModel.fields]. rewrite pre_save_password, Hmodified.
      reflexivity.
  - intros generateInviteCode body w reg w' Hrun.
    apply registerUserService_spec in Hrun
      as (_ & _ & _ & _ & role & us & _ & Hus & ->).
    cbn [created_database users].
    unfold users_after_creation in Hus.
    apply (update_first_map User.password) in Hus; [|intros x; reflexivity].
    rewrite Hus, map_app. reflexivity.
Qed.

Lemma password_hashed_once_witness :
  map User.password
      (users (db (snd (registerUserService sampleHash sampleInviteCode
                         (mkRegisterBody "ann@example.com" "Ann" "secret")
                         seededWorld))))
  = [Some (sampleHash "secret")].
Proof.
  destruct (password_hashed_once sampleHash) as (_ & _ & Hregister).
  apply (Hregister sampleInviteCode
                   (mkRegisterBody "ann@example.com" "Ann" "secret")
                   seededWorld (mkRegistered 1 3)).
  vm_compute. reflexivity.
Defined.

(** C7 (as stated) fails: an empty password is written as it is, not in
    its hashed form. *)
Lemma empty_password_stored_unhashed :
  map User.password
      (users (db (snd (registerUserService sampleHash sampleInviteCode
                         (mkRegisterBody "ann@example.com" "Ann" EmptyString)
                         seededWorld))))
  = [Some EmptyString]
  /\ Some EmptyString <> Some (sampleHash EmptyString).
Proof. split; [vm_compute; reflexivity|discriminate]. Qed.

(** ** Project analytics *)

Lemma first_count_or_0_count_stage (docs : list Task.t) :
  first_count_or_0 (TaskModel.count_stage docs) = length docs.
Proof. destruct docs; reflexivity. Qed.

Lemma filter_length_le {A} (p : A -> bool) (l : list A) :
  length (List.filter p l) <= length l.
Proof.
  induction l as [|x l IH]; simpl; [lia|]. destruct (p x); simpl; lia.
Qed.

Lemma filter_disjoint_length {A} (p q : A -> bool) (l : list A) :
  (forall x, p x = true -> q x = false) ->
  length (List.filter p l) + length (List.filter q l) <= length l.
Proof.
  intros Hpq. induction l as [|x l IH]; simpl; [lia|].
  destruct (p x) eqn:Hp.
  - rewrite (Hpq x Hp). simpl. lia.
  - destruct (q x); simpl; lia.
Qed.

(** C9.  For a project of the workspace, [getProjectAnalyticsService]
    returns the number of tasks of the project as [totalTasks], the
    number of those with status DONE as [completedTasks], the number of
    those due strictly before the current date and not DONE as
    [overdueTasks]; both are at most [totalTasks], and so is their sum. *)
Theorem project_analytics_counts workspaceId projectId w p :
  find (ProjectModel.has_id projectId) (projects (db w)) = Some p ->
  Project.workspace p = workspaceId ->
  let of_project := List.filter (fun t => Nat.eqb (Task.project t) projectId)
                                (tasks (db w)) in
  exists analytics,
    getProjectAnalyticsService workspaceId projectId w = (Ok analytics, w)
    /\ totalTasks analytics = length of_project
    /\ completedTasks analytics = length (List.filter is_DONE of_project)
    /\ overdueTasks analytics
       = length (List.filter
                   (fun t => due_before (clock w) t && negb (is_DONE t))
                   of_project)
    /\ completedTasks analytics <= totalTasks analytics
    /\ overdueTasks analytics <= totalTasks analytics
    /\ completedTasks analytics + overdueTasks analytics
       <= totalTasks analytics.
Proof.
  intros Hp Hws of_project.
  eexists. split.
  - unfold getProjectAnalyticsService, ProjectModel.findById,
      TaskModel.aggregate, bind, get_db, new_Date, ret, throw.
    rewrite Hp. cbn [option_map ProjectModel.loaded ProjectModel.fields].
    rewrite Hws, Nat.eqb_refl. cbn [negb]. reflexivity.
  - cbn [totalTasks completedTasks overdueTasks TaskModel.facet_totalTasks
         TaskModel.facet_completedTasks TaskModel.facet_overdueTasks].
    rewrite !first_count_or_0_count_stage.
    unfold TaskModel.match_stage.
    change (List.filter (TaskModel.in_project projectId) (tasks (db w)))
      with of_project.
    assert (Hdone : forall t, TaskModel.completed t = is_DONE t).
    { intros t. unfold TaskModel.completed, is_DONE.
      destruct (Task.status t); reflexivity. }
    assert (Hover : forall t,
               TaskModel.overdue (clock w) t
               = due_before (clock w) t && negb (is_DONE t)).
    { intros t. unfold TaskModel.overdue, due_before, is_DONE.
      destruct (Task.status t); reflexivity. }
    rewrite (List.filter_ext _ _ Hdone), (List.filter_ext _ _ Hover).
    repeat split.
    + apply filter_length_le.
    + apply filter_length_le.
    + apply filter_disjoint_length.
      intros t Ht. rewrite Ht. apply andb_false_r.
Qed.

Lemma project_analytics_counts_witness :
  getProjectAnalyticsService 5 7 sampleProjectWorld
  = (Ok (mkAnalytics 4 1 1), sampleProjectWorld).
Proof.
  destruct (project_analytics_counts 5 7 sampleProjectWorld
              (Project.mk 7 "Site" None None 5 1))
    as (analytics & Hrun & Htotal & Hdone & Hover & _);
    [reflexivity|reflexivity|].
  rewrite Hrun. destruct analytics as [total overdue completed].
  simpl in Htotal, Hdone, Hover. subst. reflexivity.
Defined.

(** ** Project update *)

Lemma update_first_Some {A} (p : A -> bool) (f : A -> A) (l : list A) :
  existsb p l = true -> exists l', update_first p f l = Some l'.
Proof.
  induction l as [|x l IH]; simpl; [discriminate|].
  destruct (p x); [eauto|]. simpl. intros H.
  destruct (IH H) as [l' ->]. eauto.
Qed.

Lemma find_Some_existsb {A} (p q : A -> bool) (l : list A) (x : A) :
  (forall y, p y = true -> q y = true) ->
  find p l = Some x -> existsb q l = true.
Proof.
  intros Hpq. induction l as [|y l IH]; simpl; [discriminate|].
  destruct (p y) eqn:Hy.
  - intros _. rewrite (Hpq y Hy). reflexivity.
  - intros H. rewrite (IH H). apply orb_true_r.
Qed.

(** C10.  For a project of the workspace, [updateProjectService] returns
    the project with [emoji], [name] and [description] replaced by the
    truthy values of the body and otherwise unchanged; in the store no
    project changes its [_id], [workspace] or [createdBy]; the stored
    values of a field whose body value is not truthy (absent, null or the
    empty string) all stay as they are; and no other collection changes. *)
Theorem update_project_frame workspaceId projectId body w p :
  find (ProjectModel.has_id_and_workspace projectId workspaceId)
       (projects (db w)) = Some p ->
  exists w',
    updateProjectService workspaceId projectId body w
    = (Ok (ProjectModel.loaded (updated_project body p)), w')
    /\ set_projects (projects (db w)) (db w') = db w
    /\ map Project._id (projects (db w')) = map Project._id (projects (db w))
    /\ map Project.workspace (projects (db w'))
       = map Project.workspace (projects (db w))
    /\ map Project.createdBy (projects (db w'))
       = map Project.createdBy (projects (db w))
    /\ (js_truthy (project_name body) = false ->
        map Project.name (projects (db w'))
        = map Project.name (projects (db w)))
    /\ (js_truthy (project_emoji body) = false ->
        map Project.emoji (projects (db w'))
        = map Project.emoji (projects (db w)))
    /\ (js_truthy (project_description body) = false ->
        map Project.description (projects (db w'))
        = map Project.description (projects (db w))).
Proof.
  intros Hp.
  set (doc :=
         let project := ProjectModel.loaded p in
         let project :=
           if js_truthy (project_emoji body)
           then ProjectModel.set_emoji (js_string (project_emoji body)) project
           else project in
         let project :=
           if js_truthy (project_name body)
           then ProjectModel.set_name (js_string (project_name body)) project
           else project in
         if js_truthy (project_description body)
         then ProjectModel.set_description
                (js_string (project_description body)) project
         else project).
  assert (Hfields : ProjectModel.fields doc = updated_project body p).
  { subst doc. unfold updated_project.
    destruct (js_truthy (project_emoji body)),
             (js_truthy (project_name body)),
             (js_truthy (project_description body)), p; reflexivity. }
  assert (Hpaths :
            mem_path "name" (ProjectModel.modifiedPaths doc)
            = js_truthy (project_name body)
            /\ mem_path "emoji" (ProjectModel.modifiedPaths doc)
               = js_truthy (project_emoji body)
            /\ mem_path "description" (ProjectModel.modifiedPaths doc)
               = js_truthy (project_description body)
            /\ mem_path "workspace" (ProjectModel.modifiedPaths doc) = false
            /\ mem_path "createdBy" (ProjectModel.modifiedPaths doc) = false).
  { subst doc.
    destruct (js_truthy (project_emoji body)),
             (js_truthy (project_name body)),
             (js_truthy (project_description body)); repeat split. }
  destruct Hpaths as (Hname & Hemoji & Hdescription & Hworkspace & HcreatedBy).
  assert (Hid : Project._id (ProjectModel.fields doc) = projectId).
  { rewrite Hfields. cbn [updated_project Project._id].
    apply find_Some_holds in Hp. unfold ProjectModel.has_id_and_workspace in Hp.
    apply andb_prop in Hp as [Hp _]. apply Nat.eqb_eq in Hp. exact Hp. }
  destruct (update_first_Some
              (ProjectModel.has_id projectId)
              (ProjectModel.assign_paths (ProjectModel.modifiedPaths doc)
                                         (ProjectModel.fields doc))
              (projects (db w))) as [ps Hps].
  { apply (find_Some_existsb _ _ _ _ (fun y Hy => proj1 (andb_prop _ _ Hy)) Hp). }
  eexists. split.
  - unfold updateProjectService, ProjectModel.findOne, ProjectModel.save,
      bind, get_db, put_db, ret, throw.
    rewrite Hp. cbn [option_map db]. fold doc.
    rewrite Hid, Hps. cbn [db]. rewrite Hfields. reflexivity.
  - cbn [db set_projects projects users accounts workspaces roles members tasks].
    split; [destruct (db w); reflexivity|].
    assert (Hkept : forall {B} (g : Project.t -> B),
               (forall x,
                   g (ProjectModel.assign_paths (ProjectModel.modifiedPaths doc)
                                                (ProjectModel.fields doc) x)
                   = g x) ->
               map g ps = map g (projects (db w))).
    { intros B g Hg. exact (update_first_map g _ _ _ _ Hg Hps). }
    split; [apply Hkept; reflexivity|].
    split.
    { apply Hkept. intros x.
      cbn [ProjectModel.assign_paths Project.workspace].
      rewrite Hworkspace. reflexivity. }
    split.
    { apply Hkept. intros x.
      cbn [ProjectModel.assign_paths Project.createdBy].
      rewrite HcreatedBy. reflexivity. }
    split; [|split]; intros Hfalsy; apply Hkept; intros x.
    + cbn [ProjectModel.assign_paths Project.name].
      rewrite Hname, Hfalsy. reflexivity.
    + cbn [ProjectModel.assign_paths Project.emoji].
      rewrite Hemoji, Hfalsy. reflexivity.
    + cbn [ProjectModel.assign_paths Project.description].
      rewrite Hdescription, Hfalsy. reflexivity.
Qed.

Lemma update_project_frame_witness :
  exists w',
    updateProjectService 5 7 (mkProjectBody (JsString "Shop") null (JsString EmptyString))
                         sampleProjectWorld
    = (Ok (ProjectModel.loaded (Project.mk 7 "Shop" None None 5 1)), w')
    /\ projects (db w') = [Project.mk 7 "Shop" None None 5 1].
Proof.
  destruct (update_project_frame 5 7
              (mkProjectBody (JsString "Shop") null (JsString EmptyString))
              sampleProjectWorld (Project.mk 7 "Site" None None 5 1))
    as (w' & Hrun & _); [reflexivity|].
  exists w'. split; [exact Hrun|].
  vm_compute in Hrun. injection Hrun as <-. reflexivity.
Defined.

(** * Further properties of the services *)

(** * Further properties *)

(** ** Lists, continued *)

Lemma find_app_l {A} (p : A -> bool) (l l' : list A) (x : A) :
  find p l = Some x -> find p (l ++ l') = Some x.
Proof.
  induction l as [|y l IH]; simpl; [discriminate|].
  destruct (p y); [trivial|exact IH].
Qed.

Lemma update_first_find {A} (p q : A -> bool) (f : A -> A) (l l' : list A) (x : A) :
  (forall y, q y = true -> p y = true) ->
  find p l = Some x ->
  update_first p f l = Some l' ->
  find q l' = (if q (f x) then Some (f x) else find q (remove_first p l)).
Proof.
  intros Hqp. revert l'. induction l as [|y l IH]; simpl; intros l' Hfind Hup.
  - discriminate.
  - destruct (p y) eqn:Hy.
    + injection Hfind as <-. injection Hup as <-. simpl.
      destruct (q (f y)); reflexivity.
    + destruct (update_first p f l) as [l''|]; [|discriminate].
      injection Hup as <-. simpl.
      destruct (q y) eqn:Hq; [rewrite (Hqp y Hq) in Hy; discriminate|].
      rewrite (IH l'' Hfind eq_refl). reflexivity.
Qed.


Lemma remove_first_length {A} (p : A -> bool) (l : list A) (x : A) :
  find p l = Some x -> S (length (remove_first p l)) = length l.
Proof.
  induction l as [|y l IH]; simpl; [discriminate|].
  destruct (p y); [reflexivity|]. intros H. simpl. rewrite (IH H). reflexivity.
Qed.

Lemma remove_first_none {A} (p : A -> bool) (l : list A) :
  existsb p l = false -> remove_first p l = l.
Proof.
  induction l as [|y l IH]; simpl; [reflexivity|].
  destruct (p y); [discriminate|]. simpl. intros H. rewrite (IH H). reflexivity.
Qed.



Lemma NoDup_map_remove_first {A} (f : A -> nat) (a : nat) (l : list A) (x : A) :
  List.NoDup (map f l) ->
  find (fun y => Nat.eqb (f y) a) l = Some x ->
  existsb (fun y => Nat.eqb (f y) a) (remove_first (fun y => Nat.eqb (f y) a) l)
  = false.
Proof.
  induction l as [|y l IH]; simpl; [discriminate|].
  intros Hnd Hfind. apply List.NoDup_cons_iff in Hnd as [Hnotin Hnd].
  destruct (Nat.eqb_spec (f y) a) as [Hy|Hy].
  - destruct (existsb _ l) eqn:Hex; [|reflexivity].
    apply existsb_exists in Hex as (z & Hz & Hfz).
    apply Nat.eqb_eq in Hfz. exfalso. apply Hnotin.
    rewrite Hy, <- Hfz. apply in_map. exact Hz.
  - simpl. destruct (Nat.eqb_spec (f y) a) as [|_]; [contradiction|].
    simpl. exact (IH Hnd Hfind).
Qed.

Lemma existsb_weaken {A} (p q : A -> bool) (l : list A) :
  (forall y, q y = true -> p y = true) ->
  existsb p l = false -> existsb q l = false.
Proof.
  intros Hqp. induction l as [|y l IH]; simpl; [reflexivity|].
  intros H. apply orb_false_elim in H as [Hy Hl].
  rewrite (IH Hl), orb_false_r.
  destruct (q y) eqn:Hq; [rewrite (Hqp y Hq) in Hy; discriminate|reflexivity].
Qed.

(** ** Runs of the read-only services *)

Lemma getProjectByIdAndWorkspaceIdService_run workspaceId projectId w :
  getProjectByIdAndWorkspaceIdService workspaceId projectId w =
  match find (ProjectModel.has_id_and_workspace projectId workspaceId)
             (projects (db w)) with
  | Some p => (Ok (ProjectQueries.select p), w)
  | None =>
      (Throw (NotFoundException
                "Project not found or does not belong to the specified workspace"),
       w)
  end.
Proof.
  unfold getProjectByIdAndWorkspaceIdService, ProjectQueries.findOne_select,
    bind, get_db, ret, throw.
  destruct (find _ (projects (db w))); reflexivity.
Qed.

Lemma getProjectAnalyticsService_run workspaceId projectId w :
  getProjectAnalyticsService workspaceId projectId w =
  match find (ProjectModel.has_id projectId) (projects (db w)) with
  | Some p =>
      if Nat.eqb (Project.workspace p) workspaceId
      then
        let of_project :=
          List.filter (TaskModel.in_project projectId) (tasks (db w)) in
        (Ok (mkAnalytics
               (length of_project)
               (length (List.filter (TaskModel.overdue (clock w)) of_project))
               (length (List.filter TaskModel.completed of_project))),
         w)
      else
        (Throw (NotFoundException
                  "Project not found or does not belong to this workspace"), w)
  | None =>
      (Throw (NotFoundException
                "Project not found or does not belong to this workspace"), w)
  end.
Proof.
  unfold getProjectAnalyticsService, ProjectModel.findById,
    TaskModel.aggregate, bind, get_db, new_Date, ret, throw.
  destruct (find _ (projects (db w))) as [p|]; [|reflexivity].
  cbn [option_map ProjectModel.loaded ProjectModel.fields].
  destruct (Nat.eqb (Project.workspace p) workspaceId); [|reflexivity].
  cbn [negb TaskModel.facet_totalTasks TaskModel.facet_overdueTasks
       TaskModel.facet_completedTasks].
  rewrite !first_count_or_0_count_stage. reflexivity.
Qed.

(** ** Creating a project *)

Lemma createProjectService_run defaultEmoji userId workspaceId body w :
  let p :=
    Project.mk (next_oid w) (create_name body)
               (js_optional (create_description body))
               (if js_truthy (create_emoji body)
                then Some (js_string (create_emoji body)) else defaultEmoji)
               workspaceId userId in
  createProjectService defaultEmoji userId workspaceId body w
  = (Ok p,
     mkWorld (set_projects (projects (db w) ++ [p]) (db w))
             (sessions w) (next_session w) (session_log w)
             (S (next_oid w)) (rng w) (clock w)).
Proof.
  unfold createProjectService, ProjectQueries.new, ProjectQueries.insert,
    bind, new_ObjectId, get_db, put_db, ret.
  cbn [db sessions next_session session_log next_oid rng clock].
  destruct (js_truthy (create_emoji body)); reflexivity.
Qed.

(** X1.  A project that [createProjectService] creates, when no stored
    project has the new ObjectId, is what
    [getProjectByIdAndWorkspaceIdService] returns for its identifier and
    workspace, and is not found through any other workspace; every
    stored project and every other collection is kept. *)
Theorem created_project_is_found defaultEmoji userId workspaceId body w :
  existsb (ProjectModel.has_id (next_oid w)) (projects (db w)) = false ->
  exists p w1,
    createProjectService defaultEmoji userId workspaceId body w = (Ok p, w1)
    /\ db w1 = set_projects (projects (db w) ++ [p]) (db w)
    /\ Project.workspace p = workspaceId
    /\ Project.createdBy p = userId
    /\ getProjectByIdAndWorkspaceIdService workspaceId (Project._id p) w1
       = (Ok (ProjectQueries.select p), w1)
    /\ forall other,
        other <> workspaceId ->
        getProjectByIdAndWorkspaceIdService other (Project._id p) w1
        = (Throw (NotFoundException
                    "Project not found or does not belong to the specified workspace"),
           w1).
Proof.
  intros Hfresh. eexists _, _. split; [apply createProjectService_run|].
  cbn [db Project.workspace Project.createdBy Project._id].
  assert (Hnone : forall ws,
             find (ProjectModel.has_id_and_workspace (next_oid w) ws)
                  (projects (db w)) = None).
  { intros ws. apply existsb_false_find.
    apply (existsb_weaken (ProjectModel.has_id (next_oid w))); [|exact Hfresh].
    intros y Hy. apply andb_prop in Hy as [Hy _]. exact Hy. }
  repeat split.
  - rewrite getProjectByIdAndWorkspaceIdService_run.
    cbn [db set_projects projects].
    rewrite (find_app_None _ _ _ (Hnone workspaceId)).
    unfold ProjectModel.has_id_and_workspace.
    cbn [Project._id Project.workspace]. rewrite !Nat.eqb_refl. reflexivity.
  - intros other Hother.
    rewrite getProjectByIdAndWorkspaceIdService_run.
    cbn [db set_projects projects].
    rewrite (find_app_None _ _ _ (Hnone other)).
    unfold ProjectModel.has_id_and_workspace.
    cbn [Project._id Project.workspace]. rewrite Nat.eqb_refl.
    destruct (Nat.eqb_spec workspaceId other) as [E|_]; [congruence|].
    reflexivity.
Qed.

Lemma created_project_is_found_witness :
  exists p w1,
    createProjectService (Some "chart") 1 5
      (mkCreateProjectBody undefined "Docs" (JsString "Manuals"))
      sampleProjectWorld = (Ok p, w1)
    /\ getProjectByIdAndWorkspaceIdService 5 20 w1
       = (Ok (ProjectQueries.mkSelection 20 (Some "chart") "Docs"
                                         (Some "Manuals")), w1).
Proof.
  destruct (created_project_is_found (Some "chart") 1 5
              (mkCreateProjectBody undefined "Docs" (JsString "Manuals"))
              sampleProjectWorld)
    as (p & w1 & Hrun & _ & _ & _ & Hget & _); [reflexivity|].
  exists p, w1. split; [exact Hrun|].
  vm_compute in Hrun. injection Hrun as <- <-. exact Hget.
Defined.

(** X2.  The analytics of a project just created are all zero, when no
    stored task refers to the new ObjectId. *)
Theorem created_project_has_no_tasks defaultEmoji userId workspaceId body w :
  existsb (ProjectModel.has_id (next_oid w)) (projects (db w)) = false ->
  existsb (TaskModel.in_project (next_oid w)) (tasks (db w)) = false ->
  let w1 := snd (createProjectService defaultEmoji userId workspaceId body w) in
  getProjectAnalyticsService workspaceId (next_oid w) w1
  = (Ok (mkAnalytics 0 0 0), w1).
Proof.
  intros Hfresh Htasks w1. subst w1.
  rewrite createProjectService_run. cbn [snd].
  rewrite getProjectAnalyticsService_run.
  cbn [db set_projects projects tasks clock].
  rewrite (find_app_None _ _ _ (existsb_false_find _ _ Hfresh)).
  unfold ProjectModel.has_id at 1. cbn [Project._id Project.workspace].
  rewrite !Nat.eqb_refl. cbn zeta.
  rewrite (filter_none _ _ Htasks). reflexivity.
Qed.

Lemma created_project_has_no_tasks_witness :
  getProjectAnalyticsService 5 20
    (snd (createProjectService None 1 5
            (mkCreateProjectBody (JsString "D") "Docs" null)
            sampleProjectWorld))
  = (Ok (mkAnalytics 0 0 0),
     snd (createProjectService None 1 5
            (mkCreateProjectBody (JsString "D") "Docs" null)
            sampleProjectWorld)).
Proof.
  apply (created_project_has_no_tasks None 1 5
           (mkCreateProjectBody (JsString "D") "Docs" null) sampleProjectWorld);
    reflexivity.
Defined.

(** ** Updating and deleting a project *)

Lemma find_id_and_workspace (projectId workspaceId : ObjectId)
      (l : list Project.t) (p : Project.t) :
  find (ProjectModel.has_id projectId) l = Some p ->
  Project.workspace p = workspaceId ->
  find (ProjectModel.has_id_and_workspace projectId workspaceId) l = Some p.
Proof.
  intros Hfind Hws. induction l as [|y l IH]; simpl in *; [discriminate|].
  unfold ProjectModel.has_id_and_workspace at 1.
  unfold ProjectModel.has_id in Hfind at 1.
  destruct (Nat.eqb (Project._id y) projectId).
  - injection Hfind as ->. rewrite Hws, Nat.eqb_refl. reflexivity.
  - simpl. exact (IH Hfind).
Qed.

Lemma updateProjectService_run workspaceId projectId body w p :
  find (ProjectModel.has_id_and_workspace projectId workspaceId)
       (projects (db w)) = Some p ->
  exists paths ps,
    update_first (ProjectModel.has_id projectId)
                 (ProjectModel.assign_paths paths (updated_project body p))
                 (projects (db w)) = Some ps
    /\ ProjectModel.assign_paths paths (updated_project body p) p
       = updated_project body p
    /\ updateProjectService workspaceId projectId body w
       = (Ok (ProjectModel.loaded (updated_project body p)),
          mkWorld (set_projects ps (db w)) (sessions w) (next_session w)
                  (session_log w) (next_oid w) (rng w) (clock w)).
Proof.
  intros Hp.
  set (doc :=
         let project := ProjectModel.loaded p in
         let project :=
           if js_truthy (project_emoji body)
           then ProjectModel.set_emoji (js_string (project_emoji body)) project
           else project in
         let project :=
           if js_truthy (project_name body)
           then ProjectModel.set_name (js_string (project_name body)) project
           else project in
         if js_truthy (project_description body)
         then ProjectModel.set_description
                (js_string (project_description body)) project
         else project).
  assert (Hfields : ProjectModel.fields doc = updated_project body p).
  { subst doc. unfold updated_project.
    destruct (js_truthy (project_emoji body)),
             (js_truthy (project_name body)),
             (js_truthy (project_description body)), p; reflexivity. }
  assert (Hsame : ProjectModel.assign_paths (ProjectModel.modifiedPaths doc)
                                            (updated_project body p) p
                  = updated_project body p).
  { subst doc. unfold updated_project.
    destruct (js_truthy (project_emoji body)),
             (js_truthy (project_name body)),
             (js_truthy (project_description body)), p; reflexivity. }
  assert (Hid : Project._id (ProjectModel.fields doc) = projectId).
  { rewrite Hfields. cbn [updated_project Project._id].
    apply find_Some_holds in Hp. apply andb_prop in Hp as [Hp _].
    apply Nat.eqb_eq in Hp. exact Hp. }
  destruct (update_first_Some
              (ProjectModel.has_id projectId)
              (ProjectModel.assign_paths (ProjectModel.modifiedPaths doc)
                                         (updated_project body p))
              (projects (db w))) as [ps Hps].
  { apply (find_Some_existsb _ _ _ _ (fun y Hy => proj1 (andb_prop _ _ Hy)) Hp). }
  exists (ProjectModel.modifiedPaths doc), ps.
  split; [exact Hps|]. split; [exact Hsame|].
  unfold updateProjectService, ProjectModel.findOne, ProjectModel.save,
    bind, get_db, put_db, ret, throw.
  rewrite Hp. cbn [option_map db]. fold doc.
  rewrite Hid, Hfields, Hps. reflexivity.
Qed.

(** X3.  After [updateProjectService] on the project that carries the
    identifier, [getProjectByIdAndWorkspaceIdService] returns the
    project with the values of the update: each of [emoji], [name] and
    [description] is the truthy value of the body, or the old one. *)
Theorem updated_project_is_found workspaceId projectId body w p :
  find (ProjectModel.has_id projectId) (projects (db w)) = Some p ->
  Project.workspace p = workspaceId ->
  let w1 := snd (updateProjectService workspaceId projectId body w) in
  getProjectByIdAndWorkspaceIdService workspaceId projectId w1
  = (Ok (ProjectQueries.select (updated_project body p)), w1).
Proof.
  intros Hfirst Hws w1. subst w1.
  pose proof (find_id_and_workspace _ _ _ _ Hfirst Hws) as Hp.
  destruct (updateProjectService_run workspaceId projectId body w p Hp)
    as (paths & ps & Hps & Hsame & ->).
  cbn [snd]. rewrite getProjectByIdAndWorkspaceIdService_run.
  cbn [db set_projects projects].
  rewrite (update_first_find
             (ProjectModel.has_id projectId)
             (ProjectModel.has_id_and_workspace projectId workspaceId)
             _ _ _ p
             (fun y Hy => proj1 (andb_prop _ _ Hy)) Hfirst Hps).
  rewrite Hsame.
  replace (ProjectModel.has_id_and_workspace projectId workspaceId
                                             (updated_project body p))
    with true; [reflexivity|].
  symmetry. apply find_Some_holds in Hp.
  exact Hp.
Qed.

Lemma updated_project_is_found_witness :
  let w1 := snd (updateProjectService 5 7
                   (mkProjectBody (JsString "Shop") (JsString "S") undefined)
                   sampleProjectWorld) in
  getProjectByIdAndWorkspaceIdService 5 7 w1
  = (Ok (ProjectQueries.mkSelection 7 (Some "S") "Shop" None), w1).
Proof.
  apply (updated_project_is_found 5 7
           (mkProjectBody (JsString "Shop") (JsString "S") undefined)
           sampleProjectWorld (Project.mk 7 "Site" None None 5 1));
    reflexivity.
Defined.

Lemma deleteProjectService_run workspaceId projectId w :
  deleteProjectService workspaceId projectId w =
  match find (ProjectModel.has_id_and_workspace projectId workspaceId)
             (projects (db w)) with
  | Some p =>
      (Ok p,
       mkWorld
         (set_tasks
            (List.filter
               (fun t => negb (TaskModel.in_project (Project._id p) t))
               (tasks (db w)))
            (set_projects
               (remove_first (ProjectModel.has_id (Project._id p))
                             (projects (db w)))
               (db w)))
         (sessions w) (next_session w) (session_log w) (next_oid w) (rng w)
         (clock w))
  | None =>
      (Throw (NotFoundException
                "Project not found or does not belong to the specified workspace"),
       w)
  end.
Proof.
  unfold deleteProjectService, ProjectModel.findOne, ProjectQueries.deleteOne,
    TaskQueries.deleteMany_project, bind, get_db, put_db, ret, throw.
  destruct (find _ (projects (db w))); reflexivity.
Qed.

Lemma find_weaken_Some {A} (p q : A -> bool) (l : list A) (x : A) :
  (forall y, q y = true -> p y = true) ->
  find q l = Some x -> exists y, find p l = Some y.
Proof.
  intros Hqp. induction l as [|z l IH]; simpl; [discriminate|].
  destruct (p z) eqn:Hz; [eauto|].
  destruct (q z) eqn:Hq; [rewrite (Hqp z Hq) in Hz; discriminate|exact IH].
Qed.

Lemma filter_negb_none {A} (p : A -> bool) (l : list A) :
  existsb p (List.filter (fun x => negb (p x)) l) = false.
Proof.
  induction l as [|x l IH]; simpl; [reflexivity|].
  destruct (p x) eqn:Hx; simpl; [exact IH|]. rewrite Hx. exact IH.
Qed.

(** X4.  [deleteProjectService] on a project of the workspace removes
    that one project and every task of it: afterwards no task refers to
    the project, the tasks of the other projects are all kept, in their
    order, and the other collections are untouched.  On a project that
    the workspace does not have it throws [NotFoundException] and
    changes nothing. *)
Theorem deleted_project_takes_its_tasks workspaceId projectId w :
  match find (ProjectModel.has_id_and_workspace projectId workspaceId)
             (projects (db w)) with
  | Some p =>
      exists w1,
        deleteProjectService workspaceId projectId w = (Ok p, w1)
        /\ S (length (projects (db w1))) = length (projects (db w))
        /\ existsb (TaskModel.in_project projectId) (tasks (db w1)) = false
        /\ tasks (db w1)
           = List.filter (fun t => negb (Nat.eqb (Task.project t) projectId))
                         (tasks (db w))
        /\ set_tasks (tasks (db w)) (set_projects (projects (db w)) (db w1))
           = db w
  | None =>
      deleteProjectService workspaceId projectId w
      = (Throw (NotFoundException
                  "Project not found or does not belong to the specified workspace"),
         w)
  end.
Proof.
  rewrite deleteProjectService_run.
  destruct (find _ (projects (db w))) as [p|] eqn:Hp; [|reflexivity].
  assert (Hid : Project._id p = projectId).
  { apply find_Some_holds in Hp. apply andb_prop in Hp as [Hp _].
    apply Nat.eqb_eq in Hp. exact Hp. }
  rewrite Hid. eexists. split; [reflexivity|].
  cbn [db set_tasks set_projects projects tasks users accounts workspaces
       roles members].
  repeat split.
  - destruct (find_weaken_Some
                (ProjectModel.has_id projectId)
                (ProjectModel.has_id_and_workspace projectId workspaceId)
                _ _ (fun y Hy => proj1 (andb_prop _ _ Hy)) Hp) as [y Hy].
    exact (remove_first_length _ _ y Hy).
  - apply (filter_negb_none (TaskModel.in_project projectId)).
  - destruct (db w); reflexivity.
Qed.

(** X5.  Where the identifiers of the stored projects are pairwise
    distinct, a project that [deleteProjectService] has deleted is found
    by no workspace afterwards: fetching it, its analytics and a second
    deletion all throw [NotFoundException]. *)
Theorem deleted_project_is_gone workspaceId projectId w p :
  List.NoDup (map Project._id (projects (db w))) ->
  find (ProjectModel.has_id_and_workspace projectId workspaceId)
       (projects (db w)) = Some p ->
  let w1 := snd (deleteProjectService workspaceId projectId w) in
  forall other,
    getProjectByIdAndWorkspaceIdService other projectId w1
    = (Throw (NotFoundException
                "Project not found or does not belong to the specified workspace"),
       w1)
    /\ getProjectAnalyticsService other projectId w1
       = (Throw (NotFoundException
                   "Project not found or does not belong to this workspace"), w1)
    /\ deleteProjectService other projectId w1
       = (Throw (NotFoundException
                   "Project not found or does not belong to the specified workspace"),
          w1).
Proof.
  intros Hnodup Hp w1 other. subst w1.
  assert (Hid : Project._id p = projectId).
  { apply find_Some_holds in Hp. apply andb_prop in Hp as [Hp _].
    apply Nat.eqb_eq in Hp. exact Hp. }
  destruct (find_weaken_Some
              (ProjectModel.has_id projectId)
              (ProjectModel.has_id_and_workspace projectId workspaceId)
              _ _ (fun y Hy => proj1 (andb_prop _ _ Hy)) Hp) as [y Hy].
  assert (Hgone : existsb (ProjectModel.has_id projectId)
                           (remove_first (ProjectModel.has_id projectId)
                                         (projects (db w))) = false)
    by exact (NoDup_map_remove_first Project._id projectId _ _ Hnodup Hy).
  rewrite deleteProjectService_run, Hp, Hid. cbn [snd].
  assert (Hnone : forall ws,
             find (ProjectModel.has_id_and_workspace projectId ws)
                  (remove_first (ProjectModel.has_id projectId)
                                (projects (db w))) = None).
  { intros ws. apply existsb_false_find.
    apply (existsb_weaken (ProjectModel.has_id projectId)); [|exact Hgone].
    intros z Hz. apply andb_prop in Hz as [Hz _]. exact Hz. }
  repeat split.
  - rewrite getProjectByIdAndWorkspaceIdService_run.
    cbn [db set_tasks set_projects projects]. rewrite Hnone. reflexivity.
  - rewrite getProjectAnalyticsService_run.
    cbn [db set_tasks set_projects projects].
    rewrite (existsb_false_find _ _ Hgone). reflexivity.
  - rewrite deleteProjectService_run.
    cbn [db set_tasks set_projects projects]. rewrite Hnone. reflexivity.
Qed.

Lemma deleted_project_is_gone_witness :
  let w1 := snd (deleteProjectService 5 7 sampleProjectWorld) in
  tasks (db w1) = [Task.mk 14 "other" 5 8 DONE LOW None None 1]
  /\ getProjectAnalyticsService 5 7 w1
     = (Throw (NotFoundException
                 "Project not found or does not belong to this workspace"), w1).
Proof.
  intros w1. split; [reflexivity|].
  apply (deleted_project_is_gone 5 7 sampleProjectWorld
           (Project.mk 7 "Site" None None 5 1)).
  - repeat constructor. simpl. tauto.
  - reflexivity.
Defined.

(** ** Listing the projects of a workspace *)

Lemma concat_chunks {A} (s n : nat) (l : list A) :
  length l <= n * s ->
  concat (map (fun k => firstn s (skipn (k * s) l)) (seq 0 n)) = l.
Proof.
  revert l. induction n as [|n IH]; intros l Hlen.
  - simpl in *. destruct l; [reflexivity|simpl in Hlen; lia].
  - cbn [seq map concat]. rewrite <- seq_shift, map_map.
    rewrite (map_ext _ (fun k => firstn s (skipn (k * s) (skipn s l)))).
    + rewrite IH.
      * simpl. apply firstn_skipn.
      * rewrite length_skipn. simpl in Hlen. lia.
    + intros k. rewrite skipn_skipn.
      replace (S k * s) with (k * s + s) by lia. reflexivity.
Qed.

Lemma page_count_covers (count pageSize : nat) :
  0 < pageSize -> count <= page_count count pageSize * pageSize.
Proof.
  intros Hpos. unfold page_count.
  pose proof (Nat.div_mod_eq (count + pageSize - 1) pageSize) as Hdiv.
  pose proof (Nat.mod_upper_bound (count + pageSize - 1) pageSize) as Hmod.
  nia.
Qed.

Lemma getProjectsInWorkspaceService_run sortByCreatedAt workspaceId
      pageSize pageNumber w :
  let matches :=
    List.filter (ProjectQueries.in_workspace workspaceId) (projects (db w)) in
  let skip := ((Z.of_nat pageNumber - 1) * Z.of_nat pageSize)%Z in
  getProjectsInWorkspaceService sortByCreatedAt workspaceId pageSize
                                pageNumber w
  = if (skip <? 0)%Z then (Raised MongoServerError, w)
    else
      (Returned
         (ProjectsPage.mk
            (map (ProjectQueries.populate_createdBy (db w))
                 (page (Z.to_nat skip) pageSize (sortByCreatedAt matches)))
            (length matches)
            (ceil_div (length matches) pageSize)
            skip),
       w).
Proof.
  unfold getProjectsInWorkspaceService, ProjectQueries.countDocuments,
    ProjectQueries.find_page, io_bind, io_ret, io_raise, lift, bind, get_db,
    ret.
  cbn [fst snd].
  destruct (_ <? 0)%Z; reflexivity.
Qed.

Lemma projects_on_page_S sortByCreatedAt workspaceId pageSize k w :
  projects_on_page sortByCreatedAt workspaceId (S pageSize) (S k) w
  = map (ProjectQueries.populate_createdBy (db w))
        (firstn (S pageSize)
                (skipn (k * S pageSize)
                       (sortByCreatedAt
                          (List.filter (ProjectQueries.in_workspace workspaceId)
                                       (projects (db w)))))).
Proof.
  unfold projects_on_page. rewrite getProjectsInWorkspaceService_run.
  cbn zeta.
  replace ((Z.of_nat (S k) - 1) * Z.of_nat (S pageSize))%Z
    with (Z.of_nat (k * S pageSize)) by lia.
  destruct (Z.ltb_spec (Z.of_nat (k * S pageSize)) 0) as [Hneg|_]; [lia|].
  cbn [fst ProjectsPage.projects]. rewrite Nat2Z.id. reflexivity.
Qed.

(** X6.  With a positive page size, the pages 1, 2, ... up to the number
    of pages that [getProjectsInWorkspaceService] reports hold at most
    [pageSize] projects each and, together, every project of the
    workspace exactly once; every later page is empty.  The order of the
    sort is any rearrangement of the matches. *)
Theorem project_pages_partition sortByCreatedAt workspaceId pageSize w :
  0 < pageSize ->
  (forall l, Permutation (sortByCreatedAt l) l) ->
  let matches :=
    List.filter (ProjectQueries.in_workspace workspaceId) (projects (db w)) in
  let last := page_count (length matches) pageSize in
  let on_page k :=
    projects_on_page sortByCreatedAt workspaceId pageSize k w in
  (forall k,
      1 <= k ->
      exists r,
        getProjectsInWorkspaceService sortByCreatedAt workspaceId pageSize k w
        = (Returned r, w)
        /\ ProjectsPage.totalCount r = length matches
        /\ ProjectsPage.totalPages r = Finite last
        /\ length (ProjectsPage.projects r) <= pageSize)
  /\ Permutation
       (map ProjectQueries.listed_project (concat (map on_page (seq 1 last))))
       matches
  /\ (forall k, last < k -> on_page k = []).
Proof.
  intros Hpos Hperm matches last on_page.
  destruct pageSize as [|s]; [lia|].
  assert (Hlen : length (sortByCreatedAt matches) = length matches)
    by (apply Permutation_length, Hperm).
  split; [|split].
  - intros k Hk. destruct k as [|k]; [lia|].
    rewrite getProjectsInWorkspaceService_run. cbn zeta.
    replace ((Z.of_nat (S k) - 1) * Z.of_nat (S s))%Z
      with (Z.of_nat (k * S s)) by lia.
    destruct (Z.ltb_spec (Z.of_nat (k * S s)) 0) as [Hneg|_]; [lia|].
    eexists. split; [reflexivity|].
    cbn [ProjectsPage.totalCount ProjectsPage.totalPages ProjectsPage.projects
         ceil_div page].
    repeat split.
    rewrite length_map, length_firstn. lia.
  - subst on_page. rewrite <- seq_shift, map_map.
    rewrite (map_ext _ (fun k =>
                          map (ProjectQueries.populate_createdBy (db w))
                              (firstn (S s)
                                      (skipn (k * S s)
                                             (sortByCreatedAt matches)))))
      by (intros k; apply projects_on_page_S).
    rewrite <- (map_map (fun k => firstn (S s) (skipn (k * S s)
                                                     (sortByCreatedAt matches)))
                        (map (ProjectQueries.populate_createdBy (db w)))).
    rewrite <- concat_map, concat_chunks.
    + rewrite map_map. cbn [ProjectQueries.populate_createdBy
                              ProjectQueries.listed_project].
      rewrite map_id. apply Hperm.
    + rewrite Hlen. apply page_count_covers. lia.
  - intros k Hk. subst on_page. destruct k as [|k]; [lia|].
    cbn beta. rewrite projects_on_page_S.
    rewrite skipn_all2; [reflexivity|].
    fold matches. rewrite Hlen.
    pose proof (page_count_covers (length matches) (S s) ltac:(lia)) as Hcov.
    fold last in Hcov. nia.
Qed.

Lemma project_pages_partition_witness :
  let d := mkDatabase [] [] [] [] []
                      [Project.mk 1 "a" None None 5 9;
                       Project.mk 2 "b" None None 6 9;
                       Project.mk 3 "c" None None 5 9;
                       Project.mk 4 "d" None None 5 9] [] in
  map (fun k => map (fun x => Project._id (ProjectQueries.listed_project x))
                    (projects_on_page (@rev Project.t) 5 2 k (world_of d 10)))
      [1; 2; 3]
  = [[4; 3]; [1]; []].
Proof.
  intros d.
  destruct (project_pages_partition (@rev Project.t) 5 2 (world_of d 10))
    as (_ & _ & Hlater).
  - lia.
  - intros l. apply Permutation_sym, Permutation_rev.
  - cbn [map]. rewrite (Hlater 3) by (vm_compute; lia). reflexivity.
Defined.

(** X7.  [getProjectsInWorkspaceService] with page number 0 and a
    positive page size asks for a negative skip, which the server
    rejects; with page size 0 every page from 1 on holds all the projects
    of the workspace, and the number of pages reported is not a finite
    number. *)
Theorem project_listing_edges sortByCreatedAt workspaceId w :
  let matches :=
    List.filter (ProjectQueries.in_workspace workspaceId) (projects (db w)) in
  (forall pageSize,
      getProjectsInWorkspaceService sortByCreatedAt workspaceId (S pageSize) 0 w
      = (Raised MongoServerError, w))
  /\ (forall k,
      exists r,
        getProjectsInWorkspaceService sortByCreatedAt workspaceId 0 (S k) w
        = (Returned r, w)
        /\ map ProjectQueries.listed_project (ProjectsPage.projects r)
           = sortByCreatedAt matches
        /\ ProjectsPage.totalPages r
           = match matches with [] => NaN | _ :: _ => Infinity end).
Proof.
  intros matches. split.
  - intros pageSize. rewrite getProjectsInWorkspaceService_run. cbn zeta.
    destruct (Z.ltb_spec ((Z.of_nat 0 - 1) * Z.of_nat (S pageSize)) 0)
      as [_|Hge]; [reflexivity|lia].
  - intros k. rewrite getProjectsInWorkspaceService_run. cbn zeta.
    replace ((Z.of_nat (S k) - 1) * Z.of_nat 0)%Z with 0%Z by lia.
    cbn [Z.ltb Z.compare Z.to_nat page skipn].
    eexists. split; [reflexivity|].
    cbn [ProjectsPage.projects ProjectsPage.totalPages ceil_div].
    split.
    + rewrite map_map. cbn [ProjectQueries.populate_createdBy
                              ProjectQueries.listed_project].
      apply map_id.
    + fold matches. destruct matches; reflexivity.
Qed.

(** ** Creating a task *)

Lemma createTaskService_run workspaceId projectId userId body w :
  createTaskService workspaceId projectId userId body w =
  let t := Task.mk (next_oid w) (task_title body) workspaceId projectId
                   (default TODO (task_status body))
                   (default MEDIUM (task_priority body))
                   (task_assignedTo body) (task_dueDate body) userId in
  let created :=
    (Returned t,
     mkWorld (set_tasks (tasks (db w) ++ [t]) (db w)) (sessions w)
             (next_session w) (session_log w) (S (next_oid w)) (rng w)
             (clock w)) in
  let not_found :=
    (Raised (Exception
               (NotFoundException
                  "Project not found or does not belong to this workspace")),
     w) in
  match find (ProjectModel.has_id projectId) (projects (db w)) with
  | None => not_found
  | Some p =>
      if Nat.eqb (Project.workspace p) workspaceId
      then
        match task_assignedTo body with
        | Some assignee =>
            if is_member (db w) assignee workspaceId then created
            else
              (Raised (JsError "Assigned user is not a member of this workspace."),
               w)
        | None => created
        end
      else not_found
  end.
Proof.
  unfold createTaskService, ProjectModel.findById, MemberQueries.exists_,
    TaskQueries.new, TaskQueries.insert, is_member, io_bind, io_ret, io_raise,
    lift, bind, get_db, put_db, new_ObjectId, ret.
  cbn [fst snd db next_oid].
  destruct (find _ (projects (db w))) as [p|]; [|reflexivity].
  cbn [option_map ProjectModel.loaded ProjectModel.fields].
  destruct (Nat.eqb (Project.workspace p) workspaceId); [|reflexivity].
  cbn [negb].
  destruct (task_assignedTo body) as [assignee|]; [|reflexivity].
  destruct (existsb _ (members (db w))); reflexivity.
Qed.

Lemma forallb_app_last {A} (p : A -> bool) (l : list A) (x : A) :
  forallb p (l ++ [x]) = forallb p l && p x.
Proof. rewrite forallb_app. simpl. rewrite andb_true_r. reflexivity. Qed.

(** X8.  [createTaskService] stores a task only in a project of the
    workspace and only with an assignee, if any, who is a member of the
    workspace; the task gets the status TODO and the priority MEDIUM
    when the body has none; nothing else is written, a failed call
    writes nothing, and where every stored task had a member as assignee
    this is still so afterwards. *)
Theorem created_task_is_guarded workspaceId projectId userId body w r w' :
  createTaskService workspaceId projectId userId body w = (r, w') ->
  match r with
  | Returned t =>
      tasks (db w') = tasks (db w) ++ [t]
      /\ set_tasks (tasks (db w)) (db w') = db w
      /\ Task.workspace t = workspaceId
      /\ Task.project t = projectId
      /\ Task.createdBy t = userId
      /\ Task.status t = default TODO (task_status body)
      /\ Task.priority t = default MEDIUM (task_priority body)
      /\ assignee_is_member (db w') t = true
      /\ exists p,
          find (ProjectModel.has_id projectId) (projects (db w)) = Some p
          /\ Project.workspace p = workspaceId
  | Raised _ => w' = w
  end
  /\ (forallb (assignee_is_member (db w)) (tasks (db w)) = true ->
      forallb (assignee_is_member (db w')) (tasks (db w')) = true).
Proof.
  rewrite createTaskService_run. cbn zeta.
  destruct (find _ (projects (db w))) as [p|] eqn:Hp;
    [|intros [= <- <-]; auto].
  destruct (Nat.eqb_spec (Project.workspace p) workspaceId) as [Hws|_];
    [|intros [= <- <-]; auto].
  assert (Hcreated :
            forall t,
              Task.workspace t = workspaceId ->
              assignee_is_member (db w) t = true ->
              forallb (assignee_is_member (db w)) (tasks (db w)) = true ->
              forallb (assignee_is_member (set_tasks (tasks (db w) ++ [t]) (db w)))
                      (tasks (db w) ++ [t]) = true).
  { intros t _ Ht Hall.
    change (forallb (assignee_is_member (db w)) (tasks (db w) ++ [t]) = true).
    rewrite forallb_app_last, Hall, Ht. reflexivity. }
  destruct (task_assignedTo body) as [assignee|] eqn:Hassignee.
  - destruct (is_member (db w) assignee workspaceId) eqn:Hmember;
      [|intros [= <- <-]; auto].
    intros [= <- <-].
    cbn [db set_tasks tasks Task.workspace Task.project Task.createdBy
         Task.status Task.priority].
    assert (Hok : forall d,
               members d = members (db w) ->
               assignee_is_member d
                 (Task.mk (next_oid w) (task_title body) workspaceId projectId
                          (default TODO (task_status body))
                          (default MEDIUM (task_priority body))
                          (Some assignee) (task_dueDate body) userId) = true).
    { intros d Hd. unfold assignee_is_member, is_member.
      cbn [Task.assignedTo Task.workspace]. rewrite Hd. exact Hmember. }
    split.
    + repeat split; try (destruct (db w); reflexivity).
      * apply Hok. reflexivity.
      * eauto.
    + intros Hall. apply Hcreated; [reflexivity| |exact Hall].
      apply Hok. reflexivity.
  - intros [= <- <-].
    cbn [db set_tasks tasks Task.workspace Task.project Task.createdBy
         Task.status Task.priority].
    split.
    + repeat split; try (destruct (db w); reflexivity). eauto.
    + intros Hall. apply Hcreated; [reflexivity|reflexivity|exact Hall].
Qed.

Lemma created_task_is_guarded_witness :
  let body := mkCreateTaskBody "Plan" None None (Some 2) None in
  exists w',
    createTaskService 5 7 1 body sampleTeamWorld
    = (Returned (Task.mk 20 "Plan" 5 7 TODO MEDIUM (Some 2) None 1), w')
    /\ tasks (db w')
       = tasks (db sampleTeamWorld)
           ++ [Task.mk 20 "Plan" 5 7 TODO MEDIUM (Some 2) None 1].
Proof.
  intros body.
  exists (snd (createTaskService 5 7 1 body sampleTeamWorld)).
  split; [reflexivity|].
  destruct (created_task_is_guarded 5 7 1 body sampleTeamWorld
              (Returned (Task.mk 20 "Plan" 5 7 TODO MEDIUM (Some 2) None 1))
              (snd (createTaskService 5 7 1 body sampleTeamWorld)))
    as ((Htasks & _) & _); [reflexivity|exact Htasks].
Defined.

(** ** Fetching a task *)

Lemma getTaskByIdService_run workspaceId projectId taskId w :
  getTaskByIdService workspaceId projectId taskId w =
  match find (ProjectModel.has_id projectId) (projects (db w)) with
  | None =>
      (Throw (NotFoundException
                "Project not found or does not belong to this workspace"), w)
  | Some p =>
      if Nat.eqb (Project.workspace p) workspaceId
      then
        match find (TaskQueries.has_id_workspace_project taskId workspaceId
                                                         projectId)
                   (tasks (db w)) with
        | Some t =>
            (Ok (TaskQueries.mkPopulated
                   t (TaskQueries.populate_assignedTo (db w) t) None), w)
        | None => (Throw (NotFoundException "Task not found."), w)
        end
      else
        (Throw (NotFoundException
                  "Project not found or does not belong to this workspace"), w)
  end.
Proof.
  unfold getTaskByIdService, ProjectModel.findById,
    TaskQueries.findOne_populated, bind, get_db, ret, throw.
  destruct (find _ (projects (db w))) as [p|]; [|reflexivity].
  cbn [option_map ProjectModel.loaded ProjectModel.fields].
  destruct (Nat.eqb (Project.workspace p) workspaceId); [|reflexivity].
  cbn [negb]. destruct (find _ (tasks (db w))); reflexivity.
Qed.

(** X9.  A task that [createTaskService] has returned, when no stored
    task has the new ObjectId, is what [getTaskByIdService] returns for
    its identifier, project and workspace, with its assignee populated
    from the stored user. *)
Theorem created_task_is_found workspaceId projectId userId body w t w1 :
  existsb (TaskQueries.has_id (next_oid w)) (tasks (db w)) = false ->
  createTaskService workspaceId projectId userId body w = (Returned t, w1) ->
  getTaskByIdService workspaceId projectId (Task._id t) w1
  = (Ok (TaskQueries.mkPopulated
           t
           (match Task.assignedTo t with
            | Some a => populate_user (db w) a
            | None => None
            end)
           None),
     w1).
Proof.
  intros Hfresh. rewrite createTaskService_run. cbn zeta.
  destruct (find _ (projects (db w))) as [p|] eqn:Hp; [|discriminate].
  destruct (Nat.eqb (Project.workspace p) workspaceId) eqn:Hws; [|discriminate].
  assert (Hcreated :
            forall t0,
              t0 = Task.mk (next_oid w) (task_title body) workspaceId projectId
                           (default TODO (task_status body))
                           (default MEDIUM (task_priority body))
                           (task_assignedTo body) (task_dueDate body) userId ->
              forall w0,
                w0 = mkWorld (set_tasks (tasks (db w) ++ [t0]) (db w))
                             (sessions w) (next_session w) (session_log w)
                             (S (next_oid w)) (rng w) (clock w) ->
                getTaskByIdService workspaceId projectId (Task._id t0) w0
                = (Ok (TaskQueries.mkPopulated
                         t0
                         (match Task.assignedTo t0 with
                          | Some a => populate_user (db w) a
                          | None => None
                          end)
                         None), w0)).
  { intros t0 Ht0 w0 Hw0. rewrite getTaskByIdService_run, Hw0.
    cbn [db set_tasks projects tasks]. rewrite Hp, Hws.
    rewrite find_app_None.
    - rewrite Ht0. unfold TaskQueries.has_id_workspace_project.
      cbn [Task._id Task.workspace Task.project]. rewrite !Nat.eqb_refl.
      reflexivity.
    - apply existsb_false_find.
      apply (existsb_weaken (TaskQueries.has_id (next_oid w))).
      + intros y Hy. rewrite Ht0 in Hy. cbn [Task._id] in Hy.
        apply andb_prop in Hy as [Hy _]. apply andb_prop in Hy as [Hy _].
        exact Hy.
      + exact Hfresh. }
  destruct (task_assignedTo body) as [assignee|] eqn:Hassignee.
  - destruct (is_member (db w) assignee workspaceId); [|discriminate].
    intros [= <- <-]. apply Hcreated; reflexivity.
  - intros [= <- <-]. apply Hcreated; reflexivity.
Qed.

Lemma created_task_is_found_witness :
  let body := mkCreateTaskBody "Plan" (Some HIGH) None (Some 2) (Some 990) in
  let run := createTaskService 5 7 1 body sampleTeamWorld in
  getTaskByIdService 5 7 20 (snd run)
  = (Ok (TaskQueries.mkPopulated
           (Task.mk 20 "Plan" 5 7 TODO HIGH (Some 2) (Some 990) 1)
           (Some (mkPopulatedUser 2 "Bob" (Some "bob.png")))
           None),
     snd run).
Proof.
  intros body run.
  apply (created_task_is_found 5 7 1 body sampleTeamWorld
           (Task.mk 20 "Plan" 5 7 TODO HIGH (Some 2) (Some 990) 1) (snd run));
    reflexivity.
Defined.

(** ** Updating a task *)







(** ** Deleting a task *)



(** ** Listing tasks *)

Lemma getAllTasksService_run sortByCreatedAt regexIgnoreCase parseDate
      workspaceId filters pagination w :
  getAllTasksService sortByCreatedAt regexIgnoreCase parseDate workspaceId
                     filters pagination w
  = match cast_query regexIgnoreCase parseDate workspaceId filters with
    | Raised t => (Raised t, w)
    | Returned q =>
        let pageSize := request_pageSize pagination in
        let skip := ((Z.of_nat (request_pageNumber pagination) - 1)
                     * Z.of_nat pageSize)%Z in
        let matches := List.filter (TaskQueries.satisfies q) (tasks (db w)) in
        if (skip <? 0)%Z then (Raised MongoServerError, w)
        else
          (Returned
             (mkTasksPage
                (map (fun t =>
                        TaskQueries.mkPopulated
                          t (TaskQueries.populate_assignedTo (db w) t)
                          (populate_project (db w) (Task.project t)))
                     (page (Z.to_nat skip) pageSize (sortByCreatedAt matches)))
                (mkPagination pageSize (request_pageNumber pagination)
                              (length matches)
                              (ceil_div (length matches) pageSize) skip)),
           w)
    end.
Proof.
  unfold getAllTasksService, TaskQueries.find_page,
    TaskQueries.countDocuments, io_bind, io_ret, io_raise, lift, bind,
    get_db, ret.
  destruct (cast_query _ _ _ _) as [q|t]; [|reflexivity].
  cbn zeta. destruct (_ <? 0)%Z; reflexivity.
Qed.

Lemma In_skipn_In {A} (n : nat) (l : list A) (x : A) :
  In x (skipn n l) -> In x l.
Proof.
  intros H. rewrite <- (firstn_skipn n l). apply in_or_app. right. exact H.
Qed.

Lemma In_firstn_In {A} (n : nat) (l : list A) (x : A) :
  In x (firstn n l) -> In x l.
Proof.
  intros H. rewrite <- (firstn_skipn n l). apply in_or_app. left. exact H.
Qed.

Lemma In_page {A} (skip limit : nat) (l : list A) (x : A) :
  In x (page skip limit l) -> In x l.
Proof.
  unfold page. intros H.
  destruct limit as [|limit].
  - exact (In_skipn_In _ _ _ H).
  - apply In_firstn_In in H. exact (In_skipn_In _ _ _ H).
Qed.

Lemma TaskStatusEnum_eqb_eq a b : TaskStatusEnum_eqb a b = true -> a = b.
Proof. destruct a, b; (reflexivity || discriminate). Qed.

Lemma TaskPriorityEnum_eqb_eq a b :
  TaskQueries.TaskPriorityEnum_eqb a b = true -> a = b.
Proof. destruct a, b; (reflexivity || discriminate). Qed.

Lemma non_empty_Some {A} (l : list A) : l <> [] -> non_empty (Some l) = Some l.
Proof. destruct l; [congruence | reflexivity]. Qed.

Lemma cast_query_Returned regexIgnoreCase parseDate workspaceId filters q :
  cast_query regexIgnoreCase parseDate workspaceId filters = Returned q ->
  forall t, TaskQueries.satisfies q t = true ->
            passes_filters regexIgnoreCase parseDate workspaceId filters t.
Proof.
  unfold cast_query. intros Hq t Ht.
  destruct (match truthy_string (filters_dueDate filters) with
            | Some text => _ | None => _ end) as [dueDate|] eqn:Hdue;
    [|discriminate].
  destruct (match truthy_string (filters_keyword filters) with
            | Some keyword => _ | None => _ end) as [title|] eqn:Htitle;
    [|discriminate].
  injection Hq as <-.
  unfold TaskQueries.satisfies in Ht. cbn in Ht.
  repeat (apply andb_prop in Ht; destruct Ht as [Ht ?]).
  apply Nat.eqb_eq in Ht.
  repeat split.
  - exact Ht.
  - intros p Hp. rewrite Hp in *. cbn in *. now apply Nat.eqb_eq.
  - intros l Hl Hne. rewrite Hl, (non_empty_Some l Hne) in *. cbn in *.
    match goal with
    | H : existsb (TaskStatusEnum_eqb _) l = true |- _ =>
        apply existsb_exists in H; destruct H as (s & Hin & Hs);
        apply TaskStatusEnum_eqb_eq in Hs; now subst
    end.
  - intros l Hl Hne. rewrite Hl, (non_empty_Some l Hne) in *. cbn in *.
    match goal with
    | H : existsb (TaskQueries.TaskPriorityEnum_eqb _) l = true |- _ =>
        apply existsb_exists in H; destruct H as (s & Hin & Hs);
        apply TaskPriorityEnum_eqb_eq in Hs; now subst
    end.
  - intros l Hl Hne. rewrite Hl, (non_empty_Some l Hne) in *. cbn in *.
    destruct (Task.assignedTo t) as [u|]; [|discriminate].
    exists u. split; [reflexivity|].
    match goal with
    | H : existsb (Nat.eqb u) l = true |- _ =>
        apply existsb_exists in H; destruct H as (s & Hin & Hs);
        apply Nat.eqb_eq in Hs; now subst
    end.
  - intros keyword Hk Htruthy. rewrite Hk in Htitle. cbn in Htitle.
    rewrite Htruthy in Htitle.
    destruct (regexIgnoreCase keyword) as [matches|]; [|discriminate].
    injection Htitle as <-. exists matches. split; [reflexivity|].
    assumption.
  - intros text Hd Htruthy. rewrite Hd in Hdue. cbn in Hdue.
    rewrite Htruthy in Hdue.
    destruct (parseDate text) as [date|]; [|discriminate].
    injection Hdue as <-. exists date. split; [reflexivity|].
    match goal with
    | H : TaskQueries.holds (Some date) _ = true |- _ => cbn in H
    end.
    destruct (Task.dueDate t) as [d|]; [|discriminate].
    f_equal. now apply Nat.eqb_eq.
Qed.

(** X13.  A listing of tasks writes nothing, and every task on the page
    it returns is a stored task that passes all the filters: workspace,
    project, status, priority, assignee, keyword and due date.  The
    order of the listing only has to keep within the matches. *)
Theorem listed_tasks_pass_filters
        (sortByCreatedAt : list Task.t -> list Task.t)
        (regexIgnoreCase : string -> option (string -> bool))
        (parseDate : string -> option Date)
        (workspaceId : ObjectId) (filters : TaskFilters)
        (pagination : PageRequest) (w w' : World) (r : TasksPage)
        (Hsort : forall l x, In x (sortByCreatedAt l) -> In x l) :
  getAllTasksService sortByCreatedAt regexIgnoreCase parseDate workspaceId
                     filters pagination w = (Returned r, w') ->
  w' = w
  /\ Forall (fun listed =>
               In (TaskQueries.populated_task listed) (tasks (db w))
               /\ passes_filters regexIgnoreCase parseDate workspaceId filters
                                 (TaskQueries.populated_task listed))
            (tasks_of_page r).
Proof.
  rewrite getAllTasksService_run.
  destruct (cast_query _ _ _ _) as [q|] eqn:Hq; [|discriminate].
  cbn zeta. destruct (_ <? 0)%Z; [discriminate|].
  intros H. injection H as <- <-. split; [reflexivity|].
  cbn [tasks_of_page]. apply List.Forall_forall. intros listed Hin.
  apply in_map_iff in Hin. destruct Hin as (t & <- & Hin).
  cbn [TaskQueries.populated_task].
  apply In_page, Hsort, filter_In in Hin. destruct Hin as [Hin Ht].
  split; [exact Hin|].
  exact (cast_query_Returned _ _ _ _ _ Hq t Ht).
Qed.

Lemma listed_tasks_pass_filters_witness :
  let filters :=
    mkTaskFilters (Some 7) (Some [TODO; DONE]) None (Some []) None None in
  let never : string -> option (string -> bool) := fun _ => None in
  let no_date : string -> option Date := fun _ => None in
  exists r,
    getAllTasksService (@rev Task.t) never no_date 5 filters
                       (mkPageRequest 10 1) sampleTeamWorld
    = (Returned r, sampleTeamWorld)
    /\ map (fun listed => Task._id (TaskQueries.populated_task listed))
           (tasks_of_page r) = [12; 10]
    /\ Forall (fun listed =>
                 In (TaskQueries.populated_task listed)
                    (tasks (db sampleTeamWorld))
                 /\ passes_filters never no_date 5 filters
                                   (TaskQueries.populated_task listed))
              (tasks_of_page r).
Proof.
  intros filters never no_date. eexists.
  split; [cbv; reflexivity|]. split; [reflexivity|].
  apply (listed_tasks_pass_filters (@rev Task.t) never no_date 5 filters
                                   (mkPageRequest 10 1) sampleTeamWorld
                                   sampleTeamWorld).
  - intros l x Hx. apply in_rev. exact Hx.
  - reflexivity.
Defined.

Lemma tasks_on_page_S sortByCreatedAt regexIgnoreCase parseDate workspaceId
      filters q s k w :
  cast_query regexIgnoreCase parseDate workspaceId filters = Returned q ->
  tasks_on_page sortByCreatedAt regexIgnoreCase parseDate workspaceId filters
                (S s) (S k) w
  = map (fun t =>
           TaskQueries.mkPopulated
             t (TaskQueries.populate_assignedTo (db w) t)
             (populate_project (db w) (Task.project t)))
        (firstn (S s)
                (skipn (k * S s)
                       (sortByCreatedAt
                          (List.filter (TaskQueries.satisfies q)
                                       (tasks (db w)))))).
Proof.
  intros Hq. unfold tasks_on_page. rewrite getAllTasksService_run, Hq.
  cbn [request_pageSize request_pageNumber]. cbn zeta.
  replace ((Z.of_nat (S k) - 1) * Z.of_nat (S s))%Z
    with (Z.of_nat (k * S s)) by lia.
  destruct (Z.ltb_spec (Z.of_nat (k * S s)) 0) as [Hneg|_]; [lia|].
  cbn [fst tasks_of_page]. rewrite Nat2Z.id. reflexivity.
Qed.

(** X14.  Page size 0 lists every matching task on one page.  With a
    positive page size and the same filters, the pages 1, 2, ... up to
    the number of pages computed from the total count are, laid end to
    end, exactly that one page, in the same order; the total count is
    its length and every later page is empty.  The order of the listing
    only has to keep the number of the matches. *)
Theorem task_pages_partition
        (sortByCreatedAt : list Task.t -> list Task.t)
        (regexIgnoreCase : string -> option (string -> bool))
        (parseDate : string -> option Date)
        (workspaceId : ObjectId) (filters : TaskFilters)
        (size : nat) (w : World) (all : TasksPage) :
  0 < size ->
  (forall l, length (sortByCreatedAt l) = length l) ->
  getAllTasksService sortByCreatedAt regexIgnoreCase parseDate workspaceId
                     filters (mkPageRequest 0 1) w = (Returned all, w) ->
  let last := page_count (totalCount (pagination all)) size in
  let on_page k :=
    tasks_on_page sortByCreatedAt regexIgnoreCase parseDate workspaceId
                  filters size k w in
  concat (map on_page (seq 1 last)) = tasks_of_page all
  /\ length (tasks_of_page all) = totalCount (pagination all)
  /\ (forall k, 1 <= k -> length (on_page k) <= size)
  /\ (forall k, last < k -> on_page k = []).
Proof.
  intros Hpos Hlen H last on_page.
  rewrite getAllTasksService_run in H.
  destruct (cast_query _ _ _ _) as [q|] eqn:Hq; [|discriminate].
  cbn in H. injection H as Hall. subst all last.
  cbn [tasks_of_page pagination totalCount].
  destruct size as [|s]; [lia|].
  set (matches := List.filter (TaskQueries.satisfies q) (tasks (db w))) in *.
  split; [|split; [|split]].
  - subst on_page. rewrite <- seq_shift, map_map.
    rewrite (map_ext _ _ (fun k => tasks_on_page_S sortByCreatedAt _ _ _ _ _
                                                   s k w Hq)).
    fold matches.
    rewrite <- (map_map (fun k => firstn (S s) (skipn (k * S s)
                                                     (sortByCreatedAt matches)))
                        (map (fun t =>
                                TaskQueries.mkPopulated
                                  t (TaskQueries.populate_assignedTo (db w) t)
                                  (populate_project (db w) (Task.project t))))).
    rewrite <- concat_map, concat_chunks; [reflexivity|].
    rewrite Hlen. apply page_count_covers. lia.
  - rewrite length_map. apply Hlen.
  - intros k Hk. subst on_page. destruct k as [|k]; [lia|].
    cbn beta. rewrite (tasks_on_page_S _ _ _ _ _ _ s k w Hq).
    rewrite length_map, length_firstn. lia.
  - intros k Hk. subst on_page. destruct k as [|k]; [lia|].
    cbn beta. rewrite (tasks_on_page_S _ _ _ _ _ _ s k w Hq).
    rewrite skipn_all2; [reflexivity|].
    fold matches. rewrite Hlen.
    pose proof (page_count_covers (length matches) (S s) ltac:(lia)) as Hcov.
    nia.
Qed.

Lemma task_pages_partition_witness :
  let filters := mkTaskFilters None None None None None None in
  let never : string -> option (string -> bool) := fun _ => None in
  let no_date : string -> option Date := fun _ => None in
  map (fun k =>
         map (fun listed => Task._id (TaskQueries.populated_task listed))
             (tasks_on_page (@rev Task.t) never no_date 5 filters 2 k
                            sampleTeamWorld))
      [1; 2; 3]
  = [[12; 11]; [10]; []].
Proof.
  intros filters never no_date.
  destruct (task_pages_partition
              (@rev Task.t) never no_date 5 filters 2 sampleTeamWorld
              (match fst (getAllTasksService (@rev Task.t) never no_date 5
                                             filters (mkPageRequest 0 1)
                                             sampleTeamWorld) with
               | Returned r => r
               | Raised _ => mkTasksPage [] (mkPagination 0 0 0 NaN 0)
               end))
    as (_ & _ & _ & Hlater).
  - lia.
  - intros l. apply length_rev.
  - reflexivity.
  - cbn [map]. rewrite (Hlater 3) by (vm_compute; lia). reflexivity.
Defined.

(** ** Invariants of the onboarding services *)

Lemma NoDup_snoc_fresh {A} (l : list A) (x : A) :
  List.NoDup l -> ~ In x l -> List.NoDup (l ++ [x]).
Proof.
  intros Hl Hx. induction Hl as [|y l Hy Hl IH]; simpl.
  - constructor; [intros []|constructor].
  - constructor.
    + intros Hin. apply in_app_or in Hin as [Hin|[<-|[]]].
      * exact (Hy Hin).
      * apply Hx. left. reflexivity.
    + apply IH. intros Hin. apply Hx. right. exact Hin.
Qed.

Lemma users_after_creation_emails hashValue w email name password picture us :
  users_after_creation hashValue w email name password picture = Some us ->
  map User.email us
  = map User.email (users (db w)) ++ [UserModel.castEmail email].
Proof.
  intros Hus. apply users_after_creation_map in Hus.
  apply (f_equal (map fst)) in Hus. rewrite !map_map in Hus.
  cbn [email_and_id fst] in Hus.
  transitivity
    (map User.email
         (users (db w)
            ++ [inserted_user hashValue w email name password picture]));
    [exact Hus|].
  rewrite map_app. reflexivity.
Qed.

Lemma find_user_None_email email w :
  find_user email w = None ->
  ~ In (UserModel.castEmail email) (map User.email (users (db w))).
Proof.
  intros Hnone Hin. apply find_None_existsb in Hnone.
  apply in_map_iff in Hin as (u & Hu & Hin).
  assert (Htrue : existsb (UserModel.has_email (UserModel.castEmail email))
                          (users (db w)) = true).
  { apply existsb_exists. exists u. split; [exact Hin|].
    unfold UserModel.has_email. rewrite Hu. apply String.eqb_refl. }
  congruence.
Qed.

Lemma created_database_unique_emails hashValue generateInviteCode w email name
      password picture us a role name' :
  find_user email w = None ->
  users_after_creation hashValue w email name password picture = Some us ->
  unique_emails (db w) ->
  unique_emails (created_database generateInviteCode w us a role name').
Proof.
  intros Hnone Hus Huniq. unfold unique_emails, created_database.
  cbn [users]. rewrite (users_after_creation_emails _ _ _ _ _ _ _ Hus).
  apply NoDup_snoc_fresh; [exact Huniq|].
  exact (find_user_None_email _ _ Hnone).
Qed.

(** X15.  Where the emails of the stored users are pairwise distinct,
    they still are after [registerUserService] and after
    [loginOrCreateAccountService], whatever the call was given and
    whether it returned or threw. *)
Theorem onboarding_keeps_emails_unique hashValue generateInviteCode w :
  unique_emails (db w) ->
  (forall body,
      unique_emails
        (db (snd (registerUserService hashValue generateInviteCode body w))))
  /\ (forall data,
      unique_emails
        (db (snd (loginOrCreateAccountService hashValue generateInviteCode
                                              data w)))).
Proof.
  intros Huniq. split.
  - intros body.
    destruct (registerUserService hashValue generateInviteCode body w)
      as [[reg|e] w'] eqn:Hrun;
      apply registerUserService_spec in Hrun; cbn [snd].
    + destruct Hrun as (Hfault & _ & _ & _ & role & us & _ & Hus & ->).
      apply register_fault_None in Hfault as [Hnone _].
      exact (created_database_unique_emails _ _ _ _ _ _ _ _ _ _ _
                                            Hnone Hus Huniq).
    + destruct Hrun as (_ & -> & _). exact Huniq.
  - intros data.
    destruct (loginOrCreateAccountService hashValue generateInviteCode data w)
      as [[user|e] w'] eqn:Hrun;
      apply loginOrCreateAccountService_spec in Hrun; cbn [snd].
    + destruct Hrun as (_ & _ & Hcase).
      destruct (find_user (data_email data) w) as [u|] eqn:Hfind.
      * destruct Hcase as (_ & -> & _). exact Huniq.
      * destruct Hcase as (_ & _ & role & us & _ & Hus & ->).
        exact (created_database_unique_emails _ _ _ _ _ _ _ _ _ _ _
                                              Hfind Hus Huniq).
    + destruct Hrun as (_ & -> & _). exact Huniq.
Qed.

Lemma onboarding_keeps_emails_unique_witness :
  let w1 := snd (registerUserService
                   sampleHash sampleInviteCode
                   (mkRegisterBody "ann@example.com" "Ann" "secret")
                   seededWorld) in
  map User.email (users (db w1)) = ["ann@example.com"]
  /\ unique_emails
       (db (snd (loginOrCreateAccountService
                   sampleHash sampleInviteCode
                   (mkLoginData "g-1" GOOGLE "Ann" " Ann@Example.com" None)
                   w1))).
Proof.
  intros w1. split; [vm_compute; reflexivity|].
  refine (proj2 (onboarding_keeps_emails_unique sampleHash sampleInviteCode
                                                w1 _) _).
  vm_compute. repeat constructor. simpl. tauto.
Defined.

Lemma user_stored_created generateInviteCode hashValue w email name password
      picture us a role name' id :
  users_after_creation hashValue w email name password picture = Some us ->
  user_stored (created_database generateInviteCode w us a role name') id
  = user_stored (db w) id || Nat.eqb (next_oid w) id.
Proof.
  intros Hus. unfold user_stored, created_database. cbn [users].
  assert (Hids : forall l,
             existsb (UserModel.has_id id) l
             = existsb (fun p => Nat.eqb (snd p) id) (map email_and_id l)).
  { induction l as [|u l IH]; simpl; [reflexivity|]. rewrite IH. reflexivity. }
  rewrite (Hids us), (users_after_creation_map _ _ _ _ _ _ _ Hus), <- Hids.
  rewrite existsb_app. simpl. rewrite orb_false_r. reflexivity.
Qed.

Lemma forallb_weaken {A} (p q : A -> bool) (l : list A) :
  (forall x, p x = true -> q x = true) ->
  forallb p l = true -> forallb q l = true.
Proof.
  intros Hpq H. apply forallb_forall. intros x Hx.
  apply Hpq. exact (proj1 (forallb_forall p l) H x Hx).
Qed.

Lemma created_database_references hashValue generateInviteCode w email name
      password picture us a role name' :
  users_after_creation hashValue w email name password picture = Some us ->
  find (RoleModel.has_name OWNER) (roles (db w)) = Some role ->
  Account.userId a = next_oid w ->
  references_resolve (db w) = true ->
  references_resolve (created_database generateInviteCode w us a role name')
  = true.
Proof.
  intros Hus Hrole Ha Href.
  pose proof (fun id =>
                user_stored_created generateInviteCode _ _ _ _ _ _ _ a role
                                    name' id Hus) as Hstored.
  unfold references_resolve in *.
  apply andb_prop in Href as [Href Hms]. apply andb_prop in Href as [Has Hws].
  set (d' := created_database generateInviteCode w us a role name') in *.
  assert (Hnew : user_stored d' (next_oid w) = true)
    by (rewrite Hstored, Nat.eqb_refl; apply orb_true_r).
  assert (Hold : forall id, user_stored (db w) id = true ->
                            user_stored d' id = true)
    by (intros id Hid; rewrite Hstored, Hid; reflexivity).
  repeat (apply andb_true_intro; split).
  - cbn [d' created_database accounts]. rewrite forallb_app.
    apply andb_true_intro. split.
    + revert Has. apply forallb_weaken. intros x. apply Hold.
    + simpl. rewrite Ha, Hnew. reflexivity.
  - cbn [d' created_database workspaces]. rewrite forallb_app.
    apply andb_true_intro. split.
    + revert Hws. apply forallb_weaken. intros x. apply Hold.
    + simpl. fold d'. rewrite Hnew. reflexivity.
  - cbn [d' created_database members workspaces roles]. rewrite forallb_app.
    apply andb_true_intro. split.
    + revert Hms. apply forallb_weaken. intros m Hm.
      apply andb_prop in Hm as [Hm Hr]. apply andb_prop in Hm as [Hu Hw].
      fold d'. rewrite (Hold _ Hu), Hr, existsb_app, Hw. reflexivity.
    + cbn [forallb created_member Member.userId Member.workspaceId
                   Member.role].
      rewrite andb_true_r. fold d'.
      apply andb_true_intro; split; [apply andb_true_intro; split|].
      * exact Hnew.
      * rewrite existsb_app. apply orb_true_iff. right.
        cbn [existsb created_workspace Workspace._id].
        rewrite Nat.eqb_refl. reflexivity.
      * apply existsb_exists.
        exists role. split; [exact (In_find _ _ _ Hrole)|apply Nat.eqb_refl].
Qed.

(** X16.  Where every Account, Workspace and Member refers to a stored
    user, and every Member to a stored workspace and a stored role, the
    same holds after [registerUserService] and after
    [loginOrCreateAccountService], whatever the call was given and
    whether it returned or threw: the onboarding leaves no reference
    that dangles. *)
Theorem onboarding_keeps_references hashValue generateInviteCode w :
  references_resolve (db w) = true ->
  (forall body,
      references_resolve
        (db (snd (registerUserService hashValue generateInviteCode body w)))
      = true)
  /\ (forall data,
      references_resolve
        (db (snd (loginOrCreateAccountService hashValue generateInviteCode
                                              data w)))
      = true).
Proof.
  intros Href. split.
  - intros body.
    destruct (registerUserService hashValue generateInviteCode body w)
      as [[reg|e] w'] eqn:Hrun;
      apply registerUserService_spec in Hrun; cbn [snd].
    + destruct Hrun as (_ & _ & _ & _ & role & us & Hrole & Hus & ->).
      apply (created_database_references _ _ _ _ _ _ _ _ _ _ _
                                         Hus Hrole); [reflexivity|exact Href].
    + destruct Hrun as (_ & -> & _). exact Href.
  - intros data.
    destruct (loginOrCreateAccountService hashValue generateInviteCode data w)
      as [[user|e] w'] eqn:Hrun;
      apply loginOrCreateAccountService_spec in Hrun; cbn [snd].
    + destruct Hrun as (_ & _ & Hcase).
      destruct (find_user (data_email data) w) as [u|] eqn:Hfind.
      * destruct Hcase as (_ & -> & _). exact Href.
      * destruct Hcase as (_ & _ & role & us & Hrole & Hus & ->).
        apply (created_database_references _ _ _ _ _ _ _ _ _ _ _
                                           Hus Hrole); [reflexivity|exact Href].
    + destruct Hrun as (_ & -> & _). exact Href.
Qed.

Lemma onboarding_keeps_references_witness :
  let w1 := snd (loginOrCreateAccountService
                   sampleHash sampleInviteCode
                   (mkLoginData "g-1" GOOGLE "Bob" "bob@x.io" None)
                   seededWorld) in
  length (members (db w1)) = 1
  /\ references_resolve
       (db (snd (registerUserService
                   sampleHash sampleInviteCode
                   (mkRegisterBody "ann@example.com" "Ann" "secret") w1)))
     = true.
Proof.
  intros w1. split; [vm_compute; reflexivity|].
  refine (proj1 (onboarding_keeps_references sampleHash sampleInviteCode
                                             w1 _) _).
  vm_compute. reflexivity.
Defined.

(** ** Password verification and the two ways in *)

(** X17.  When [verifyUserService] returns a user, it has written
    nothing, a stored Account of the provider asked for (EMAIL when none
    is given) has the email as [providerId], the user is the stored User
    that this Account refers to, [compareValue] has accepted the password
    against the stored one, and the user comes back without
    [password]. *)
Theorem verify_returns_checked_user compareValue params w r w' :
  verifyUserService compareValue params w = (Ok r, w') ->
  w' = w
  /\ User.password r = None
  /\ exists account u,
      In account (accounts (db w))
      /\ Account.provider account = default EMAIL (params_provider params)
      /\ Account.providerId account = params_email params
      /\ In u (users (db w))
      /\ User._id u = Account.userId account
      /\ compareValue (params_password params) (User.password u) = Ok true
      /\ r = UserModel.omitPassword (UserModel.loaded u).
Proof.
  rewrite verifyUserService_run.
  destruct (find _ (accounts (db w))) as [account|] eqn:Haccount;
    [|discriminate].
  destruct (find _ (users (db w))) as [u|] eqn:Hu; [|discriminate].
  destruct (compareValue _ _) as [[|]|e] eqn:Hcompare; try discriminate.
  intros H. injection H as <- <-.
  split; [reflexivity|]. split; [reflexivity|].
  exists account, u.
  pose proof (find_Some_holds _ _ _ Haccount) as Hmatches.
  apply andb_prop in Hmatches as [Hprovider HproviderId].
  pose proof (find_Some_holds _ _ _ Hu) as Hid.
  repeat split.
  - exact (In_find _ _ _ Haccount).
  - destruct (Account.provider account),
      (default EMAIL (params_provider params));
      (reflexivity || discriminate).
  - apply String.eqb_eq. exact HproviderId.
  - exact (In_find _ _ _ Hu).
  - apply Nat.eqb_eq. exact Hid.
  - exact Hcompare.
Qed.

Lemma verify_returns_checked_user_witness :
  let w := snd (registerUserService
                  sampleHash sampleInviteCode
                  (mkRegisterBody "ann@example.com" "Ann" "secret")
                  seededWorld) in
  exists r,
    verifyUserService sampleCompare
                      (mkVerifyParams "ann@example.com" "secret" None) w
    = (Ok r, w)
    /\ User.password r = None.
Proof.
  intros w. eexists. split; [vm_compute; reflexivity|].
  refine (proj1 (proj2 (verify_returns_checked_user
                          sampleCompare
                          (mkVerifyParams "ann@example.com" "secret" None)
                          w _ w _))).
  vm_compute. reflexivity.
Defined.

Lemma find_user_castEmail email1 email2 w :
  UserModel.castEmail email2 = UserModel.castEmail email1 ->
  find_user email2 w = find_user email1 w.
Proof. unfold find_user. intros ->. reflexivity. Qed.

(** X18.  When [registerUserService] has returned for an email, a login
    through any provider with an email that the schema casts to the same
    value (case and surrounding blanks apart) returns the registered
    user and writes nothing: no second User, and no Account for that
    provider. *)
Theorem register_then_login hashValue generateInviteCode body data w reg w1 :
  UserModel.castEmail (data_email data) = UserModel.castEmail (body_email body) ->
  registerUserService hashValue generateInviteCode body w = (Ok reg, w1) ->
  exists user w2,
    loginOrCreateAccountService hashValue generateInviteCode data w1
    = (Ok user, w2)
    /\ User._id (UserModel.fields user) = userId reg
    /\ db w2 = db w1.
Proof.
  intros Hemail Hrun1.
  apply registerUserService_spec in Hrun1
    as (Hfault & -> & _ & _ & role & us & _ & Hus & Hdb).
  apply register_fault_None in Hfault as [Hnone _].
  destruct (users_after_creation_find _ _ _ _ _ _ _ Hnone Hus)
    as (u & Hu & Hid).
  assert (Hfound : find_user (data_email data) w1 = Some u).
  { unfold find_user. rewrite Hemail, Hdb. exact Hu. }
  assert (Hfault2 : login_fault generateInviteCode data w1 = None)
    by (unfold login_fault; rewrite Hfound; reflexivity).
  destruct (login_no_fault_returns hashValue _ _ _ Hfault2)
    as (user & w2 & Hrun2).
  exists user, w2. split; [exact Hrun2|].
  apply loginOrCreateAccountService_spec in Hrun2 as (_ & _ & Hcase).
  rewrite Hfound in Hcase. destruct Hcase as (-> & -> & _).
  split; [exact Hid|reflexivity].
Qed.

Lemma register_then_login_witness :
  let body := mkRegisterBody "ann@example.com" "Ann" "secret" in
  let data := mkLoginData "g-1" GOOGLE "Ann G." " Ann@Example.com" None in
  let w1 := snd (registerUserService sampleHash sampleInviteCode body
                                     seededWorld) in
  exists user w2,
    loginOrCreateAccountService sampleHash sampleInviteCode data w1
    = (Ok user, w2)
    /\ User._id (UserModel.fields user) = 1
    /\ db w2 = db w1.
Proof.
  intros body data w1.
  apply (register_then_login sampleHash sampleInviteCode body data seededWorld
                             (mkRegistered 1 3) w1).
  - vm_compute. reflexivity.
  - vm_compute. reflexivity.
Defined.

(** X19.  When [loginOrCreateAccountService] has returned for an email,
    [registerUserService] with an email that the schema casts to the
    same value throws [BadRequestException] and leaves the database as
    it is: an email that came in through a provider cannot be
    registered with a password. *)
Theorem login_then_register hashValue generateInviteCode data body w user w1 :
  UserModel.castEmail (body_email body) = UserModel.castEmail (data_email data) ->
  loginOrCreateAccountService hashValue generateInviteCode data w
  = (Ok user, w1) ->
  exists w2,
    registerUserService hashValue generateInviteCode body w1
    = (Throw (BadRequestException "Email already exists"), w2)
    /\ db w2 = db w1.
Proof.
  intros Hemail Hrun1.
  apply loginOrCreateAccountService_spec in Hrun1 as (_ & _ & Hcase).
  assert (Hfound : exists u, find_user (body_email body) w1 = Some u).
  { rewrite (find_user_castEmail _ _ _ Hemail). unfold find_user at 1.
    destruct (find_user (data_email data) w) as [u|] eqn:Hfind.
    - destruct Hcase as (_ & -> & _). exists u. exact Hfind.
    - destruct Hcase as (_ & _ & role & us & _ & Hus & ->).
      destruct (users_after_creation_find _ _ _ _ _ _ _ Hfind Hus)
        as (u & Hu & _).
      exists u. exact Hu. }
  destruct Hfound as (u & Hu).
  assert (Hfault : register_fault generateInviteCode body w1
                   = Some (BadRequestException "Email already exists"))
    by (unfold register_fault; rewrite Hu; reflexivity).
  destruct (register_fault_throws hashValue _ _ _ _ Hfault) as (w2 & Hrun2).
  exists w2. split; [exact Hrun2|].
  apply registerUserService_spec in Hrun2 as (_ & Hdb & _). exact Hdb.
Qed.

Lemma login_then_register_witness :
  let data := mkLoginData "g-1" GOOGLE "Bob" "bob@x.io" None in
  let body := mkRegisterBody "BOB@x.io " "Bob" "secret" in
  let w1 := snd (loginOrCreateAccountService sampleHash sampleInviteCode data
                                             seededWorld) in
  exists w2,
    registerUserService sampleHash sampleInviteCode body w1
    = (Throw (BadRequestException "Email already exists"), w2)
    /\ db w2 = db w1.
Proof.
  intros data body w1.
  apply (login_then_register
           sampleHash sampleInviteCode data body seededWorld
           (UserModel.loaded
              (User.mk 1 "Bob" "bob@x.io" None None (Some 3) true None))
           w1).
  - vm_compute. reflexivity.
  - vm_compute. reflexivity.
Defined.
